(** * Bug tracker REST API: the Bug model and the /api/bugs router

    A shallow embedding of [server/models/Bug.js] (the Mongoose schema and
    its instance methods), [server/routes/bugsRouter.js] (the eight route
    handlers) and [server/middleware/errorHandler.js], followed by the
    properties of the specification that concern them.

    Modelling conventions.
    - A request body or query string is a JSON object whose members, when
      present, are strings ([customer] is an object of strings).  A member
      that is absent is [None]; JavaScript truthiness of such a member is
      "present and non-empty".  A body may carry members beyond the ones
      the routes read; their names are kept in [Body.others], and what
      Mongoose does with them is not described: the properties that
      depend on it assume that there are none.
    - A string is held as the bytes of its UTF-8 encoding.  The [length]
      of a JavaScript string is counted in UTF-16 code units
      ([utf16Length]); [trim] strips the white space of ECMAScript.
    - The documents of the collection are kept in insertion order.
    - What a request takes from outside the process is an explicit input
      of the request ([Env]): the clock, the ObjectId generated for a new
      document, the webhook configuration and the outcome of the webhook
      call, which is taken to settle.  One clock reading is used per
      request.
    - The state of the server is the collection and the requests it has
      sent to the webhook.  Console output is not part of it.
    - The identifier format of the storage engine is a parameter
      ([castObjectId]) of the development. *)

From Stdlib Require Import String Ascii List Bool NArith Arith Lia Permutation.
From Stdlib Require Import DecimalString Sorted.
Import ListNotations.
Open Scope string_scope.

(** ** JavaScript strings *)

(** [!!s] for a string. *)
Definition truthy (s : string) : bool := negb (s =? "").

(** [!!x] for an optional string member. *)
Definition truthyO (o : option string) : bool :=
  match o with
  | Some s => truthy s
  | None => false
  end.

(** [x || d] where the result is used as a string. *)
Definition orElse (o : option string) (d : string) : string :=
  match o with
  | Some s => if truthy s then s else d
  | None => d
  end.

(** [x === v] for an optional string member and a string. *)
Definition strictEq (o : option string) (v : string) : bool :=
  match o with
  | Some s => s =? v
  | None => false
  end.

(** *** White space

    The characters that [String.prototype.trim] strips and that the
    class [\s] of a regular expression matches are TAB, LF, VT, FF, CR,
    SPACE, U+00A0, U+1680, U+2000 to U+200A, U+2028, U+2029, U+202F,
    U+205F, U+3000 and U+FEFF.  [whiteSpace] lists their UTF-8
    encodings. *)

Definition bytes (l : list nat) : list ascii := List.map ascii_of_nat l.

Definition whiteSpace : list (list ascii) :=
  List.map bytes
    [ [9]; [10]; [11]; [12]; [13]; [32];
      [194; 160];
      [225; 154; 128];
      [226; 128; 128]; [226; 128; 129]; [226; 128; 130]; [226; 128; 131];
      [226; 128; 132]; [226; 128; 133]; [226; 128; 134]; [226; 128; 135];
      [226; 128; 136]; [226; 128; 137]; [226; 128; 138];
      [226; 128; 168]; [226; 128; 169]; [226; 128; 175];
      [226; 129; 159];
      [227; 128; 128];
      [239; 187; 191] ].

(** [s] without its prefix [w], when it has that prefix. *)
Fixpoint dropPrefix (w s : list ascii) : option (list ascii) :=
  match w, s with
  | [], _ => Some s
  | a :: w', c :: s' => if Ascii.eqb a c then dropPrefix w' s' else None
  | _ :: _, [] => None
  end.

(** [s] without the first of the words [ws] it starts with. *)
Fixpoint dropAny (ws : list (list ascii)) (s : list ascii) : option (list ascii) :=
  match ws with
  | [] => None
  | w :: rest =>
      match dropPrefix w s with
      | Some r => Some r
      | None => dropAny rest s
      end
  end.

(** [s] without its leading words of [ws]; every step removes at least
    one byte, so a [fuel] of the length of [s] is enough. *)
Fixpoint strip (ws : list (list ascii)) (fuel : nat) (s : list ascii) : list ascii :=
  match fuel with
  | O => s
  | S fuel' =>
      match dropAny ws s with
      | Some r => strip ws fuel' r
      | None => s
      end
  end.

Definition trimStartBytes (s : list ascii) : list ascii :=
  strip whiteSpace (List.length s) s.

Definition trimEndBytes (s : list ascii) : list ascii :=
  List.rev (strip (List.map (@List.rev ascii) whiteSpace) (List.length s) (List.rev s)).

Definition trimStart (s : string) : string :=
  string_of_list_ascii (trimStartBytes (list_ascii_of_string s)).

Definition trimEnd (s : string) : string :=
  string_of_list_ascii (trimEndBytes (list_ascii_of_string s)).

(** [String.prototype.trim], the setter installed by [trim: true]. *)
Definition trim (s : string) : string :=
  string_of_list_ascii (trimEndBytes (trimStartBytes (list_ascii_of_string s))).

(** [s] starts with a white-space character. *)
Definition startsWithSpace (s : string) : bool :=
  match dropAny whiteSpace (list_ascii_of_string s) with
  | Some _ => true
  | None => false
  end.

(** [s] holds a white-space character. *)
Fixpoint hasSpace (s : string) : bool :=
  match s with
  | EmptyString => false
  | String _ rest => startsWithSpace s || hasSpace rest
  end.

(** *** Length

    The number of UTF-16 code units of the character a byte begins: none
    for a continuation byte, two for the first byte of a four-byte
    sequence (a character outside the basic plane, held as a surrogate
    pair), one otherwise. *)
Definition codeUnits (c : ascii) : nat :=
  let n := nat_of_ascii c in
  if (n <? 128)%nat then 1
  else if (n <? 192)%nat then 0
  else if (n <? 240)%nat then 1
  else 2.

(** [s.length]. *)
Fixpoint utf16Length (s : string) : nat :=
  match s with
  | EmptyString => 0
  | String c rest => codeUnits c + utf16Length rest
  end.

Definition nl : string := String (ascii_of_nat 10) EmptyString.

(** The double quote. *)
Definition dquote : string := String (ascii_of_nat 34) EmptyString.

Fixpoint join (sep : string) (l : list string) : string :=
  match l with
  | [] => ""
  | [x] => x
  | x :: rest => x ++ sep ++ join sep rest
  end.

(** [Array.prototype.includes] on an array of strings. *)
Fixpoint includes (l : list string) (x : string) : bool :=
  match l with
  | [] => false
  | y :: rest => (y =? x) || includes rest x
  end.

(** ** The Bug document (models/Bug.js) *)

Definition ObjectId := N.
Definition Date := N.

Record Customer := {
  cust_name : option string;
  cust_email : option string;
  cust_id : option string
}.

Record Comment := {
  c_author : string;
  c_message : string;
  c_createdAt : Date
}.

Record StatusChange := {
  h_from : string;
  h_to : string;
  h_by : string;
  h_at : Date;
  h_reason : option string
}.

Record Bug := {
  _id : ObjectId;
  title : string;
  description : string;
  priority : string;
  status : string;
  reportedBy : string;
  assignedTo : string;
  source : string;
  customer : Customer;
  comments : list Comment;
  statusHistory : list StatusChange;
  createdAt : Date;
  updatedAt : Date
}.

Definition priorityValues : list string := ["Low"; "Medium"; "High"].
Definition statusValues : list string := ["Open"; "In Progress"; "Resolved"].
Definition sourceValues : list string := ["internal"; "customer"].

(** *** Schema validators

    Each path reports at most one message: [required] runs first, then the
    other validators in declaration order. *)

Definition validate_title (v : string) : list string :=
  if negb (truthy v) then ["Bug title is required"]
  else if (100 <? utf16Length v)%nat then ["Title cannot exceed 100 characters"]
  else [].

Definition validate_description (v : string) : list string :=
  if negb (truthy v) then ["Bug description is required"]
  else if (1000 <? utf16Length v)%nat then ["Description cannot exceed 1000 characters"]
  else [].

Definition validate_priority (v : string) : list string :=
  if negb (truthy v) then ["Priority is required"]
  else if negb (includes priorityValues v) then ["Priority must be Low, Medium, or High"]
  else [].

Definition validate_status (v : string) : list string :=
  if negb (truthy v) then ["Status is required"]
  else if negb (includes statusValues v) then ["Status must be Open, In Progress, or Resolved"]
  else [].

Definition validate_reportedBy (v : string) : list string :=
  if negb (truthy v) then ["Reporter name is required"]
  else if (50 <? utf16Length v)%nat then ["Reporter name cannot exceed 50 characters"]
  else [].

Definition validate_source (v : string) : list string :=
  if negb (includes sourceValues v) then ["Source must be internal or customer"]
  else [].

Definition validate_comment (c : Comment) : list string :=
  (if negb (truthy (c_author c)) then ["Path `author` is required."] else [])
  ++ (if negb (truthy (c_message c)) then ["Path `message` is required."]
      else if (2000 <? utf16Length (c_message c))%nat
           then ["Path `message` (`" ++ c_message c
                 ++ "`) is longer than the maximum allowed length (2000)."]
           else []).

Definition validate_statusChange (h : StatusChange) : list string :=
  (if negb (truthy (h_to h)) then ["Path `to` is required."] else [])
  ++ (match h_reason h with
      | Some r => if (500 <? utf16Length r)%nat
                  then ["Path `reason` (`" ++ r
                        ++ "`) is longer than the maximum allowed length (500)."]
                  else []
      | None => []
      end).

(** [doc.validate()], run by [save] before anything is written. *)
Definition validate (d : Bug) : list string :=
  validate_title (title d)
  ++ validate_description (description d)
  ++ validate_priority (priority d)
  ++ validate_status (status d)
  ++ validate_reportedBy (reportedBy d)
  ++ validate_source (source d)
  ++ flat_map validate_comment (comments d)
  ++ flat_map validate_statusChange (statusHistory d).

(** ** Requests, responses, errors *)

(** [req.body]. *)
Module Body.
Record t := {
  title : option string;
  description : option string;
  priority : option string;
  status : option string;
  reportedBy : option string;
  assignedTo : option string;
  source : option string;
  customer : option Customer;
  updatedBy : option string;
  reason : option string;
  by_ : option string;
  author : option string;
  message : option string;
  customerName : option string;
  customerEmail : option string;
  customerId : option string;
  (** The names of the further members of the object. *)
  others : list string
}.

(** The object [{}]. *)
Definition empty : t :=
  {| title := None; description := None; priority := None; status := None;
     reportedBy := None; assignedTo := None; source := None; customer := None;
     updatedBy := None; reason := None; by_ := None; author := None;
     message := None; customerName := None; customerEmail := None;
     customerId := None; others := [] |}.

(** The same object with its [status] member replaced. *)
Definition with_status (st : option string) (b : t) : t :=
  {| title := title b; description := description b; priority := priority b;
     status := st;
     reportedBy := reportedBy b; assignedTo := assignedTo b; source := source b;
     customer := customer b; updatedBy := updatedBy b; reason := reason b;
     by_ := by_ b; author := author b; message := message b;
     customerName := customerName b; customerEmail := customerEmail b;
     customerId := customerId b; others := others b |}.
End Body.

(** [req.query]. *)
Module Query.
Record t := {
  status : option string;
  priority : option string;
  source : option string;
  assignedTo : option string;
  sortBy : option string;
  order : option string
}.

Definition empty : t :=
  {| status := None; priority := None; source := None; assignedTo := None;
     sortBy := None; order := None |}.
End Query.

(** A thrown JavaScript error, with the members the handlers inspect. *)
Module Err.
Record t := {
  name : string;
  message : string;
  code : option N;
  statusCode : option nat;
  errors : list string
}.
End Err.

(** Mongoose's error for an identifier that does not cast to an ObjectId. *)
Definition CastError (value : string) : Err.t :=
  {| Err.name := "CastError";
     Err.message := "Cast to ObjectId failed for value " ++ value;
     Err.code := None; Err.statusCode := None; Err.errors := [] |}.

(** Mongoose's error for a document or update that fails its validators;
    [errors] holds the messages of the failed paths.  No response
    carries the [message] of this error, which is abbreviated here. *)
Definition ValidationError (msgs : list string) : Err.t :=
  {| Err.name := "ValidationError";
     Err.message := "Validation failed: " ++ join ", " msgs;
     Err.code := None; Err.statusCode := None; Err.errors := msgs |}.

(** The driver's error for an insert whose [_id] is already in use. *)
Definition DuplicateKeyError : Err.t :=
  {| Err.name := "MongoServerError";
     Err.message := "E11000 duplicate key error";
     Err.code := Some 11000%N; Err.statusCode := None; Err.errors := [] |}.

(** [new Error(msg)]. *)
Definition Error (msg : string) : Err.t :=
  {| Err.name := "Error"; Err.message := msg;
     Err.code := None; Err.statusCode := None; Err.errors := [] |}.

(** [new ApiError(message, statusCode)] (middleware/errorHandler.js). *)
Definition ApiError (msg : string) (statusCode : nat) : Err.t :=
  {| Err.name := "Error"; Err.message := msg;
     Err.code := None; Err.statusCode := Some statusCode; Err.errors := [] |}.

Inductive Data :=
| NoData
| OneBug (b : Bug)
| Bugs (l : list Bug)
| OneComment (c : option Comment).

(** What [res.status(code).json({...})] sends. *)
Module Res.
Record t := {
  statusCode : nat;
  success : bool;
  data : Data;
  count : option nat;
  message : option string;
  error : option string;
  errors : option (list string)
}.
End Res.

(** [res.status(code).json({ success: false, message })]. *)
Definition fail (code : nat) (msg : string) : Res.t :=
  {| Res.statusCode := code; Res.success := false; Res.data := NoData;
     Res.count := None; Res.message := Some msg; Res.error := None;
     Res.errors := None |}.

(** [res.status(code).json({ success: true, data, message })]. *)
Definition ok (code : nat) (d : Data) (msg : option string) : Res.t :=
  {| Res.statusCode := code; Res.success := true; Res.data := d;
     Res.count := None; Res.message := msg; Res.error := None;
     Res.errors := None |}.

(** ** The error-handling middleware (middleware/errorHandler.js) *)

Definition errorHandler (err : Err.t) : Res.t :=
  let error := err in
  let error :=
    if Err.name err =? "CastError" then ApiError "Resource not found" 404
    else error in
  let error :=
    match Err.code err with
    | Some 11000%N => ApiError "Duplicate field value entered" 400
    | _ => error
    end in
  let error :=
    if Err.name err =? "ValidationError"
    then ApiError (join ", " (Err.errors err)) 400
    else error in
  let error :=
    if Err.name err =? "JsonWebTokenError" then ApiError "Invalid token" 401
    else error in
  let error :=
    if Err.name err =? "TokenExpiredError" then ApiError "Token expired" 401
    else error in
  let statusCode :=
    match Err.statusCode error with
    | Some 0%nat | None => 500%nat
    | Some c => c
    end in
  let message :=
    if truthy (Err.message error) then Err.message error else "Server Error" in
  {| Res.statusCode := statusCode; Res.success := false; Res.data := NoData;
     Res.count := None; Res.message := None; Res.error := Some message;
     Res.errors := None |}.

(** ** The outside world of a request and the state of the server *)

Record Env := {
  now : Date;
  newObjectId : ObjectId;
  SLACK_WEBHOOK_URL : option string;
  (** [axios.post url {text}]: [None] when the promise resolves, the
      message of the rejection otherwise. *)
  axios_post : string -> string -> option string
}.

(** A request the server sends out: [axios.post(url, { text })]. *)
Inductive Event :=
| WebhookPost (url text : string).

(** The collection, and the requests sent to the webhook so far, oldest
    first. *)
Record State := {
  bugs : list Bug;
  trace : list Event
}.

Definition with_bugs (l : list Bug) (s : State) : State :=
  {| bugs := l; trace := trace s |}.

Definition emit (e : Event) (s : State) : State :=
  {| bugs := bugs s; trace := trace s ++ [e] |}.

(** Code that reads and writes the state and may throw. *)
Definition M (A : Type) : Type := State -> (Err.t + A) * State.

Definition ret {A} (a : A) : M A := fun s => (inr a, s).

Definition throw {A} (e : Err.t) : M A := fun s => (inl e, s).

Definition bind {A B} (m : M A) (k : A -> M B) : M B :=
  fun s =>
    match m s with
    | (inr a, s') => k a s'
    | (inl e, s') => (inl e, s')
    end.

(** [try { m } catch (e) { h e }]. *)
Definition try_catch {A} (m : M A) (h : Err.t -> M A) : M A :=
  fun s =>
    match m s with
    | (inr a, s') => (inr a, s')
    | (inl e, s') => h e s'
    end.

Notation "x <- m ;; k" := (bind m (fun x => k))
  (at level 61, m at next level, right associativity).
Notation "m ;;; k" := (bind m (fun _ => k))
  (at level 61, right associativity).

(** A route handler: [try { body } catch (error) { onError error }], where
    [onError] ends either in a response of its own or in [next(error)],
    which reaches [errorHandler]. *)
Definition route (body : M Res.t) (onError : Err.t -> Res.t) : State -> Res.t * State :=
  fun s =>
    match body s with
    | (inr r, s') => (r, s')
    | (inl e, s') => (onError e, s')
    end.

Definition next : Err.t -> Res.t := errorHandler.

(** ** Documents: construction and setters *)

(** The value of a member, or the schema default when it is undefined. *)
Definition getOr (o : option string) (d : string) : string :=
  match o with
  | Some s => s
  | None => d
  end.

Definition noCustomer : Customer :=
  {| cust_name := None; cust_email := None; cust_id := None |}.

(** The [trim] setters of the nested [customer] paths. *)
Definition castCustomer (c : Customer) : Customer :=
  {| cust_name := option_map trim (cust_name c);
     cust_email := option_map trim (cust_email c);
     cust_id := option_map trim (cust_id c) |}.

(** A [statusHistory] element as [push] casts it: [at] defaults to the
    clock, [by] and [reason] are trimmed. *)
Definition newStatusChange (env : Env) (from to by_ : string) (reason : option string)
  : StatusChange :=
  {| h_from := from; h_to := to; h_by := trim by_; h_at := now env;
     h_reason := option_map trim reason |}.

(** A [comments] element as [push] casts it. *)
Definition newComment (env : Env) (author message : string) : Comment :=
  {| c_author := trim author; c_message := trim message; c_createdAt := now env |}.

(** [new Bug(obj)]: every schema path takes its member of [obj] through
    the path's setter, or its default; a path without default that is not
    given is the empty string. *)
Definition new_Bug (env : Env) (obj : Body.t) : Bug :=
  {| _id := newObjectId env;
     title := trim (getOr (Body.title obj) "");
     description := trim (getOr (Body.description obj) "");
     priority := getOr (Body.priority obj) "Medium";
     status := getOr (Body.status obj) "Open";
     reportedBy := trim (getOr (Body.reportedBy obj) "");
     assignedTo := trim (getOr (Body.assignedTo obj) "");
     source := getOr (Body.source obj) "internal";
     customer := match Body.customer obj with
                 | Some c => castCustomer c
                 | None => noCustomer
                 end;
     comments := [];
     statusHistory := [];
     createdAt := now env;
     updatedAt := now env |}.

(** [doc.set(obj)], for the members of [obj] the routes read: the schema
    paths that [obj] carries are overwritten, the others are kept;
    [updatedBy] and the like are no schema paths and are dropped.  What
    [set] does with the members named in [Body.others] (among them could
    be [statusHistory], [comments], [createdAt] or a dotted path) is not
    described here. *)
Definition set (this : Bug) (obj : Body.t) : Bug :=
  {| _id := _id this;
     title := match Body.title obj with Some v => trim v | None => title this end;
     description :=
       match Body.description obj with Some v => trim v | None => description this end;
     priority := getOr (Body.priority obj) (priority this);
     status := getOr (Body.status obj) (status this);
     reportedBy :=
       match Body.reportedBy obj with Some v => trim v | None => reportedBy this end;
     assignedTo :=
       match Body.assignedTo obj with Some v => trim v | None => assignedTo this end;
     source := getOr (Body.source obj) (source this);
     customer := match Body.customer obj with
                 | Some c => castCustomer c
                 | None => customer this
                 end;
     comments := comments this;
     statusHistory := statusHistory this;
     createdAt := createdAt this;
     updatedAt := updatedAt this |}.

Definition set_status (v : string) (this : Bug) : Bug :=
  {| _id := _id this; title := title this; description := description this;
     priority := priority this; status := v; reportedBy := reportedBy this;
     assignedTo := assignedTo this; source := source this;
     customer := customer this; comments := comments this;
     statusHistory := statusHistory this; createdAt := createdAt this;
     updatedAt := updatedAt this |}.

Definition set_updatedAt (v : Date) (this : Bug) : Bug :=
  {| _id := _id this; title := title this; description := description this;
     priority := priority this; status := status this;
     reportedBy := reportedBy this; assignedTo := assignedTo this;
     source := source this; customer := customer this;
     comments := comments this; statusHistory := statusHistory this;
     createdAt := createdAt this; updatedAt := v |}.

(** [this.statusHistory.push(h)]. *)
Definition push_statusHistory (h : StatusChange) (this : Bug) : Bug :=
  {| _id := _id this; title := title this; description := description this;
     priority := priority this; status := status this;
     reportedBy := reportedBy this; assignedTo := assignedTo this;
     source := source this; customer := customer this;
     comments := comments this; statusHistory := statusHistory this ++ [h];
     createdAt := createdAt this; updatedAt := updatedAt this |}.

(** [this.comments.push(c)]. *)
Definition push_comments (c : Comment) (this : Bug) : Bug :=
  {| _id := _id this; title := title this; description := description this;
     priority := priority this; status := status this;
     reportedBy := reportedBy this; assignedTo := assignedTo this;
     source := source this; customer := customer this;
     comments := comments this ++ [c]; statusHistory := statusHistory this;
     createdAt := createdAt this; updatedAt := updatedAt this |}.

(** The validators of the paths an update carries ([runValidators: true]),
    applied to the values as the setters leave them.  The messages come
    in the order of the schema; the order in which Mongoose reports them
    is not modelled. *)
Definition validateUpdate (obj : Body.t) : list string :=
  match Body.title obj with Some v => validate_title (trim v) | None => [] end
  ++ match Body.description obj with
     | Some v => validate_description (trim v)
     | None => []
     end
  ++ match Body.priority obj with Some v => validate_priority v | None => [] end
  ++ match Body.status obj with Some v => validate_status v | None => [] end
  ++ match Body.reportedBy obj with
     | Some v => validate_reportedBy (trim v)
     | None => []
     end
  ++ match Body.source obj with Some v => validate_source v | None => [] end.

(** ** The collection *)

Fixpoint lookup (oid : ObjectId) (l : list Bug) : option Bug :=
  match l with
  | [] => None
  | d :: rest => if (_id d =? oid)%N then Some d else lookup oid rest
  end.

(** The collection with the document of [d]'s [_id] replaced by [d]. *)
Fixpoint replace (d : Bug) (l : list Bug) : list Bug :=
  match l with
  | [] => []
  | x :: rest => if (_id x =? _id d)%N then d :: rest else x :: replace d rest
  end.

Fixpoint remove (oid : ObjectId) (l : list Bug) : list Bug :=
  match l with
  | [] => []
  | x :: rest => if (_id x =? oid)%N then rest else x :: remove oid rest
  end.

(** The filter object [{ status?, priority?, source?, assignedTo? }] of a
    [find]: every member it carries must be equal in the document. *)
Definition eqMember (want : option string) (have : string) : bool :=
  match want with
  | Some v => v =? have
  | None => true
  end.

Definition matches (filter : Query.t) (d : Bug) : bool :=
  eqMember (Query.status filter) (status d)
  && eqMember (Query.priority filter) (priority d)
  && eqMember (Query.source filter) (source d)
  && eqMember (Query.assignedTo filter) (assignedTo d).

(** The value a document is ordered by under [sort({ field: dir })]. *)
Inductive Key :=
| KNone
| KString (s : string)
| KDate (t : Date).

Definition sortKey (field : string) (d : Bug) : Key :=
  if field =? "title" then KString (title d)
  else if field =? "description" then KString (description d)
  else if field =? "priority" then KString (priority d)
  else if field =? "status" then KString (status d)
  else if field =? "reportedBy" then KString (reportedBy d)
  else if field =? "assignedTo" then KString (assignedTo d)
  else if field =? "source" then KString (source d)
  else if field =? "createdAt" then KDate (createdAt d)
  else if field =? "updatedAt" then KDate (updatedAt d)
  else if field =? "_id" then KDate (_id d)
  else KNone.

Definition key_leb (a b : Key) : bool :=
  match a, b with
  | KNone, _ => true
  | KString _, KNone => false
  | KString x, KString y => String.leb x y
  | KString _, KDate _ => true
  | KDate _, KNone => false
  | KDate _, KString _ => false
  | KDate x, KDate y => (x <=? y)%N
  end.

(** [true] when [a] may stay in front of [b] under direction [dir]
    ([1] ascending, [-1] descending, here [false]). *)
Definition inOrder (field : string) (ascending : bool) (a b : Bug) : bool :=
  if ascending then key_leb (sortKey field a) (sortKey field b)
  else key_leb (sortKey field b) (sortKey field a).

Fixpoint insertSorted (field : string) (ascending : bool) (x : Bug) (l : list Bug)
  : list Bug :=
  match l with
  | [] => [x]
  | y :: rest =>
      if inOrder field ascending x y then x :: l
      else y :: insertSorted field ascending x rest
  end.

(** A stable sort of the documents on one field. *)
Fixpoint sort (field : string) (ascending : bool) (l : list Bug) : list Bug :=
  match l with
  | [] => []
  | x :: rest => insertSorted field ascending x (sort field ascending rest)
  end.

Section Server.

(** The cast of a request identifier to an ObjectId; [None] when the
    string is not in the identifier format. *)
Variable castObjectId : string -> option ObjectId.

(** ** Model operations (Mongoose) *)

(** [Bug.findById(id)]. *)
Definition findById (id : string) : M (option Bug) :=
  match castObjectId id with
  | None => throw (CastError id)
  | Some oid => fun s => (inr (lookup oid (bugs s)), s)
  end.

(** [doc.save()]: validate, then insert a new document or write back a
    loaded one; [timestamps: true] stamps [updatedAt]. *)
Definition save (env : Env) (isNew : bool) (doc : Bug) : M Bug :=
  fun s =>
    match validate doc with
    | [] =>
        let doc := set_updatedAt (now env) doc in
        if isNew then
          match lookup (_id doc) (bugs s) with
          | Some _ => (inl DuplicateKeyError, s)
          | None => (inr doc, with_bugs (bugs s ++ [doc]) s)
          end
        else (inr doc, with_bugs (replace doc (bugs s)) s)
    | msgs => (inl (ValidationError msgs), s)
    end.

(** The error of [Query.prototype.sort] for the empty field name. *)
Definition InvalidSortField : Err.t :=
  Error ("Invalid field " ++ dquote ++ dquote ++ " passed to sort()").

(** [Bug.find(filter).sort({ [field]: dir })].  Mongoose refuses the
    empty field name; a name that is no path of the schema orders
    nothing. *)
Definition find (filter : Query.t) (field : string) (ascending : bool) : M (list Bug) :=
  if field =? "" then throw InvalidSortField
  else fun s => (inr (sort field ascending (List.filter (matches filter) (bugs s))), s).

(** [Bug.findByIdAndUpdate(id, update, { new: true, runValidators: true })]. *)
Definition findByIdAndUpdate (env : Env) (id : string) (update : Body.t)
  : M (option Bug) :=
  match castObjectId id with
  | None => throw (CastError id)
  | Some oid =>
      match validateUpdate update with
      | [] =>
          fun s =>
            match lookup oid (bugs s) with
            | None => (inr None, s)
            | Some d =>
                let d := set_updatedAt (now env) (set d update) in
                (inr (Some d), with_bugs (replace d (bugs s)) s)
            end
      | msgs => throw (ValidationError msgs)
      end
  end.

(** [Bug.findByIdAndDelete(id)]. *)
Definition findByIdAndDelete (id : string) : M (option Bug) :=
  match castObjectId id with
  | None => throw (CastError id)
  | Some oid =>
      fun s =>
        match lookup oid (bugs s) with
        | None => (inr None, s)
        | Some d => (inr (Some d), with_bugs (remove oid (bugs s)) s)
        end
  end.

(** [bugSchema.methods.updateStatus]. *)
Definition updateStatus (env : Env) (this : Bug) (newStatus : string) : M Bug :=
  if negb (includes statusValues newStatus) then throw (Error "Invalid status value")
  else
    let previousStatus := status this in
    let this := set_status newStatus this in
    let this := set_updatedAt (now env) this in
    let this :=
      push_statusHistory (newStatusChange env previousStatus newStatus "system" None)
        this in
    save env false this.

(** [bugSchema.methods.addComment]. *)
Definition addComment (env : Env) (this : Bug) (author message : string) : M Bug :=
  let this := push_comments (newComment env author message) this in
  let this := set_updatedAt (now env) this in
  save env false this.

(** ** The webhook *)

(** [if (process.env.SLACK_WEBHOOK_URL) { try { await axios.post(url,
    { text }) } catch (e) { console.error(..., e.message) } }]: the
    rejection is caught and goes no further than the console. *)
Definition notify (env : Env) (text : string) : M unit :=
  match SLACK_WEBHOOK_URL env with
  | Some url =>
      if truthy url then
        try_catch
          (fun s =>
             match axios_post env url text with
             | None => (inr tt, emit (WebhookPost url text) s)
             | Some msg => (inl (Error msg), emit (WebhookPost url text) s)
             end)
          (fun notifyErr => ret tt)
      else ret tt
  | None => ret tt
  end.

Definition newBugText (savedBug : Bug) : string :=
  "🐛 New Bug: *" ++ title savedBug ++ "*" ++ nl
  ++ "Priority: " ++ priority savedBug ++ nl
  ++ "Reported by: " ++ reportedBy savedBug ++ nl
  ++ "Source: " ++ source savedBug
  ++ (if truthy (assignedTo savedBug)
      then nl ++ "Assigned to: " ++ assignedTo savedBug
      else "").

Definition feedbackText (saved : Bug) (customerName customerEmail : option string)
  : string :=
  "📣 Customer Feedback → Bug" ++ nl
  ++ "*" ++ title saved ++ "*" ++ nl
  ++ "Priority: " ++ priority saved ++ nl
  ++ "Customer: " ++ getOr customerName "" ++ " (" ++ orElse customerEmail "n/a" ++ ")".

(** ** The routes (routes/bugsRouter.js) *)

(** [POST /api/bugs]. *)
Definition postBug (env : Env) (body : Body.t) : State -> Res.t * State :=
  route
    (let title := Body.title body in
     let description := Body.description body in
     let priority := Body.priority body in
     let reportedBy := Body.reportedBy body in
     let assignedTo := Body.assignedTo body in
     let source := Body.source body in
     let customer := Body.customer body in
     if negb (truthyO title) || negb (truthyO description) || negb (truthyO reportedBy)
     then ret (fail 400 "Title, description, and reportedBy are required fields")
     else
       let newBug :=
         new_Bug env
           {| Body.title := title;
              Body.description := description;
              Body.priority := Some (orElse priority "Medium");
              Body.status := None;
              Body.reportedBy := reportedBy;
              Body.assignedTo := Some (orElse assignedTo "");
              Body.source := Some (orElse source "internal");
              Body.customer :=
                if strictEq source "customer"
                then Some (match customer with
                           | Some c => c
                           | None => noCustomer
                           end)
                else None;
              Body.updatedBy := None; Body.reason := None; Body.by_ := None;
              Body.author := None; Body.message := None;
              Body.customerName := None; Body.customerEmail := None;
              Body.customerId := None; Body.others := [] |} in
       savedBug <- save env true newBug ;;
       notify env (newBugText savedBug) ;;;
       ret (ok 201 (OneBug savedBug) (Some "Bug created successfully")))
    next.

(** [GET /api/bugs]. *)
Definition getBugs (query : Query.t) : State -> Res.t * State :=
  route
    (let status := Query.status query in
     let priority := Query.priority query in
     let sortBy := getOr (Query.sortBy query) "createdAt" in
     let order := getOr (Query.order query) "desc" in
     let filter :=
       {| Query.status := if truthyO status then status else None;
          Query.priority := if truthyO priority then priority else None;
          Query.source := None; Query.assignedTo := None;
          Query.sortBy := None; Query.order := None |} in
     found <- find filter sortBy (negb (order =? "desc")) ;;
     ret {| Res.statusCode := 200; Res.success := true; Res.data := Bugs found;
            Res.count := Some (List.length found); Res.message := None;
            Res.error := None; Res.errors := None |})
    next.

(** [GET /api/bugs/:id]. *)
Definition getBug (id : string) : State -> Res.t * State :=
  route
    (bug <- findById id ;;
     match bug with
     | None => ret (fail 404 "Bug not found")
     | Some bug => ret (ok 200 (OneBug bug) None)
     end)
    (fun error =>
       if Err.name error =? "CastError" then fail 400 "Invalid bug ID format"
       else next error).

(** [PUT /api/bugs/:id]. *)
Definition putBug (env : Env) (id : string) (updateData : Body.t)
  : State -> Res.t * State :=
  route
    (existing <- findById id ;;
     match existing with
     | None => ret (fail 404 "Bug not found")
     | Some existing =>
         if truthyO (Body.status updateData)
            && negb (getOr (Body.status updateData) "" =? status existing)
         then
           let existing :=
             push_statusHistory
               (newStatusChange env (status existing)
                  (getOr (Body.status updateData) "")
                  (orElse (Body.updatedBy updateData) "system") None)
               existing in
           let existing := set existing updateData in
           saved <- save env false existing ;;
           ret (ok 200 (OneBug saved) (Some "Bug updated successfully"))
         else
           updatedBug <- findByIdAndUpdate env id updateData ;;
           match updatedBug with
           | None => ret (fail 404 "Bug not found")
           | Some updatedBug =>
               ret (ok 200 (OneBug updatedBug) (Some "Bug updated successfully"))
           end
     end)
    (fun error =>
       if Err.name error =? "CastError" then fail 400 "Invalid bug ID format"
       else if Err.name error =? "ValidationError" then
         {| Res.statusCode := 400; Res.success := false; Res.data := NoData;
            Res.count := None; Res.message := Some "Validation error";
            Res.error := None; Res.errors := Some (Err.errors error) |}
       else next error).

(** [DELETE /api/bugs/:id]. *)
Definition deleteBug (id : string) : State -> Res.t * State :=
  route
    (deletedBug <- findByIdAndDelete id ;;
     match deletedBug with
     | None => ret (fail 404 "Bug not found")
     | Some deletedBug =>
         ret (ok 200 (OneBug deletedBug) (Some "Bug deleted successfully"))
     end)
    (fun error =>
       if Err.name error =? "CastError" then fail 400 "Invalid bug ID format"
       else next error).

(** [PATCH /api/bugs/:id/status]. *)
Definition patchStatus (env : Env) (id : string) (body : Body.t)
  : State -> Res.t * State :=
  route
    (let status_ := Body.status body in
     let reason := Body.reason body in
     let by_ := Body.by_ body in
     if negb (truthyO status_) then ret (fail 400 "Status is required")
     else
       bug <- findById id ;;
       match bug with
       | None => ret (fail 404 "Bug not found")
       | Some bug =>
           let previousStatus := status bug in
           bug <- updateStatus env bug (getOr status_ "") ;;
           let bug :=
             push_statusHistory
               (newStatusChange env previousStatus (getOr status_ "")
                  (orElse by_ "system") reason)
               bug in
           bug <- save env false bug ;;
           ret (ok 200 (OneBug bug) (Some "Bug status updated successfully"))
       end)
    next.

(** [POST /api/bugs/:id/comments]. *)
Definition postComment (env : Env) (id : string) (body : Body.t)
  : State -> Res.t * State :=
  route
    (let author := Body.author body in
     let message := Body.message body in
     if negb (truthyO author) || negb (truthyO message)
     then ret (fail 400 "author and message are required")
     else
       bug <- findById id ;;
       match bug with
       | None => ret (fail 404 "Bug not found")
       | Some bug =>
           bug <- addComment env bug (getOr author "") (getOr message "") ;;
           ret (ok 201 (OneComment (List.last (List.map Some (comments bug)) None))
                  (Some "Comment added"))
       end)
    next.

(** [POST /api/bugs/feedback]. *)
Definition postFeedback (env : Env) (body : Body.t) : State -> Res.t * State :=
  route
    (let title := Body.title body in
     let description := Body.description body in
     let customerName := Body.customerName body in
     let customerEmail := Body.customerEmail body in
     let customerId := Body.customerId body in
     let priority := Body.priority body in
     if negb (truthyO title) || negb (truthyO description) || negb (truthyO customerName)
     then ret (fail 400 "title, description, and customerName are required")
     else
       let bug :=
         new_Bug env
           {| Body.title := title;
              Body.description := description;
              Body.priority := Some (orElse priority "Medium");
              Body.status := None;
              Body.reportedBy := customerName;
              Body.assignedTo := None;
              Body.source := Some "customer";
              Body.customer :=
                Some {| cust_name := customerName; cust_email := customerEmail;
                        cust_id := customerId |};
              Body.updatedBy := None; Body.reason := None; Body.by_ := None;
              Body.author := None; Body.message := None;
              Body.customerName := None; Body.customerEmail := None;
              Body.customerId := None; Body.others := [] |} in
       saved <- save env true bug ;;
       notify env (feedbackText saved customerName customerEmail) ;;;
       ret (ok 201 (OneBug saved) (Some "Feedback captured as bug")))
    next.

(** ** The router *)

Inductive Request :=
| POST_bugs (body : Body.t)
| GET_bugs (query : Query.t)
| GET_bug (id : string)
| PUT_bug (id : string) (body : Body.t)
| DELETE_bug (id : string)
| PATCH_status (id : string) (body : Body.t)
| POST_comments (id : string) (body : Body.t)
| POST_feedback (body : Body.t).

Definition handle (env : Env) (req : Request) : State -> Res.t * State :=
  match req with
  | POST_bugs body => postBug env body
  | GET_bugs query => getBugs query
  | GET_bug id => getBug id
  | PUT_bug id body => putBug env id body
  | DELETE_bug id => deleteBug id
  | PATCH_status id body => patchStatus env id body
  | POST_comments id body => postComment env id body
  | POST_feedback body => postFeedback env body
  end.

(** A session: requests served one after the other, each with its own
    environment. *)
Fixpoint serve (reqs : list (Env * Request)) (s : State) : list Res.t * State :=
  match reqs with
  | [] => ([], s)
  | (env, req) :: rest =>
      let (r, s') := handle env req s in
      let (rs, s'') := serve rest s' in
      (r :: rs, s'')
  end.

End Server.

(** ** A concrete identifier format

    The textual form of a BSON ObjectId: 24 hexadecimal digits. *)

Definition hexDigit (c : ascii) : option N :=
  let n := N_of_ascii c in
  if ((48 <=? n) && (n <=? 57))%N then Some (n - 48)%N
  else if ((97 <=? n) && (n <=? 102))%N then Some (n - 87)%N
  else if ((65 <=? n) && (n <=? 70))%N then Some (n - 55)%N
  else None.

Fixpoint hexValue (s : string) (acc : N) : option N :=
  match s with
  | EmptyString => Some acc
  | String c rest =>
      match hexDigit c with
      | Some v => hexValue rest (16 * acc + v)%N
      | None => None
      end
  end.

Definition hex24 (id : string) : option ObjectId :=
  if (String.length id =? 24)%nat then hexValue id 0%N else None.

(** ** Sample data (tests/integration/bugs.test.js) *)

Definition sampleBug : Body.t :=
  {| Body.title := Some "Test Bug";
     Body.description := Some "This is a test bug for integration testing";
     Body.priority := Some "Medium";
     Body.status := None;
     Body.reportedBy := Some "Test User";
     Body.assignedTo := None; Body.source := None; Body.customer := None;
     Body.updatedBy := None; Body.reason := None; Body.by_ := None;
     Body.author := None; Body.message := None; Body.customerName := None;
     Body.customerEmail := None; Body.customerId := None; Body.others := [] |}.

Definition noWebhook (t : Date) (oid : ObjectId) : Env :=
  {| now := t; newObjectId := oid; SLACK_WEBHOOK_URL := None;
     axios_post := fun _ _ => None |}.

Definition emptyState : State := {| bugs := []; trace := [] |}.

(** The state after [Bug.create(sampleBug)] on an empty collection. *)
Definition oneBugState : State :=
  snd (postBug (noWebhook 1%N 1%N) sampleBug emptyState).

Definition testBugId : string := "000000000000000000000001".

(** The environment with its webhook members replaced. *)
Definition with_webhook (url : option string) (post : string -> string -> option string)
  (env : Env) : Env :=
  {| now := now env; newObjectId := newObjectId env;
     SLACK_WEBHOOK_URL := url; axios_post := post |}.


(** ** Closed forms of what the routes compute *)

(** The three required members of a create body are all truthy. *)
Definition requiredPresent (body : Body.t) : bool :=
  truthyO (Body.title body) && truthyO (Body.description body)
  && truthyO (Body.reportedBy body).

(** The document [POST /api/bugs] builds from a body. *)
Definition postBugDoc (env : Env) (body : Body.t) : Bug :=
  {| _id := newObjectId env;
     title := trim (getOr (Body.title body) "");
     description := trim (getOr (Body.description body) "");
     priority := orElse (Body.priority body) "Medium";
     status := "Open";
     reportedBy := trim (getOr (Body.reportedBy body) "");
     assignedTo := trim (orElse (Body.assignedTo body) "");
     source := orElse (Body.source body) "internal";
     customer :=
       if strictEq (Body.source body) "customer"
       then castCustomer (match Body.customer body with
                          | Some c => c
                          | None => noCustomer
                          end)
       else noCustomer;
     comments := []; statusHistory := [];
     createdAt := now env; updatedAt := now env |}.

(** The document [POST /api/bugs/feedback] builds from a body. *)
Definition feedbackDoc (env : Env) (body : Body.t) : Bug :=
  {| _id := newObjectId env;
     title := trim (getOr (Body.title body) "");
     description := trim (getOr (Body.description body) "");
     priority := orElse (Body.priority body) "Medium";
     status := "Open";
     reportedBy := trim (getOr (Body.customerName body) "");
     assignedTo := "";
     source := "customer";
     customer :=
       castCustomer {| cust_name := Body.customerName body;
                       cust_email := Body.customerEmail body;
                       cust_id := Body.customerId body |};
     comments := []; statusHistory := [];
     createdAt := now env; updatedAt := now env |}.

(** A required text member that passes its validators: present, not
    blank once trimmed, and of at most [n] UTF-16 code units once
    trimmed. *)
Definition withinLimit (o : option string) (n : nat) : Prop :=
  exists v, o = Some v /\ trim v <> "" /\ utf16Length (trim v) <= n.

(** A member with a default and an enum: absent, empty, or one of the
    values. *)
Definition absentOrIn (o : option string) (values : list string) : Prop :=
  o = None \/ o = Some "" \/ exists v, o = Some v /\ In v values.

(** The bodies [POST /api/bugs] stores a record for. *)
Definition creatable (env : Env) (body : Body.t) (s : State) : Prop :=
  withinLimit (Body.title body) 100
  /\ withinLimit (Body.description body) 1000
  /\ withinLimit (Body.reportedBy body) 50
  /\ absentOrIn (Body.priority body) priorityValues
  /\ absentOrIn (Body.source body) sourceValues
  /\ lookup (newObjectId env) (bugs s) = None.

(** The bodies [POST /api/bugs/feedback] stores a record for. *)
Definition creatableFeedback (env : Env) (body : Body.t) (s : State) : Prop :=
  withinLimit (Body.title body) 100
  /\ withinLimit (Body.description body) 1000
  /\ withinLimit (Body.customerName body) 50
  /\ absentOrIn (Body.priority body) priorityValues
  /\ lookup (newObjectId env) (bugs s) = None.

(** The test of the PUT route: the incoming status is truthy and differs
    from the stored one. *)
Definition statusDiffers (body : Body.t) (existing : Bug) : bool :=
  truthyO (Body.status body)
  && negb (getOr (Body.status body) "" =? status existing).

(** The history entry the PUT route pushes. *)
Definition putEntry (env : Env) (existing : Bug) (body : Body.t) : StatusChange :=
  newStatusChange env (status existing) (getOr (Body.status body) "")
    (orElse (Body.updatedBy body) "system") None.

(** The document the PUT route saves when the status differs. *)
Definition putChanged (env : Env) (existing : Bug) (body : Body.t) : Bug :=
  set_updatedAt (now env)
    (set (push_statusHistory (putEntry env existing body) existing) body).

(** The document [findByIdAndUpdate] writes otherwise. *)
Definition putSame (env : Env) (existing : Bug) (body : Body.t) : Bug :=
  set_updatedAt (now env) (set existing body).

(** The answer of the PUT route's [catch] to a [ValidationError]. *)
Definition validationFailed (msgs : list string) : Res.t :=
  {| Res.statusCode := 400; Res.success := false; Res.data := NoData;
     Res.count := None; Res.message := Some "Validation error";
     Res.error := None; Res.errors := Some msgs |}.

(** The two history entries a status patch pushes: the one of the
    [updateStatus] method, then the one of the route. *)
Definition methodEntry (env : Env) (bug : Bug) (st : string) : StatusChange :=
  newStatusChange env (status bug) st "system" None.

Definition routeEntry (env : Env) (bug : Bug) (st : string) (body : Body.t)
  : StatusChange :=
  newStatusChange env (status bug) st (orElse (Body.by_ body) "system")
    (Body.reason body).

(** The document [updateStatus] saves. *)
Definition afterMethod (env : Env) (bug : Bug) (st : string) : Bug :=
  set_updatedAt (now env)
    (push_statusHistory (methodEntry env bug st)
       (set_updatedAt (now env) (set_status st bug))).

(** The document the route saves after it. *)
Definition afterRoute (env : Env) (bug : Bug) (st : string) (body : Body.t) : Bug :=
  set_updatedAt (now env)
    (push_statusHistory (routeEntry env bug st body) (afterMethod env bug st)).

(** The documents a list response carries. *)
Definition found (r : Res.t) : list Bug :=
  match Res.data r with
  | Bugs l => l
  | _ => []
  end.

(** The routes through which the status of a stored bug is written. *)
Definition writesStatus (req : Request) : bool :=
  match req with
  | PUT_bug _ _ | PATCH_status _ _ => true
  | _ => false
  end.

(** The query with other [source] and [assignedTo] members. *)
Definition with_source_assignedTo (src who : option string) (q : Query.t) : Query.t :=
  {| Query.status := Query.status q; Query.priority := Query.priority q;
     Query.source := src; Query.assignedTo := who;
     Query.sortBy := Query.sortBy q; Query.order := Query.order q |}.

(** ** The invariant of the collection *)

(** Every stored document passes the schema validators. *)
Definition allValid (s : State) : Prop :=
  Forall (fun d => validate d = []) (bugs s).

(** ** The properties in the words of the specification *)

(** A query member constrains a field when it is supplied, that is
    present and non-empty. *)
Definition constrains (want : option string) (have : string) : Prop :=
  forall v, want = Some v -> v <> "" -> have = v.

Definition matchesStatusPriority (q : Query.t) (d : Bug) : Prop :=
  constrains (Query.status q) (status d)
  /\ constrains (Query.priority q) (priority d).

(** The FindAll property in the words of the specification: a conjunction
    over the four members status, priority, source and assignedTo. *)
Definition matchesFour (q : Query.t) (d : Bug) : Prop :=
  constrains (Query.status q) (status d)
  /\ constrains (Query.priority q) (priority d)
  /\ constrains (Query.source q) (source d)
  /\ constrains (Query.assignedTo q) (assignedTo d).

Definition filterAsSpecified (q : Query.t) (s : State) : Prop :=
  forall d, In d (found (fst (getBugs q s))) <-> In d (bugs s) /\ matchesFour q d.

(** A member that is present and within its length limit, in the words
    of the specification. *)
Definition presentWithin (o : option string) (n : nat) : Prop :=
  exists v, o = Some v /\ v <> "" /\ utf16Length v <= n.

(** The Create property in the words of the specification: with title,
    description and reportedBy present and within their limits, a record
    is stored, with status "Open" and, when no priority is given, with
    priority "Medium". *)
Definition createAsSpecified (env : Env) (body : Body.t) (s : State) : Prop :=
  presentWithin (Body.title body) 100 ->
  presentWithin (Body.description body) 1000 ->
  presentWithin (Body.reportedBy body) 50 ->
  exists saved,
    In saved (bugs (snd (postBug env body s)))
    /\ _id saved = newObjectId env
    /\ status saved = "Open"
    /\ (Body.priority body = None -> priority saved = "Medium").


(** In the words of the specification, "the number of distinct
    status-changing mutations applied" to the bug [oid] by a session:
    the successful [PATCH status] requests on it and the successful [PUT]
    requests on it whose incoming status differs from the stored one. *)
Definition isStatusMutation (castObjectId : string -> option ObjectId)
  (oid : ObjectId) (req : Request) (s : State) : bool :=
  match req with
  | PATCH_status id _ =>
      match castObjectId id with
      | Some oid' => (oid' =? oid)%N
      | None => false
      end
  | PUT_bug id body =>
      match castObjectId id, Body.status body with
      | Some oid', Some st =>
          (oid' =? oid)%N
          && match lookup oid (bugs s) with
             | Some stored => negb (st =? status stored)
             | None => false
             end
      | _, _ => false
      end
  | _ => false
  end.

Fixpoint statusChangingMutations (castObjectId : string -> option ObjectId)
  (oid : ObjectId) (reqs : list (Env * Request)) (s : State) : nat :=
  match reqs with
  | [] => 0
  | (env, req) :: rest =>
      let (r, s') := handle castObjectId env req s in
      (if isStatusMutation castObjectId oid req s && (Res.statusCode r =? 200)%nat
       then 1 else 0)
      + statusChangingMutations castObjectId oid rest s'
  end.

(** ** Requests and collections of the integration tests *)

(** The record [Bug.create(sampleBug)] stores. *)
Definition storedSample : Bug := postBugDoc (noWebhook 1%N 1%N) sampleBug.

(** A well-formed identifier that no stored bug has. *)
Definition fakeId : string := "000000000000000000000002".

Definition statusBody (st : string) : Body.t :=
  Body.with_status (Some st) Body.empty.

(** [{ ...sampleBug, title, priority }]. *)
Definition sampleWith (title priority : string) : Body.t :=
  {| Body.title := Some title;
     Body.description := Body.description sampleBug;
     Body.priority := Some priority;
     Body.status := None;
     Body.reportedBy := Body.reportedBy sampleBug;
     Body.assignedTo := None; Body.source := None; Body.customer := None;
     Body.updatedBy := None; Body.reason := None; Body.by_ := None;
     Body.author := None; Body.message := None; Body.customerName := None;
     Body.customerEmail := None; Body.customerId := None; Body.others := [] |}.

(** [{ title: 'Test Bug' }]: description and reportedBy are missing. *)
Definition titleOnly : Body.t :=
  {| Body.title := Some "Test Bug"; Body.description := None;
     Body.priority := None; Body.status := None; Body.reportedBy := None;
     Body.assignedTo := None; Body.source := None; Body.customer := None;
     Body.updatedBy := None; Body.reason := None; Body.by_ := None;
     Body.author := None; Body.message := None; Body.customerName := None;
     Body.customerEmail := None; Body.customerId := None; Body.others := [] |}.

(** [sampleBug] without its description. *)
Definition missingDescription : Body.t :=
  {| Body.title := Some "Test Bug"; Body.description := None;
     Body.priority := Some "Medium"; Body.status := None;
     Body.reportedBy := Some "Test User"; Body.assignedTo := None;
     Body.source := None; Body.customer := None; Body.updatedBy := None;
     Body.reason := None; Body.by_ := None; Body.author := None;
     Body.message := None; Body.customerName := None;
     Body.customerEmail := None; Body.customerId := None; Body.others := [] |}.

(** [sampleBug] with a title of one space. *)
Definition blankTitle : Body.t :=
  {| Body.title := Some " ";
     Body.description := Body.description sampleBug;
     Body.priority := None; Body.status := None;
     Body.reportedBy := Body.reportedBy sampleBug;
     Body.assignedTo := None; Body.source := None; Body.customer := None;
     Body.updatedBy := None; Body.reason := None; Body.by_ := None;
     Body.author := None; Body.message := None; Body.customerName := None;
     Body.customerEmail := None; Body.customerId := None; Body.others := [] |}.

(** [sampleBug] with priority, source and assignee of the caller. *)
Definition customerSample : Body.t :=
  {| Body.title := Body.title sampleBug;
     Body.description := Body.description sampleBug;
     Body.priority := Some "High"; Body.status := None;
     Body.reportedBy := Body.reportedBy sampleBug;
     Body.assignedTo := Some " Sam "; Body.source := Some "customer";
     Body.customer := None;
     Body.updatedBy := None; Body.reason := None; Body.by_ := None;
     Body.author := None; Body.message := None; Body.customerName := None;
     Body.customerEmail := None; Body.customerId := None; Body.others := [] |}.

(** [sampleBug] with a status the caller would like. *)
Definition resolvedSample : Body.t := Body.with_status (Some "Resolved") sampleBug.

(** [updatedBug] of the update tests. *)
Definition updatedBug : Body.t :=
  {| Body.title := Some "Updated Test Bug";
     Body.description := Some "This is an updated test bug";
     Body.priority := Some "High";
     Body.status := Some "In Progress";
     Body.reportedBy := None; Body.assignedTo := None; Body.source := None;
     Body.customer := None; Body.updatedBy := None; Body.reason := None;
     Body.by_ := None; Body.author := None; Body.message := None;
     Body.customerName := None; Body.customerEmail := None;
     Body.customerId := None; Body.others := [] |}.


(** [{ status: 'In Progress', by: 'Jane' }]. *)
Definition inProgressByJane : Body.t :=
  {| Body.title := None; Body.description := None; Body.priority := None;
     Body.status := Some "In Progress"; Body.reportedBy := None;
     Body.assignedTo := None; Body.source := None; Body.customer := None;
     Body.updatedBy := None; Body.reason := None; Body.by_ := Some "Jane";
     Body.author := None; Body.message := None; Body.customerName := None;
     Body.customerEmail := None; Body.customerId := None; Body.others := [] |}.

Definition commentBody : Body.t :=
  {| Body.title := None; Body.description := None; Body.priority := None;
     Body.status := None; Body.reportedBy := None; Body.assignedTo := None;
     Body.source := None; Body.customer := None; Body.updatedBy := None;
     Body.reason := None; Body.by_ := None; Body.author := Some "Jane";
     Body.message := Some "Seen on staging as well"; Body.customerName := None;
     Body.customerEmail := None; Body.customerId := None; Body.others := [] |}.

(** [GET /api/bugs?source=customer]. *)
Definition customerQuery : Query.t :=
  {| Query.status := None; Query.priority := None;
     Query.source := Some "customer"; Query.assignedTo := None;
     Query.sortBy := None; Query.order := None |}.

Definition priorityQuery (p : string) : Query.t :=
  {| Query.status := None; Query.priority := Some p; Query.source := None;
     Query.assignedTo := None; Query.sortBy := None; Query.order := None |}.

Definition sortQuery (field order : string) : Query.t :=
  {| Query.status := None; Query.priority := None; Query.source := None;
     Query.assignedTo := None; Query.sortBy := Some field;
     Query.order := Some order |}.

(** The collection after the three creations of the listing tests. *)
Definition threeBugs : State :=
  snd (serve hex24
         [ (noWebhook 1%N 1%N, POST_bugs (sampleWith "Bug 1" "Low"));
           (noWebhook 2%N 2%N, POST_bugs (sampleWith "Bug 2" "Medium"));
           (noWebhook 3%N 3%N, POST_bugs (sampleWith "Bug 3" "High")) ]
         emptyState).

(** [Bug.create(sampleBug)], then [PATCH /:id/status { status: 'In Progress' }]. *)
Definition patchSession : list (Env * Request) :=
  [ (noWebhook 1%N 1%N, POST_bugs sampleBug);
    (noWebhook 2%N 2%N, PATCH_status testBugId (statusBody "In Progress")) ].

(** ** Proof automation *)

(** One step of evaluation of a handler after a rewrite. *)
Ltac js_step := cbn [negb andb orb truthyO getOr]; cbv beta.

(** * Further code of the repository *)

(** ** middleware/errorHandler.js: ApiError and notFound *)

(** The decimal digits of [`${statusCode}`]. *)
Definition decimal (n : nat) : string :=
  NilZero.string_of_uint (Nat.to_uint n).

(** The [status] member the [ApiError] constructor computes:
    [`${statusCode}`.startsWith('4') ? 'fail' : 'error']. *)
Definition ApiError_status (statusCode : nat) : string :=
  if String.prefix "4" (decimal statusCode) then "fail" else "error".

(** The 404 middleware for a request no route has taken:
    [next(new ApiError(`Route not found: ${req.originalUrl}`, 404))]. *)
Definition notFound (originalUrl : string) : Res.t :=
  next (ApiError ("Route not found: " ++ originalUrl) 404).

(** ** models/Bug.js: the static findByPriority *)

(** [Bug.findByPriority(priority)], that is [this.find({ priority })]:
    the matching documents in the order of the collection. *)
Definition findByPriority (priority : string) : M (list Bug) :=
  fun s =>
    (inr (List.filter
            (matches {| Query.status := None; Query.priority := Some priority;
                        Query.source := None; Query.assignedTo := None;
                        Query.sortBy := None; Query.order := None |})
            (bugs s)),
     s).

(** ** client services/api.js: handleAPIError *)

Module Client.

(** The error an axios call rejects with: [response] when the server
    answered (its status and the [message] member of its body),
    [request] when the request left without an answer, and the
    [message] of the error itself. *)
Record AxiosError := {
  response : option (nat * option string);
  request : bool;
  message : option string
}.

(** [handleAPIError]; the [switch] compares [status] with each case in
    turn. *)
Definition handleAPIError (error : AxiosError) : string :=
  match response error with
  | Some (status, data_message) =>
      if (status =? 400)%nat then orElse data_message "Invalid request data"
      else if (status =? 401)%nat then "Unauthorized access"
      else if (status =? 403)%nat then "Access forbidden"
      else if (status =? 404)%nat then "Resource not found"
      else if (status =? 500)%nat then "Server error occurred"
      else orElse data_message "An error occurred"
  | None =>
      if request error then "Network error - please check your connection"
      else orElse (message error) "An unexpected error occurred"
  end.

(** The rejection axios builds from a response of the server. *)
Definition rejected (r : Res.t) : AxiosError :=
  {| response := Some (Res.statusCode r, Res.message r);
     request := true;
     message := Some ("Request failed with status code " ++ decimal (Res.statusCode r)) |}.

End Client.

(** ** Notions used by the further properties *)

(** No two stored documents share an [_id]. *)
Definition uniqueIds (s : State) : Prop := NoDup (List.map _id (bugs s)).

(** [l'] is [l] with elements added at its end. *)
Definition extends {A} (l l' : list A) : Prop := exists added, l' = (l ++ added)%list.

(** Every document of [s'] continues a document of [s] with the same
    [_id], its [comments] and [statusHistory] only added to, or is a new
    document, whose [_id] no document of [s] has, without comments and
    history. *)
Definition appendOnly (s s' : State) : Prop :=
  forall d', In d' (bugs s') ->
    (exists d, In d (bugs s) /\ _id d = _id d'
               /\ extends (comments d) (comments d')
               /\ extends (statusHistory d) (statusHistory d'))
    \/ (~ In (_id d') (List.map _id (bugs s))
        /\ comments d' = [] /\ statusHistory d' = []).

(** The routes that create a document. *)
Definition creates (req : Request) : bool :=
  match req with
  | POST_bugs _ | POST_feedback _ => true
  | _ => false
  end.

(** [d] and [d'] differ at most in [status], [statusHistory] and
    [updatedAt]. *)
Definition sameButStatus (d d' : Bug) : Prop :=
  _id d' = _id d /\ title d' = title d /\ description d' = description d
  /\ priority d' = priority d /\ reportedBy d' = reportedBy d
  /\ assignedTo d' = assignedTo d /\ source d' = source d
  /\ customer d' = customer d /\ comments d' = comments d
  /\ createdAt d' = createdAt d.

(** A string without white space at either end. *)
Definition trimmed (s : string) : Prop := trim s = s.

Definition trimmedO (o : option string) : Prop :=
  forall v, o = Some v -> trimmed v.

(** The strings of a stored document whose schema path has [trim: true]
    are trimmed. *)
Definition trimmedDoc (d : Bug) : Prop :=
  trimmed (title d) /\ trimmed (description d) /\ trimmed (reportedBy d)
  /\ trimmed (assignedTo d)
  /\ (trimmedO (cust_name (customer d)) /\ trimmedO (cust_email (customer d))
      /\ trimmedO (cust_id (customer d)))
  /\ Forall (fun c => trimmed (c_author c) /\ trimmed (c_message c)) (comments d)
  /\ Forall (fun h => trimmed (h_by h) /\ trimmedO (h_reason h)) (statusHistory d).

(** What the validators of the schema require of a document. *)
Definition wellFormed (d : Bug) : Prop :=
  In (status d) statusValues
  /\ In (priority d) priorityValues
  /\ In (source d) sourceValues
  /\ (title d <> "" /\ utf16Length (title d) <= 100)
  /\ (description d <> "" /\ utf16Length (description d) <= 1000)
  /\ (reportedBy d <> "" /\ utf16Length (reportedBy d) <= 50)
  /\ Forall (fun c => c_author c <> "" /\ c_message c <> ""
                      /\ utf16Length (c_message c) <= 2000) (comments d)
  /\ Forall (fun h => h_to h <> ""
                      /\ forall r, h_reason h = Some r -> utf16Length r <= 500)
       (statusHistory d).

(** The state reached from the empty collection by a session. *)
Definition reached (castObjectId : string -> option ObjectId)
  (reqs : list (Env * Request)) : State :=
  snd (serve castObjectId reqs emptyState).

(** The number of stored documents a request adds or removes, given its
    response: a create answered 201 adds one, a delete answered 200
    removes one. *)
Definition sizeAfter (req : Request) (r : Res.t) (n : nat) : nat :=
  match req with
  | POST_bugs _ | POST_feedback _ =>
      if (Res.statusCode r =? 201)%nat then S n else n
  | DELETE_bug _ => if (Res.statusCode r =? 200)%nat then Nat.pred n else n
  | _ => n
  end.

(** The requests a create sends out once its document is saved. *)
Definition notification (env : Env) (text : string) : list Event :=
  match SLACK_WEBHOOK_URL env with
  | Some url => if truthy url then [WebhookPost url text] else []
  | None => []
  end.

(** A string that neither starts nor ends with a white-space
    character. *)
Definition noSpaceAtEnds (s : string) : Prop :=
  forall w, In w whiteSpace ->
    (forall t, s <> string_of_list_ascii w ++ t)
    /\ (forall t, s <> t ++ string_of_list_ascii w).

(** The paths of the schema a list can be ordered by. *)
Definition sortPaths : list string :=
  ["title"; "description"; "priority"; "status"; "reportedBy"; "assignedTo";
   "source"; "createdAt"; "updatedAt"; "_id"].

(** A query whose [sortBy] is absent or a path of the schema. *)
Definition sortable (q : Query.t) : Prop :=
  Query.sortBy q = None \/ exists f, Query.sortBy q = Some f /\ In f sortPaths.

(** Every request of the session that is a PUT has a body without
    further members. *)
Definition plainBodies (reqs : list (Env * Request)) : Prop :=
  Forall (fun er => match snd er with
                    | PUT_bug _ body => Body.others body = []
                    | _ => True
                    end) reqs.

(** The names [errorHandler] knows. *)
Definition knownErrorNames : list string :=
  ["CastError"; "ValidationError"; "JsonWebTokenError"; "TokenExpiredError"].

(** The wrapper every [bugAPI] method puts around its call:
    [throw new Error(error.response?.data?.message || fallback)]; the
    new error has neither [response] nor [request]. *)
Definition rethrow (fallback : string) (error : Client.AxiosError) : Client.AxiosError :=
  {| Client.response := None;
     Client.request := false;
     Client.message :=
       Some (orElse (match Client.response error with
                     | Some (_, data_message) => data_message
                     | None => None
                     end) fallback) |}.

(** ** client components/BugForm.jsx *)

Module BugForm.

(** The state [formData] of the form. *)
Record FormData := {
  title : string;
  description : string;
  priority : string;
  reportedBy : string;
  assignedTo : string;
  source : string;
  customerName : string;
  customerEmail : string;
  customerId : string
}.

(** The object [newErrors]: a member is present when its check failed. *)
Record Errors := {
  e_title : option string;
  e_description : option string;
  e_priority : option string;
  e_reportedBy : option string;
  e_customerName : option string;
  e_customerEmail : option string
}.

(** [s] holds an "@". *)
Fixpoint hasAt (s : string) : bool :=
  match s with
  | EmptyString => false
  | String c rest => Ascii.eqb c "@" || hasAt rest
  end.

(** Every character of [s] is of the class [[^\s@]]. *)
Definition allPlain (s : string) : bool := negb (hasSpace s) && negb (hasAt s).

(** The text before the first "@" and the text after it. *)
Fixpoint splitAtSign (s : string) : option (string * string) :=
  match s with
  | EmptyString => None
  | String c rest =>
      if Ascii.eqb c "@" then Some (EmptyString, rest)
      else match splitAtSign rest with
           | Some (a, d) => Some (String c a, d)
           | None => None
           end
  end.

(** A "." that is followed by at least one character. *)
Fixpoint dotThenMore (s : string) : bool :=
  match s with
  | EmptyString => false
  | String c rest =>
      (Ascii.eqb c "." && negb (rest =? "")) || dotThenMore rest
  end.

(** A "." with at least one character on each side. *)
Definition dotInside (s : string) : bool :=
  match s with
  | EmptyString => false
  | String _ rest => dotThenMore rest
  end.

(** [/^[^\s@]+@[^\s@]+\.[^\s@]+$/.test(s)]. *)
Definition emailMatches (s : string) : bool :=
  match splitAtSign s with
  | Some (a, d) => negb (a =? "") && allPlain a && allPlain d && dotInside d
  | None => false
  end.

(** [validateForm]: the errors it sets. *)
Definition validateForm (formData : FormData) : Errors :=
  {| e_title :=
       if negb (truthy (trim (title formData))) then Some "Title is required"
       else if (100 <? utf16Length (trim (title formData)))%nat
            then Some "Title cannot exceed 100 characters"
            else None;
     e_description :=
       if negb (truthy (trim (description formData)))
       then Some "Description is required"
       else if (1000 <? utf16Length (trim (description formData)))%nat
            then Some "Description cannot exceed 1000 characters"
            else None;
     e_priority :=
       if negb (includes ["Low"; "Medium"; "High"] (priority formData))
       then Some "Invalid priority value"
       else None;
     e_reportedBy :=
       if negb (truthy (trim (reportedBy formData)))
       then Some "Reporter name is required"
       else if (50 <? utf16Length (trim (reportedBy formData)))%nat
            then Some "Reporter name cannot exceed 50 characters"
            else None;
     e_customerName :=
       if source formData =? "customer" then
         if negb (truthy (trim (customerName formData)))
         then Some "Customer name is required for customer-reported bugs"
         else None
       else None;
     e_customerEmail :=
       if source formData =? "customer" then
         if truthy (customerEmail formData)
            && negb (emailMatches (customerEmail formData))
         then Some "Invalid email address"
         else None
       else None |}.

(** The value [validateForm] returns:
    [Object.keys(newErrors).length === 0]. *)
Definition isValid (formData : FormData) : bool :=
  match validateForm formData with
  | {| e_title := None; e_description := None; e_priority := None;
       e_reportedBy := None; e_customerName := None;
       e_customerEmail := None |} => true
  | _ => false
  end.

(** [x || undefined] for a string of the form. *)
Definition orUndefined (x : string) : option string :=
  if truthy x then Some x else None.

(** The [payload] that [handleSubmit] sends to [POST /api/bugs]. *)
Definition payload (formData : FormData) : Body.t :=
  {| Body.title := Some (title formData);
     Body.description := Some (description formData);
     Body.priority := Some (priority formData);
     Body.status := None;
     Body.reportedBy := Some (reportedBy formData);
     Body.assignedTo := orUndefined (assignedTo formData);
     Body.source := Some (source formData);
     Body.customer :=
       if source formData =? "customer"
       then Some {| cust_name := Some (customerName formData);
                    cust_email := orUndefined (customerEmail formData);
                    cust_id := orUndefined (customerId formData) |}
       else None;
     Body.updatedBy := None; Body.reason := None; Body.by_ := None;
     Body.author := None; Body.message := None; Body.customerName := None;
     Body.customerEmail := None; Body.customerId := None; Body.others := [] |}.

End BugForm.

(** ** client components/BugList.jsx *)

Module BugList.

(** The sorting state, [sortBy] and [sortOrder]. *)
Record Sorting := { sortBy : string; sortOrder : string }.

(** The columns whose header calls [handleSort]. *)
Definition columns : list string := ["title"; "priority"; "status"; "createdAt"].

(** [a] comes no later than [b] in the ascending order of a column:
    strings by their bytes, dates by their time. *)
Definition columnLe (field : string) (a b : Bug) : Prop :=
  (field = "title" /\ String.leb (title a) (title b) = true)
  \/ (field = "priority" /\ String.leb (priority a) (priority b) = true)
  \/ (field = "status" /\ String.leb (status a) (status b) = true)
  \/ (field = "createdAt" /\ (createdAt a <= createdAt b)%N).

(** The records a Status and a Priority selection admit; the selection
    "" is "All". *)
Definition selected (selStatus selPriority : string) (d : Bug) : bool :=
  ((selStatus =? "") || (status d =? selStatus))
  && ((selPriority =? "") || (priority d =? selPriority)).

(** The initial state of the component. *)
Definition initial : Sorting := {| sortBy := "createdAt"; sortOrder := "desc" |}.

(** [handleSort(field)]: a click on a column header. *)
Definition handleSort (field : string) (st : Sorting) : Sorting :=
  if sortBy st =? field
  then {| sortBy := sortBy st;
          sortOrder := if sortOrder st =? "asc" then "desc" else "asc" |}
  else {| sortBy := field; sortOrder := "desc" |}.

(** The state after a sequence of clicks. *)
Definition afterClicks (fields : list string) : Sorting :=
  List.fold_left (fun st field => handleSort field st) fields initial.

(** The query [fetchBugs] sends: [{ ...filters, sortBy, order: sortOrder }]. *)
Definition fetchParams (status priority source assignedTo : string) (st : Sorting)
  : Query.t :=
  {| Query.status := Some status; Query.priority := Some priority;
     Query.source := Some source; Query.assignedTo := Some assignedTo;
     Query.sortBy := Some (sortBy st); Query.order := Some (sortOrder st) |}.

End BugList.

(** ** Further sample data *)

(** [n] times the character [c]. *)
Fixpoint replicate (n : nat) (c : ascii) : string :=
  match n with
  | O => EmptyString
  | S n' => String c (replicate n' c)
  end.

(** [{ status: 'Resolved', reason: <501 characters> }]. *)
Definition longReasonBody : Body.t :=
  {| Body.title := None; Body.description := None; Body.priority := None;
     Body.status := Some "Resolved"; Body.reportedBy := None;
     Body.assignedTo := None; Body.source := None; Body.customer := None;
     Body.updatedBy := None; Body.reason := Some (replicate 501 "x");
     Body.by_ := None; Body.author := None; Body.message := None;
     Body.customerName := None; Body.customerEmail := None;
     Body.customerId := None; Body.others := [] |}.

(** A feedback body. *)
Definition sampleFeedback : Body.t :=
  {| Body.title := Some "Export fails"; Body.description := Some "CSV export times out";
     Body.priority := None; Body.status := None; Body.reportedBy := None;
     Body.assignedTo := None; Body.source := None; Body.customer := None;
     Body.updatedBy := None; Body.reason := None; Body.by_ := None;
     Body.author := None; Body.message := None;
     Body.customerName := Some " Acme Ltd "; Body.customerEmail := Some "ops@acme.test";
     Body.customerId := None; Body.others := [] |}.

(** A filled-in form. *)
Definition sampleForm : BugForm.FormData :=
  {| BugForm.title := " Login broken "; BugForm.description := "button unresponsive";
     BugForm.priority := "High"; BugForm.reportedBy := "Jane";
     BugForm.assignedTo := ""; BugForm.source := "customer";
     BugForm.customerName := "Acme Ltd"; BugForm.customerEmail := "ops@acme.test";
     BugForm.customerId := "" |}.

(** An environment with a webhook whose delivery fails. *)
Definition failingWebhook : Env :=
  with_webhook (Some "https://hooks.example/T0") (fun _ _ => Some "timeout")
    (noWebhook 1%N 1%N).

(** ** Texts outside ASCII *)

(** U+00A0, the no-break space. *)
Definition nbsp : string := string_of_list_ascii (bytes [194; 160]).

(** U+2028, the line separator. *)
Definition lineSeparator : string := string_of_list_ascii (bytes [226; 128; 168]).

(** [n] times the text [s]. *)
Fixpoint repeatText (n : nat) (s : string) : string :=
  match n with
  | O => EmptyString
  | S n' => s ++ repeatText n' s
  end.

(** [{ author, message }]. *)
Definition commentOf (author message : string) : Body.t :=
  {| Body.title := None; Body.description := None; Body.priority := None;
     Body.status := None; Body.reportedBy := None; Body.assignedTo := None;
     Body.source := None; Body.customer := None; Body.updatedBy := None;
     Body.reason := None; Body.by_ := None; Body.author := Some author;
     Body.message := Some message; Body.customerName := None;
     Body.customerEmail := None; Body.customerId := None; Body.others := [] |}.

(** [{ status, reason }]. *)
Definition statusWithReason (st reason : string) : Body.t :=
  {| Body.title := None; Body.description := None; Body.priority := None;
     Body.status := Some st; Body.reportedBy := None; Body.assignedTo := None;
     Body.source := None; Body.customer := None; Body.updatedBy := None;
     Body.reason := Some reason; Body.by_ := None; Body.author := None;
     Body.message := None; Body.customerName := None;
     Body.customerEmail := None; Body.customerId := None; Body.others := [] |}.
(** * Properties *)

(** ** The collection *)

Lemma lookup_id oid l d : lookup oid l = Some d -> _id d = oid.
Proof.
  induction l as [|x l IH]; simpl; [discriminate|].
  destruct (_id x =? oid)%N eqn:E.
  - intros H; injection H as <-. now apply N.eqb_eq.
  - exact IH.
Qed.

Lemma lookup_In oid l d : lookup oid l = Some d -> In d l.
Proof.
  induction l as [|x l IH]; simpl; [discriminate|].
  destruct (_id x =? oid)%N.
  - intros H; injection H as <-. now left.
  - intros H; right; auto.
Qed.

Lemma lookup_replace oid l d d' :
  lookup oid l = Some d -> _id d' = oid -> lookup oid (replace d' l) = Some d'.
Proof.
  intros H E. subst oid.
  induction l as [|x l IH]; simpl in *; [discriminate|].
  destruct (_id x =? _id d')%N eqn:Ex; simpl.
  - now rewrite N.eqb_refl.
  - rewrite Ex. auto.
Qed.

Lemma lookup_app_new oid l d :
  lookup oid l = None -> _id d = oid -> lookup oid (l ++ [d]) = Some d.
Proof.
  intros H E. subst oid.
  induction l as [|x l IH]; simpl in *.
  - now rewrite N.eqb_refl.
  - destruct (_id x =? _id d)%N; [discriminate|auto].
Qed.

Lemma In_replace x d l : In x (replace d l) -> x = d \/ In x l.
Proof.
  induction l as [|y l IH]; simpl; [tauto|].
  destruct (_id y =? _id d)%N; simpl; intuition auto.
Qed.

Lemma In_remove x oid l : In x (remove oid l) -> In x l.
Proof.
  induction l as [|y l IH]; simpl; [tauto|].
  destruct (_id y =? oid)%N; simpl; intuition auto.
Qed.

(** ** Sorting keeps the documents *)

Lemma insertSorted_perm field asc x l :
  Permutation (insertSorted field asc x l) (x :: l).
Proof.
  induction l as [|y l IH]; simpl; [apply Permutation_refl|].
  destruct (inOrder field asc x y); [apply Permutation_refl|].
  eapply Permutation_trans; [apply perm_skip, IH | apply perm_swap].
Qed.

Lemma sort_perm field asc l : Permutation (sort field asc l) l.
Proof.
  induction l as [|x l IH]; simpl; [constructor|].
  eapply Permutation_trans; [apply insertSorted_perm | now apply perm_skip].
Qed.

Lemma sort_In field asc l d : In d (sort field asc l) <-> In d l.
Proof.
  split; apply Permutation_in;
    [apply sort_perm | apply Permutation_sym, sort_perm].
Qed.

(** ** Validation *)

Lemma includes_In l x : includes l x = true <-> In x l.
Proof.
  induction l as [|y l IH]; simpl; [split; [discriminate|tauto]|].
  rewrite orb_true_iff, String.eqb_eq, IH. tauto.
Qed.

Lemma truthy_nonempty s : truthy s = true <-> s <> "".
Proof.
  unfold truthy. rewrite negb_true_iff. split.
  - intros H E. subst s. discriminate.
  - intros H. destruct s; [congruence|reflexivity].
Qed.

Lemma validate_status_ok st : validate_status st = [] <-> includes statusValues st = true.
Proof.
  unfold validate_status. split.
  - destruct (truthy st); cbn [negb]; [|discriminate].
    destruct (includes statusValues st); cbn [negb]; [reflexivity|discriminate].
  - intros H. rewrite H.
    apply includes_In in H. simpl in H.
    destruct H as [<-|[<-|[<-|[]]]]; reflexivity.
Qed.

Lemma status_value_truthy st : includes statusValues st = true -> truthy st = true.
Proof.
  intros H. apply includes_In in H. simpl in H.
  destruct H as [<-|[<-|[<-|[]]]]; reflexivity.
Qed.

Lemma validate_set_updatedAt t d : validate (set_updatedAt t d) = validate d.
Proof. reflexivity. Qed.

Lemma validate_push_statusHistory h d :
  validate (push_statusHistory h d) = (validate d ++ validate_statusChange h)%list.
Proof.
  unfold validate; simpl. rewrite flat_map_app. simpl.
  rewrite app_nil_r, !app_assoc. reflexivity.
Qed.

Lemma validate_set_status st d :
  validate d = [] -> includes statusValues st = true ->
  validate (set_status st d) = [].
Proof.
  unfold validate; simpl. intros H Hst.
  repeat (apply app_eq_nil in H; destruct H as [?H H]).
  apply validate_status_ok in Hst.
  rewrite H0, H1, H2, Hst, H4, H5, H6, H. reflexivity.
Qed.

Lemma validate_stored_status d : validate d = [] -> includes statusValues (status d) = true.
Proof.
  unfold validate. intros H.
  repeat (apply app_eq_nil in H; destruct H as [?H H]).
  now apply validate_status_ok.
Qed.

Lemma status_change_system_ok env from to :
  truthy to = true -> validate_statusChange (newStatusChange env from to "system" None) = [].
Proof. unfold validate_statusChange; simpl. now intros ->. Qed.

(** *** The validators of a path, in closed form *)

Lemma required_max_ok (v : string) (n : nat) (m1 m2 : string) :
  (if negb (truthy v) then [m1]
   else if (n <? utf16Length v)%nat then [m2] else []) = []
  <-> v <> "" /\ (utf16Length v <= n)%nat.
Proof.
  rewrite <- truthy_nonempty. destruct (truthy v); cbn [negb].
  - destruct (n <? utf16Length v)%nat eqn:E.
    + apply Nat.ltb_lt in E. split; [discriminate|]. intros [_ L]. lia.
    + apply Nat.ltb_ge in E. tauto.
  - split; [discriminate|]. intros [F _]. discriminate F.
Qed.

Lemma required_enum_ok (v : string) (values : list string) (m1 m2 : string) :
  (if negb (truthy v) then [m1]
   else if negb (includes values v) then [m2] else []) = []
  <-> v <> "" /\ In v values.
Proof.
  rewrite <- truthy_nonempty, <- includes_In.
  destruct (truthy v); cbn [negb].
  - destruct (includes values v); cbn [negb].
    + tauto.
    + split; [discriminate|]. intros [_ F]. discriminate F.
  - split; [discriminate|]. intros [F _]. discriminate F.
Qed.

Lemma orElse_supplied o d v : o = Some v -> v <> "" -> orElse o d = v.
Proof.
  intros -> N. apply truthy_nonempty in N. cbn [orElse]. now rewrite N.
Qed.

Lemma orElse_default o d : o = None \/ o = Some "" -> orElse o d = d.
Proof. intros [->| ->]; reflexivity. Qed.

(** A member with a default passes its enum exactly when it is absent,
    empty or one of the values (the default is one of them). *)
Lemma default_enum_ok o d values :
  d <> "" -> In d values ->
  (In (orElse o d) values /\ orElse o d <> "") <-> absentOrIn o values.
Proof.
  intros Nd Id. unfold absentOrIn. split.
  - intros [I N]. destruct o as [v|]; [|now left].
    destruct (string_dec v "") as [->|Nv]; [right; now left|].
    right; right. exists v. split; [reflexivity|].
    now rewrite (orElse_supplied (Some v) d v eq_refl Nv) in I.
  - intros [->|[->|[v [-> I]]]]; cbn [orElse]; try (split; assumption).
    destruct (truthy v) eqn:T.
    + split; [exact I|]. now apply truthy_nonempty.
    + split; assumption.
Qed.

(** ** Creating a bug *)

Lemma postBug_missing env body s :
  truthyO (Body.title body) && truthyO (Body.description body)
    && truthyO (Body.reportedBy body) = false ->
  postBug env body s
  = (fail 400 "Title, description, and reportedBy are required fields", s).
Proof.
  intros H. unfold postBug, route.
  destruct (truthyO (Body.title body)), (truthyO (Body.description body)),
    (truthyO (Body.reportedBy body)); try discriminate; reflexivity.
Qed.

(** The three outcomes of [POST /api/bugs] once the presence check has
    passed: a validation error, a duplicate key, or the saved document. *)
Lemma postBug_present env body s :
  truthyO (Body.title body) && truthyO (Body.description body)
    && truthyO (Body.reportedBy body) = true ->
  let doc := postBugDoc env body in
  match validate doc with
  | [] =>
      match lookup (newObjectId env) (bugs s) with
      | Some _ => postBug env body s = (errorHandler DuplicateKeyError, s)
      | None =>
          fst (postBug env body s) = ok 201 (OneBug doc) (Some "Bug created successfully")
          /\ bugs (snd (postBug env body s)) = (bugs s ++ [doc])%list
      end
  | msgs => postBug env body s = (errorHandler (ValidationError msgs), s)
  end.
Proof.
  intros H doc. unfold postBug, route.
  destruct (truthyO (Body.title body)), (truthyO (Body.description body)),
    (truthyO (Body.reportedBy body)); try discriminate.
  cbn [negb orb].
  unfold bind, save.
  match goal with |- context [new_Bug env ?o] => replace (new_Bug env o) with doc
    by (unfold doc, postBugDoc, new_Bug; cbn [Body.title Body.description Body.priority Body.status Body.reportedBy Body.assignedTo Body.source Body.customer getOr];
        destruct (strictEq (Body.source body) "customer"); reflexivity) end.
  destruct (validate doc) eqn:V; [|reflexivity].
  change (_id (set_updatedAt (now env) doc)) with (newObjectId env).
  destruct (lookup (newObjectId env) (bugs s)) eqn:L; [reflexivity|].
  unfold notify, ret, try_catch.
  destruct (SLACK_WEBHOOK_URL env) as [url|]; [|split; reflexivity].
  destruct (truthy url); [|split; reflexivity].
  destruct (axios_post env url _); split; reflexivity.
Qed.

Lemma postFeedback_missing env body s :
  truthyO (Body.title body) && truthyO (Body.description body)
    && truthyO (Body.customerName body) = false ->
  postFeedback env body s
  = (fail 400 "title, description, and customerName are required", s).
Proof.
  intros H. unfold postFeedback, route.
  destruct (truthyO (Body.title body)), (truthyO (Body.description body)),
    (truthyO (Body.customerName body)); try discriminate; reflexivity.
Qed.

Lemma postFeedback_present env body s :
  truthyO (Body.title body) && truthyO (Body.description body)
    && truthyO (Body.customerName body) = true ->
  let doc := feedbackDoc env body in
  match validate doc with
  | [] =>
      match lookup (newObjectId env) (bugs s) with
      | Some _ => postFeedback env body s = (errorHandler DuplicateKeyError, s)
      | None =>
          fst (postFeedback env body s)
          = ok 201 (OneBug doc) (Some "Feedback captured as bug")
          /\ bugs (snd (postFeedback env body s)) = (bugs s ++ [doc])%list
      end
  | msgs => postFeedback env body s = (errorHandler (ValidationError msgs), s)
  end.
Proof.
  intros H doc. unfold postFeedback, route.
  destruct (truthyO (Body.title body)), (truthyO (Body.description body)),
    (truthyO (Body.customerName body)); try discriminate.
  cbn [negb orb].
  unfold bind, save.
  match goal with |- context [new_Bug env ?o] =>
    change (new_Bug env o) with doc end.
  destruct (validate doc) eqn:V; [|reflexivity].
  change (_id (set_updatedAt (now env) doc)) with (newObjectId env).
  destruct (lookup (newObjectId env) (bugs s)) eqn:L; [reflexivity|].
  unfold notify, ret, try_catch.
  destruct (SLACK_WEBHOOK_URL env) as [url|]; [|split; reflexivity].
  destruct (truthy url); [|split; reflexivity].
  destruct (axios_post env url _); split; reflexivity.
Qed.

(** C7. A [POST /api/bugs] whose body lacks [title], [description] or
    [reportedBy] answers 400 and persists nothing: the state is as it
    was, so a following [GET /api/bugs] has the count it had before. *)
Theorem C7_create_missing_required_field env body s query :
  Body.title body = None \/ Body.description body = None
    \/ Body.reportedBy body = None ->
  Res.statusCode (fst (postBug env body s)) = 400
  /\ snd (postBug env body s) = s
  /\ Res.count (fst (getBugs query (snd (postBug env body s))))
     = Res.count (fst (getBugs query s)).
Proof.
  intros H.
  assert (E : postBug env body s
              = (fail 400 "Title, description, and reportedBy are required fields", s)).
  { apply postBug_missing.
    destruct H as [H|[H|H]]; rewrite H; cbn [truthyO andb];
      rewrite ?andb_false_r; reflexivity. }
  rewrite E. repeat split.
Qed.

(** *** When a create stores a record *)

Lemma trim_nonempty_raw s : trim s <> "" -> s <> "".
Proof. intros H ->. now apply H. Qed.

Lemma text_ok o n (m1 m2 : string) :
  (if negb (truthy (trim (getOr o ""))) then [m1]
   else if (n <? utf16Length (trim (getOr o "")))%nat then [m2] else []) = []
  <-> withinLimit o n.
Proof.
  rewrite required_max_ok. unfold withinLimit. split.
  - intros [N L]. destruct o as [v|]; [|now contradiction N].
    exists v. auto.
  - intros [v [-> H]]. exact H.
Qed.

Lemma withinLimit_truthy o n : withinLimit o n -> truthyO o = true.
Proof.
  intros [v [-> [N _]]]. cbn [truthyO]. now apply truthy_nonempty, trim_nonempty_raw.
Qed.

Lemma validate_source_ok o :
  validate_source (orElse o "internal") = [] <-> absentOrIn o sourceValues.
Proof.
  rewrite <- (default_enum_ok o "internal" sourceValues);
    [|discriminate|now left].
  unfold validate_source. rewrite <- includes_In.
  destruct (includes sourceValues (orElse o "internal")) eqn:I; cbn [negb].
  - split; [|reflexivity]. intros _. split; [reflexivity|].
    apply includes_In in I. intros E. rewrite E in I.
    destruct I as [I|[I|[]]]; discriminate I.
  - split; [discriminate|]. intros [F _]. discriminate F.
Qed.

Lemma validate_priority_ok o :
  validate_priority (orElse o "Medium") = [] <-> absentOrIn o priorityValues.
Proof.
  rewrite <- (default_enum_ok o "Medium" priorityValues);
    [|discriminate|right; now left].
  unfold validate_priority. rewrite required_enum_ok. tauto.
Qed.

(** The document of a create passes the schema exactly when the three
    required texts are within their limits and the two enum members are
    absent, empty or values of their enum. *)
Lemma validate_postBugDoc env body :
  validate (postBugDoc env body) = []
  <-> withinLimit (Body.title body) 100
      /\ withinLimit (Body.description body) 1000
      /\ withinLimit (Body.reportedBy body) 50
      /\ absentOrIn (Body.priority body) priorityValues
      /\ absentOrIn (Body.source body) sourceValues.
Proof.
  unfold validate, postBugDoc.
  cbn [title description priority status reportedBy source comments
         statusHistory flat_map].
  unfold validate_title, validate_description, validate_reportedBy.
  rewrite app_nil_r.
  change (validate_status "Open") with (@nil string). cbn [app].
  split.
  - intros V. repeat (apply app_eq_nil in V; destruct V as [?V V]).
    apply text_ok in V0, V1, V3. apply validate_priority_ok in V2.
    apply validate_source_ok in V. tauto.
  - intros [T [D [R [P S]]]].
    apply text_ok with (m1 := "Bug title is required")
      (m2 := "Title cannot exceed 100 characters") in T.
    apply text_ok with (m1 := "Bug description is required")
      (m2 := "Description cannot exceed 1000 characters") in D.
    apply text_ok with (m1 := "Reporter name is required")
      (m2 := "Reporter name cannot exceed 50 characters") in R.
    apply validate_priority_ok in P. apply validate_source_ok in S.
    rewrite T, D, R, P, S. reflexivity.
Qed.

Lemma validate_feedbackDoc env body :
  validate (feedbackDoc env body) = []
  <-> withinLimit (Body.title body) 100
      /\ withinLimit (Body.description body) 1000
      /\ withinLimit (Body.customerName body) 50
      /\ absentOrIn (Body.priority body) priorityValues.
Proof.
  unfold validate, feedbackDoc.
  cbn [title description priority status reportedBy source comments
         statusHistory flat_map].
  unfold validate_title, validate_description, validate_reportedBy.
  change (validate_status "Open") with (@nil string).
  change (validate_source "customer") with (@nil string).
  cbn [app]. rewrite ?app_nil_r.
  split.
  - intros V. repeat (apply app_eq_nil in V; destruct V as [?V V]).
    apply text_ok in V0, V1, V. apply validate_priority_ok in V2. tauto.
  - intros [T [D [R P]]].
    apply text_ok with (m1 := "Bug title is required")
      (m2 := "Title cannot exceed 100 characters") in T.
    apply text_ok with (m1 := "Bug description is required")
      (m2 := "Description cannot exceed 1000 characters") in D.
    apply text_ok with (m1 := "Reporter name is required")
      (m2 := "Reporter name cannot exceed 50 characters") in R.
    apply validate_priority_ok in P.
    rewrite T, D, R, P. reflexivity.
Qed.

(** [POST /api/bugs] on a body it stores a record for, and on the
    others. *)
Lemma postBug_creatable env body s :
  creatable env body s ->
  fst (postBug env body s)
  = ok 201 (OneBug (postBugDoc env body)) (Some "Bug created successfully")
  /\ bugs (snd (postBug env body s)) = (bugs s ++ [postBugDoc env body])%list.
Proof.
  intros [T [D [R [P [S L]]]]].
  assert (Pr : truthyO (Body.title body) && truthyO (Body.description body)
               && truthyO (Body.reportedBy body) = true).
  { now rewrite (withinLimit_truthy _ _ T), (withinLimit_truthy _ _ D),
      (withinLimit_truthy _ _ R). }
  pose proof (postBug_present env body s Pr) as Q. cbv zeta in Q.
  assert (V : validate (postBugDoc env body) = [])
    by (apply validate_postBugDoc; tauto).
  rewrite V, L in Q. exact Q.
Qed.

Lemma postBug_not_creatable env body s :
  Res.statusCode (fst (postBug env body s)) = 201 \/
  (Res.statusCode (fst (postBug env body s)) = 400 /\ snd (postBug env body s) = s).
Proof.
  destruct (truthyO (Body.title body) && truthyO (Body.description body)
            && truthyO (Body.reportedBy body)) eqn:P.
  - pose proof (postBug_present env body s P) as Q. cbv zeta in Q.
    destruct (validate (postBugDoc env body)) eqn:V.
    + destruct (lookup (newObjectId env) (bugs s)) eqn:L.
      * right. rewrite Q. split; reflexivity.
      * left. destruct Q as [-> _]. reflexivity.
    + right. rewrite Q. split; reflexivity.
  - right. rewrite (postBug_missing env body s P). split; reflexivity.
Qed.

Lemma postBug_201_creatable env body s :
  Res.statusCode (fst (postBug env body s)) = 201 -> creatable env body s.
Proof.
  intros C.
  destruct (truthyO (Body.title body) && truthyO (Body.description body)
            && truthyO (Body.reportedBy body)) eqn:P.
  - pose proof (postBug_present env body s P) as Q. cbv zeta in Q.
    destruct (validate (postBugDoc env body)) eqn:V.
    + destruct (lookup (newObjectId env) (bugs s)) eqn:L.
      * rewrite Q in C. discriminate C.
      * apply validate_postBugDoc in V. unfold creatable. tauto.
    + rewrite Q in C. discriminate C.
  - rewrite (postBug_missing env body s P) in C. discriminate C.
Qed.

Lemma postFeedback_creatable env body s :
  creatableFeedback env body s ->
  fst (postFeedback env body s)
  = ok 201 (OneBug (feedbackDoc env body)) (Some "Feedback captured as bug")
  /\ bugs (snd (postFeedback env body s)) = (bugs s ++ [feedbackDoc env body])%list.
Proof.
  intros [T [D [R [P L]]]].
  assert (Pr : truthyO (Body.title body) && truthyO (Body.description body)
               && truthyO (Body.customerName body) = true).
  { now rewrite (withinLimit_truthy _ _ T), (withinLimit_truthy _ _ D),
      (withinLimit_truthy _ _ R). }
  pose proof (postFeedback_present env body s Pr) as Q. cbv zeta in Q.
  assert (V : validate (feedbackDoc env body) = [])
    by (apply validate_feedbackDoc; tauto).
  rewrite V, L in Q. exact Q.
Qed.

(** C6 (amended). [POST /api/bugs] stores a record, and answers 201 with
    it, exactly for the bodies whose title, description and reportedBy
    are present, not blank once trimmed and within 100, 1000 and 50
    UTF-16 code units once trimmed, whose priority and source are each
    absent, empty or a value of their enum, and for which the generated
    identifier is not in use.  The stored record then has status "Open";
    its priority is the one of the body when that is supplied and
    "Medium" when it is absent or empty; its source is the one of the
    body when supplied and "internal" otherwise; its assignee is the
    trimmed one of the body, the empty string when omitted.  Every other
    create is answered 400 and stores nothing. *)
Theorem C6_create_defaults env body s :
  (Res.statusCode (fst (postBug env body s)) = 201 <-> creatable env body s)
  /\ (creatable env body s ->
      exists saved,
        fst (postBug env body s)
        = ok 201 (OneBug saved) (Some "Bug created successfully")
        /\ bugs (snd (postBug env body s)) = (bugs s ++ [saved])%list
        /\ _id saved = newObjectId env
        /\ status saved = "Open"
        /\ (forall p, Body.priority body = Some p -> p <> "" -> priority saved = p)
        /\ (Body.priority body = None \/ Body.priority body = Some "" ->
            priority saved = "Medium")
        /\ (forall v, Body.source body = Some v -> v <> "" -> source saved = v)
        /\ (Body.source body = None \/ Body.source body = Some "" ->
            source saved = "internal")
        /\ (forall a, Body.assignedTo body = Some a -> assignedTo saved = trim a)
        /\ (Body.assignedTo body = None -> assignedTo saved = "")
        /\ comments saved = [] /\ statusHistory saved = [])
  /\ (Res.statusCode (fst (postBug env body s)) <> 201 ->
      Res.statusCode (fst (postBug env body s)) = 400
      /\ snd (postBug env body s) = s).
Proof.
  split; [|split].
  - split; [apply postBug_201_creatable|].
    intros K. destruct (postBug_creatable env body s K) as [-> _]. reflexivity.
  - intros K. destruct (postBug_creatable env body s K) as [R B].
    exists (postBugDoc env body).
    split; [exact R|]. split; [exact B|].
    split; [reflexivity|]. split; [reflexivity|].
    cbn [postBugDoc priority source assignedTo comments statusHistory].
    split; [intros p E N; now apply orElse_supplied|].
    split; [apply orElse_default|].
    split; [intros v E N; now apply orElse_supplied|].
    split; [apply orElse_default|].
    split.
    + intros a E. rewrite E. cbn [orElse]. destruct (truthy a) eqn:T; [reflexivity|].
      destruct a; [reflexivity|discriminate T].
    + split; [|split; reflexivity]. intros E. rewrite E. reflexivity.
  - intros N. destruct (postBug_not_creatable env body s) as [C|C];
      [now contradiction N|exact C].
Qed.

(** ** The webhook does not reach the response *)

Lemma postBug_webhook env url post body s :
  fst (postBug (with_webhook url post env) body s) = fst (postBug env body s)
  /\ bugs (snd (postBug (with_webhook url post env) body s))
     = bugs (snd (postBug env body s)).
Proof.
  destruct (truthyO (Body.title body) && truthyO (Body.description body)
            && truthyO (Body.reportedBy body)) eqn:P.
  - pose proof (postBug_present env body s P) as Q.
    pose proof (postBug_present (with_webhook url post env) body s P) as Q'.
    cbv zeta in Q, Q'.
    change (postBugDoc (with_webhook url post env) body)
      with (postBugDoc env body) in Q'.
    change (newObjectId (with_webhook url post env)) with (newObjectId env) in Q'.
    destruct (validate (postBugDoc env body)).
    + destruct (lookup (newObjectId env) (bugs s)).
      * rewrite Q, Q'. split; reflexivity.
      * destruct Q as [-> ->], Q' as [-> ->]. split; reflexivity.
    + rewrite Q, Q'. split; reflexivity.
  - rewrite !(postBug_missing _ body s P). split; reflexivity.
Qed.

Lemma postFeedback_webhook env url post body s :
  fst (postFeedback (with_webhook url post env) body s)
  = fst (postFeedback env body s)
  /\ bugs (snd (postFeedback (with_webhook url post env) body s))
     = bugs (snd (postFeedback env body s)).
Proof.
  destruct (truthyO (Body.title body) && truthyO (Body.description body)
            && truthyO (Body.customerName body)) eqn:P.
  - pose proof (postFeedback_present env body s P) as Q.
    pose proof (postFeedback_present (with_webhook url post env) body s P) as Q'.
    cbv zeta in Q, Q'.
    change (feedbackDoc (with_webhook url post env) body)
      with (feedbackDoc env body) in Q'.
    change (newObjectId (with_webhook url post env)) with (newObjectId env) in Q'.
    destruct (validate (feedbackDoc env body)).
    + destruct (lookup (newObjectId env) (bugs s)).
      * rewrite Q, Q'. split; reflexivity.
      * destruct Q as [-> ->], Q' as [-> ->]. split; reflexivity.
    + rewrite Q, Q'. split; reflexivity.
  - rewrite !(postFeedback_missing _ body s P). split; reflexivity.
Qed.

(** The webhook is visible in the trace only. *)
Example webhook_shows_in_trace_only :
  let failing :=
    with_webhook (Some "https://hooks.example/T0") (fun _ _ => Some "timeout")
      (noWebhook 1%N 1%N) in
  trace (snd (postBug failing sampleBug emptyState))
  <> trace (snd (postBug (noWebhook 1%N 1%N) sampleBug emptyState))
  /\ fst (postBug failing sampleBug emptyState)
     = fst (postBug (noWebhook 1%N 1%N) sampleBug emptyState).
Proof. split; [discriminate | reflexivity]. Qed.

(** C8. For every create ([POST /api/bugs] and [POST /api/bugs/feedback])
    the response (status code and body) and the persisted collection are
    the same whatever the webhook configuration and whatever the outcome
    of the webhook call: a delivery failure changes neither.  A create of
    either route whose body passes the schema, with a fresh identifier,
    is answered 201 with the saved record, which is added to the
    collection, under every webhook configuration and outcome. *)
Theorem C8_webhook_outcome_never_affects_create env url post body s :
  let env' := with_webhook url post env in
  (fst (postBug env' body s) = fst (postBug env body s)
   /\ bugs (snd (postBug env' body s)) = bugs (snd (postBug env body s)))
  /\ (fst (postFeedback env' body s) = fst (postFeedback env body s)
      /\ bugs (snd (postFeedback env' body s)) = bugs (snd (postFeedback env body s)))
  /\ (creatable env body s ->
      exists saved,
        fst (postBug env' body s)
        = ok 201 (OneBug saved) (Some "Bug created successfully")
        /\ bugs (snd (postBug env' body s)) = (bugs s ++ [saved])%list
        /\ title saved = trim (getOr (Body.title body) ""))
  /\ (creatableFeedback env body s ->
      exists saved,
        fst (postFeedback env' body s)
        = ok 201 (OneBug saved) (Some "Feedback captured as bug")
        /\ bugs (snd (postFeedback env' body s)) = (bugs s ++ [saved])%list
        /\ title saved = trim (getOr (Body.title body) "")
        /\ source saved = "customer").
Proof.
  intros env'. subst env'. split; [apply postBug_webhook|].
  split; [apply postFeedback_webhook|]. split.
  - intros K. destruct (postBug_webhook env url post body s) as [-> ->].
    destruct (postBug_creatable env body s K) as [R B].
    exists (postBugDoc env body). repeat split; assumption.
  - intros K. destruct (postFeedback_webhook env url post body s) as [-> ->].
    destruct (postFeedback_creatable env body s K) as [R B].
    exists (feedbackDoc env body). repeat split; assumption.
Qed.

(** ** The by-identifier routes *)

Section Routes.

Variable castObjectId : string -> option ObjectId.

Lemma errorHandler_cast id :
  errorHandler (CastError id)
  = {| Res.statusCode := 404; Res.success := false; Res.data := NoData;
       Res.count := None; Res.message := None;
       Res.error := Some "Resource not found"; Res.errors := None |}.
Proof. reflexivity. Qed.

Lemma errorHandler_plain msg :
  truthy msg = true ->
  errorHandler (Error msg)
  = {| Res.statusCode := 500; Res.success := false; Res.data := NoData;
       Res.count := None; Res.message := None;
       Res.error := Some msg; Res.errors := None |}.
Proof. intros H. unfold errorHandler. cbn. now rewrite H. Qed.

(** *** Malformed identifiers *)

Lemma getBug_malformed id s :
  castObjectId id = None ->
  getBug castObjectId id s = (fail 400 "Invalid bug ID format", s).
Proof. intros H. unfold getBug, route, bind, findById. now rewrite H. Qed.

Lemma putBug_malformed env id body s :
  castObjectId id = None ->
  putBug castObjectId env id body s = (fail 400 "Invalid bug ID format", s).
Proof. intros H. unfold putBug, route, bind, findById. now rewrite H. Qed.

Lemma deleteBug_malformed id s :
  castObjectId id = None ->
  deleteBug castObjectId id s = (fail 400 "Invalid bug ID format", s).
Proof. intros H. unfold deleteBug, route, bind, findByIdAndDelete. now rewrite H. Qed.

Lemma patchStatus_malformed env id body s :
  castObjectId id = None ->
  truthyO (Body.status body) = true ->
  patchStatus castObjectId env id body s = (errorHandler (CastError id), s).
Proof.
  intros H T. unfold patchStatus, route, bind, findById. now rewrite T, H.
Qed.

Lemma postComment_malformed env id body s :
  castObjectId id = None ->
  truthyO (Body.author body) = true ->
  truthyO (Body.message body) = true ->
  postComment castObjectId env id body s = (errorHandler (CastError id), s).
Proof.
  intros H Ta Tm. unfold postComment, route, bind, findById.
  now rewrite Ta, Tm, H.
Qed.

(** *** Well-formed identifiers without a document *)

Lemma getBug_absent id oid s :
  castObjectId id = Some oid -> lookup oid (bugs s) = None ->
  getBug castObjectId id s = (fail 404 "Bug not found", s).
Proof. intros H L. unfold getBug, route, bind, findById. rewrite H; cbv beta; now rewrite L. Qed.

Lemma putBug_absent env id oid body s :
  castObjectId id = Some oid -> lookup oid (bugs s) = None ->
  putBug castObjectId env id body s = (fail 404 "Bug not found", s).
Proof. intros H L. unfold putBug, route, bind, findById. rewrite H; cbv beta; now rewrite L. Qed.

Lemma deleteBug_absent id oid s :
  castObjectId id = Some oid -> lookup oid (bugs s) = None ->
  deleteBug castObjectId id s = (fail 404 "Bug not found", s).
Proof.
  intros H L. unfold deleteBug, route, bind, findByIdAndDelete.
  rewrite H; cbv beta; now rewrite L.
Qed.

Lemma patchStatus_absent env id oid body s :
  castObjectId id = Some oid -> lookup oid (bugs s) = None ->
  truthyO (Body.status body) = true ->
  patchStatus castObjectId env id body s = (fail 404 "Bug not found", s).
Proof.
  intros H L T. unfold patchStatus, route, bind, findById.
  rewrite T, H; js_step; now rewrite L.
Qed.

Lemma postComment_absent env id oid body s :
  castObjectId id = Some oid -> lookup oid (bugs s) = None ->
  truthyO (Body.author body) = true ->
  truthyO (Body.message body) = true ->
  postComment castObjectId env id body s = (fail 404 "Bug not found", s).
Proof.
  intros H L Ta Tm. unfold postComment, route, bind, findById.
  rewrite Ta, Tm, H; js_step; now rewrite L.
Qed.

(** The answers of the five by-identifier routes to an identifier that
    does not cast: 400 from the three routes that catch [CastError], 404
    from the two that leave it to [errorHandler]. *)
Lemma malformed_identifier_codes env id body s :
  castObjectId id = None ->
  Res.statusCode (fst (getBug castObjectId id s)) = 400
  /\ Res.statusCode (fst (putBug castObjectId env id body s)) = 400
  /\ Res.statusCode (fst (deleteBug castObjectId id s)) = 400
  /\ (truthyO (Body.status body) = true ->
      Res.statusCode (fst (patchStatus castObjectId env id body s)) = 404)
  /\ (truthyO (Body.author body) = true -> truthyO (Body.message body) = true ->
      Res.statusCode (fst (postComment castObjectId env id body s)) = 404).
Proof.
  intros H.
  rewrite (getBug_malformed id s H), (putBug_malformed env id body s H),
    (deleteBug_malformed id s H).
  repeat split.
  - intros T. now rewrite (patchStatus_malformed env id body s H T), errorHandler_cast.
  - intros Ta Tm.
    now rewrite (postComment_malformed env id body s H Ta Tm), errorHandler_cast.
Qed.

(** Their answers to a well-formed identifier without a record: 404. *)
Lemma absent_record_codes env id oid body s :
  castObjectId id = Some oid -> lookup oid (bugs s) = None ->
  Res.statusCode (fst (getBug castObjectId id s)) = 404
  /\ Res.statusCode (fst (putBug castObjectId env id body s)) = 404
  /\ Res.statusCode (fst (deleteBug castObjectId id s)) = 404
  /\ (truthyO (Body.status body) = true ->
      Res.statusCode (fst (patchStatus castObjectId env id body s)) = 404)
  /\ (truthyO (Body.author body) = true -> truthyO (Body.message body) = true ->
      Res.statusCode (fst (postComment castObjectId env id body s)) = 404).
Proof.
  intros H L.
  rewrite (getBug_absent id oid s H L), (putBug_absent env id oid body s H L),
    (deleteBug_absent id oid s H L).
  repeat split.
  - intros T. now rewrite (patchStatus_absent env id oid body s H L T).
  - intros Ta Tm. now rewrite (postComment_absent env id oid body s H L Ta Tm).
Qed.

(** *** PATCH /:id/status on a stored bug *)

Lemma patchStatus_missing env id body s :
  truthyO (Body.status body) = false ->
  patchStatus castObjectId env id body s = (fail 400 "Status is required", s).
Proof. intros T. unfold patchStatus, route. now rewrite T. Qed.

Lemma patchStatus_invalid env id oid body bug st s :
  castObjectId id = Some oid -> lookup oid (bugs s) = Some bug ->
  Body.status body = Some st -> truthy st = true ->
  includes statusValues st = false ->
  patchStatus castObjectId env id body s
  = (errorHandler (Error "Invalid status value"), s).
Proof.
  intros H L B T I.
  unfold patchStatus, route, bind, findById, updateStatus.
  rewrite B. js_step. rewrite T, H. js_step. rewrite L. js_step.
  now rewrite I.
Qed.

(** A status outside the enum leaves the state as it was and is answered
    with the 500 of the generic handler. *)
Lemma patchStatus_invalid_code env id oid body bug st s :
  castObjectId id = Some oid -> lookup oid (bugs s) = Some bug ->
  Body.status body = Some st -> truthy st = true ->
  includes statusValues st = false ->
  Res.statusCode (fst (patchStatus castObjectId env id body s)) = 500
  /\ Res.error (fst (patchStatus castObjectId env id body s))
     = Some "Invalid status value"
  /\ snd (patchStatus castObjectId env id body s) = s.
Proof.
  intros H L B T I.
  rewrite (patchStatus_invalid env id oid body bug st s H L B T I),
    errorHandler_plain by reflexivity.
  repeat split.
Qed.

Lemma afterMethod_valid env bug st :
  validate bug = [] -> includes statusValues st = true ->
  validate (afterMethod env bug st) = [].
Proof.
  intros V I. unfold afterMethod.
  rewrite validate_set_updatedAt, validate_push_statusHistory,
    validate_set_updatedAt, (validate_set_status _ _ V I).
  apply status_change_system_ok, status_value_truthy, I.
Qed.

Lemma save_loaded env doc s :
  validate doc = [] ->
  save env false doc s
  = (inr (set_updatedAt (now env) doc),
     with_bugs (replace (set_updatedAt (now env) doc) (bugs s)) s).
Proof. intros V. unfold save. now rewrite V. Qed.

Lemma save_invalid env isNew doc s :
  validate doc <> [] ->
  save env isNew doc s = (inl (ValidationError (validate doc)), s).
Proof. intros V. unfold save. destruct (validate doc); [congruence|reflexivity]. Qed.

Lemma updateStatus_valid env bug st s :
  includes statusValues st = true -> validate bug = [] ->
  updateStatus env bug st s
  = (inr (afterMethod env bug st),
     with_bugs (replace (afterMethod env bug st) (bugs s)) s).
Proof.
  intros I V. unfold updateStatus. rewrite I. cbn [negb].
  rewrite save_loaded; [reflexivity|].
  rewrite validate_push_statusHistory, validate_set_updatedAt,
    (validate_set_status _ _ V I).
  apply status_change_system_ok, status_value_truthy, I.
Qed.

Lemma patchStatus_valid env id oid body bug st s :
  castObjectId id = Some oid -> lookup oid (bugs s) = Some bug ->
  Body.status body = Some st ->
  includes statusValues st = true ->
  validate bug = [] ->
  let s1 := with_bugs (replace (afterMethod env bug st) (bugs s)) s in
  patchStatus castObjectId env id body s
  = match validate_statusChange (routeEntry env bug st body) with
    | [] =>
        (ok 200 (OneBug (afterRoute env bug st body))
           (Some "Bug status updated successfully"),
         with_bugs (replace (afterRoute env bug st body) (bugs s1)) s1)
    | msgs => (errorHandler (ValidationError msgs), s1)
    end.
Proof.
  intros H L B I V s1.
  pose proof (status_value_truthy _ I) as T.
  pose proof (afterMethod_valid env bug st V I) as V1.
  unfold patchStatus, route, bind, findById.
  rewrite B. js_step. rewrite T, H. js_step. rewrite L.
  rewrite (updateStatus_valid env bug st s I V). fold s1.
  change (newStatusChange env (status bug) st (orElse (Body.by_ body) "system")
            (Body.reason body)) with (routeEntry env bug st body).
  destruct (validate_statusChange (routeEntry env bug st body)) eqn:V2.
  - rewrite save_loaded; [reflexivity|].
    now rewrite validate_push_statusHistory, V1, V2.
  - rewrite save_invalid;
      rewrite validate_push_statusHistory, V1, V2; [reflexivity|discriminate].
Qed.

Lemma patchStatus_appends_two env id oid body bug st s :
  castObjectId id = Some oid -> lookup oid (bugs s) = Some bug ->
  Body.status body = Some st ->
  includes statusValues st = true ->
  validate bug = [] ->
  validate_statusChange (routeEntry env bug st body) = [] ->
  exists bug',
    patchStatus castObjectId env id body s
    = (ok 200 (OneBug bug') (Some "Bug status updated successfully"),
       with_bugs (replace bug' (replace (afterMethod env bug st) (bugs s))) s)
    /\ lookup oid (bugs (snd (patchStatus castObjectId env id body s))) = Some bug'
    /\ status bug' = st
    /\ statusHistory bug'
       = (statusHistory bug ++ [methodEntry env bug st; routeEntry env bug st body])%list.
Proof.
  intros H L B I V V2. exists (afterRoute env bug st body).
  pose proof (patchStatus_valid env id oid body bug st s H L B I V) as E.
  cbv zeta in E. rewrite V2 in E. rewrite E. cbn [snd bugs with_bugs].
  split; [reflexivity|]. split.
  - eapply lookup_replace; [|exact (lookup_id _ _ _ L)].
    eapply lookup_replace; [exact L|exact (lookup_id _ _ _ L)].
  - split; [reflexivity|]. cbn. now rewrite <- app_assoc.
Qed.

(** C10. A [PATCH /:id/status] whose status equals the current status of
    the stored bug is not a no-op: it is not compared with the stored
    status, the record is written back, and its [statusHistory] grows by
    entries whose [from] equals their [to]: the entry of [updateStatus]
    and, unless its [reason] fails the length validator, the entry of
    the route.  The stored bug is a valid document, as every document of
    a state reached from the empty collection is ([reachable_valid]). *)
Theorem C10_patch_same_status_still_appends env id oid body bug s :
  castObjectId id = Some oid ->
  lookup oid (bugs s) = Some bug ->
  validate bug = [] ->
  Body.status body = Some (status bug) ->
  exists bug' added,
    lookup oid (bugs (snd (patchStatus castObjectId env id body s))) = Some bug'
    /\ status bug' = status bug
    /\ statusHistory bug' = (statusHistory bug ++ added)%list
    /\ added <> []
    /\ Forall (fun h => h_from h = status bug /\ h_to h = status bug) added
    /\ (validate_statusChange (routeEntry env bug (status bug) body) = [] ->
        Res.statusCode (fst (patchStatus castObjectId env id body s)) = 200
        /\ List.length added = 2).
Proof.
  intros H L V B.
  pose proof (validate_stored_status _ V) as I.
  pose proof (patchStatus_valid env id oid body bug (status bug) s H L B I V) as E.
  cbv zeta in E. rewrite E. clear E.
  pose proof (lookup_id _ _ _ L) as Hid.
  destruct (validate_statusChange (routeEntry env bug (status bug) body)) eqn:V2.
  - exists (afterRoute env bug (status bug) body),
      [methodEntry env bug (status bug); routeEntry env bug (status bug) body].
    cbn [snd fst bugs with_bugs]. split.
    { eapply lookup_replace; [|exact Hid].
      eapply lookup_replace; [exact L|exact Hid]. }
    split; [reflexivity|]. split; [cbn; now rewrite <- app_assoc|].
    split; [discriminate|]. split.
    { repeat constructor. }
    intros _. split; reflexivity.
  - exists (afterMethod env bug (status bug)), [methodEntry env bug (status bug)].
    cbn [snd fst bugs with_bugs]. split.
    { eapply lookup_replace; [exact L|exact Hid]. }
    split; [reflexivity|]. split; [reflexivity|].
    split; [discriminate|]. split.
    { repeat constructor. }
    intros D. discriminate D.
Qed.

(** *** PUT /:id on a stored bug *)

Lemma putBug_changed env id oid body existing s :
  castObjectId id = Some oid -> lookup oid (bugs s) = Some existing ->
  statusDiffers body existing = true ->
  putBug castObjectId env id body s
  = match validate (putChanged env existing body) with
    | [] =>
        (ok 200 (OneBug (putChanged env existing body))
           (Some "Bug updated successfully"),
         with_bugs (replace (putChanged env existing body) (bugs s)) s)
    | msgs => (validationFailed msgs, s)
    end.
Proof.
  intros H L D. unfold putBug, route, bind, findById.
  rewrite H. js_step. rewrite L.
  fold (statusDiffers body existing). rewrite D.
  fold (putEntry env existing body). unfold save.
  change (validate (putChanged env existing body))
    with (validate (set (push_statusHistory (putEntry env existing body) existing) body)).
  destruct (validate (set (push_statusHistory (putEntry env existing body) existing) body));
    reflexivity.
Qed.

Lemma putBug_same env id oid body existing s :
  castObjectId id = Some oid -> lookup oid (bugs s) = Some existing ->
  statusDiffers body existing = false ->
  putBug castObjectId env id body s
  = match validateUpdate body with
    | [] =>
        (ok 200 (OneBug (putSame env existing body))
           (Some "Bug updated successfully"),
         with_bugs (replace (putSame env existing body) (bugs s)) s)
    | msgs => (validationFailed msgs, s)
    end.
Proof.
  intros H L D. unfold putBug, route, bind, findById, findByIdAndUpdate.
  rewrite H. js_step. rewrite L.
  fold (statusDiffers body existing). rewrite D.
  destruct (validateUpdate body); [|reflexivity].
  cbv beta. rewrite L. reflexivity.
Qed.




(** *** What the other routes do to the collection *)

Lemma getBugs_state q s : snd (getBugs q s) = s.
Proof.
  unfold getBugs, route, bind, find.
  destruct (getOr (Query.sortBy q) "createdAt" =? ""); reflexivity.
Qed.

Lemma getBug_state id s : snd (getBug castObjectId id s) = s.
Proof.
  unfold getBug, route, bind, findById.
  destruct (castObjectId id); [|reflexivity].
  cbv beta. destruct (lookup o (bugs s)); reflexivity.
Qed.

Lemma deleteBug_bugs id s :
  bugs (snd (deleteBug castObjectId id s)) = bugs s
  \/ exists oid, bugs (snd (deleteBug castObjectId id s)) = remove oid (bugs s).
Proof.
  unfold deleteBug, route, bind, findByIdAndDelete.
  destruct (castObjectId id) as [oid|]; [|now left].
  cbv beta. destruct (lookup oid (bugs s)); [right; now exists oid|now left].
Qed.

Lemma postComment_bugs env id body s :
  bugs (snd (postComment castObjectId env id body s)) = bugs s
  \/ exists oid bug c,
       lookup oid (bugs s) = Some bug
       /\ bugs (snd (postComment castObjectId env id body s))
          = replace (set_updatedAt (now env)
                       (set_updatedAt (now env) (push_comments c bug)))
              (bugs s).
Proof.
  unfold postComment, route, bind, findById, addComment, save.
  destruct (truthyO (Body.author body)); [|now left].
  destruct (truthyO (Body.message body)); [|now left].
  js_step. destruct (castObjectId id) as [oid|]; [|now left].
  cbv beta. destruct (lookup oid (bugs s)) as [bug|] eqn:L; [|now left].
  destruct (validate _); [|now left].
  right. exists oid, bug. eexists. split; [exact L|reflexivity].
Qed.

Lemma postBug_bugs env body s :
  bugs (snd (postBug env body s)) = bugs s
  \/ bugs (snd (postBug env body s)) = (bugs s ++ [postBugDoc env body])%list.
Proof.
  destruct (truthyO (Body.title body) && truthyO (Body.description body)
            && truthyO (Body.reportedBy body)) eqn:P.
  - pose proof (postBug_present env body s P) as Q. cbv zeta in Q.
    destruct (validate (postBugDoc env body)).
    + destruct (lookup (newObjectId env) (bugs s)).
      * rewrite Q. now left.
      * right. apply Q.
    + rewrite Q. now left.
  - rewrite (postBug_missing env body s P). now left.
Qed.

Lemma postFeedback_bugs env body s :
  bugs (snd (postFeedback env body s)) = bugs s
  \/ bugs (snd (postFeedback env body s)) = (bugs s ++ [feedbackDoc env body])%list.
Proof.
  destruct (truthyO (Body.title body) && truthyO (Body.description body)
            && truthyO (Body.customerName body)) eqn:P.
  - pose proof (postFeedback_present env body s P) as Q. cbv zeta in Q.
    destruct (validate (feedbackDoc env body)).
    + destruct (lookup (newObjectId env) (bugs s)).
      * rewrite Q. now left.
      * right. apply Q.
    + rewrite Q. now left.
  - rewrite (postFeedback_missing env body s P). now left.
Qed.

Lemma status_kept_outside_put_patch env req s d' :
  writesStatus req = false ->
  In d' (bugs (snd (handle castObjectId env req s))) ->
  (exists d, In d (bugs s) /\ _id d = _id d' /\ status d = status d')
  \/ (status d' = "Open" /\ _id d' = newObjectId env).
Proof.
  intros W I.
  assert (K : forall l, l = bugs s -> In d' l ->
              exists d, In d (bugs s) /\ _id d = _id d' /\ status d = status d')
    by (intros l -> J; exists d'; auto).
  destruct req as [body|query|id|id body|id|id body|id body|body];
    try discriminate W; cbn [handle] in I.
  - destruct (postBug_bugs env body s) as [E|E]; rewrite E in I.
    + left; now apply (K (bugs s)).
    + apply in_app_or in I. destruct I as [I|[<-|[]]].
      * left; now apply (K (bugs s)).
      * right; split; reflexivity.
  - rewrite getBugs_state in I. left; now apply (K (bugs s)).
  - rewrite getBug_state in I. left; now apply (K (bugs s)).
  - destruct (deleteBug_bugs id s) as [E|[oid E]]; rewrite E in I.
    + left; now apply (K (bugs s)).
    + apply In_remove in I. left; now apply (K (bugs s)).
  - destruct (postComment_bugs env id body s) as [E|[oid [bug [c [L E]]]]];
      rewrite E in I.
    + left; now apply (K (bugs s)).
    + apply In_replace in I. destruct I as [->|I].
      * left. exists bug. split; [now apply lookup_In in L|]. split; reflexivity.
      * left; now apply (K (bugs s)).
  - destruct (postFeedback_bugs env body s) as [E|E]; rewrite E in I.
    + left; now apply (K (bugs s)).
    + apply in_app_or in I. destruct I as [I|[<-|[]]].
      * left; now apply (K (bugs s)).
      * right; split; reflexivity.
Qed.

(** C9. [POST /api/bugs] never reads the [status] member of the body: the
    outcome is the same whatever status the caller supplies, and the
    record of every create response has status "Open".  After creation
    only the PUT and PATCH routes write the status: under any other
    request every stored record keeps the status it had, and a record
    that was not there before has status "Open". *)
Theorem C9_create_ignores_supplied_status env body st s :
  postBug env (Body.with_status st body) s = postBug env body s
  /\ (forall saved,
        Res.data (fst (postBug env (Body.with_status st body) s)) = OneBug saved ->
        status saved = "Open")
  /\ (forall req d',
        writesStatus req = false ->
        In d' (bugs (snd (handle castObjectId env req s))) ->
        (exists d, In d (bugs s) /\ _id d = _id d' /\ status d = status d')
        \/ (status d' = "Open" /\ _id d' = newObjectId env)).
Proof.
  split; [reflexivity|]. split.
  - change (postBug env (Body.with_status st body) s) with (postBug env body s).
    intros saved D.
    destruct (truthyO (Body.title body) && truthyO (Body.description body)
              && truthyO (Body.reportedBy body)) eqn:P.
    + pose proof (postBug_present env body s P) as Q. cbv zeta in Q.
      destruct (validate (postBugDoc env body)).
      * destruct (lookup (newObjectId env) (bugs s)).
        -- rewrite Q in D. discriminate D.
        -- destruct Q as [Q _]. rewrite Q in D. injection D as <-. reflexivity.
      * rewrite Q in D. discriminate D.
    + rewrite (postBug_missing env body s P) in D. discriminate D.
  - intros req d'. apply status_kept_outside_put_patch.
Qed.

End Routes.

(** ** GET /: filtering *)

Lemma eqMember_constrains want have :
  eqMember (if truthyO want then want else None) have = true
  <-> constrains want have.
Proof.
  unfold constrains. destruct want as [v|]; cbn [truthyO].
  - destruct (truthy v) eqn:T; cbn [eqMember].
    + rewrite String.eqb_eq. split.
      * intros <- w [= <-] _. reflexivity.
      * intros C. symmetry. apply C; [reflexivity|]. now apply truthy_nonempty.
    + split; [|reflexivity]. intros _ w [= <-] N.
      apply truthy_nonempty in N. congruence.
  - cbn [eqMember]. split; [|reflexivity]. intros _ w E. discriminate E.
Qed.

(** The empty [sortBy] is refused: the error of [sort] reaches
    [errorHandler]. *)
Lemma getBugs_invalid_sort q s :
  Query.sortBy q = Some "" ->
  getBugs q s = (errorHandler InvalidSortField, s).
Proof. intros E. unfold getBugs, route, bind, find. rewrite E. reflexivity. Qed.

(** Every other request is answered with the filtered, sorted list. *)
Lemma getBugs_listed q s :
  Query.sortBy q <> Some "" ->
  exists kept,
    getBugs q s
    = ({| Res.statusCode := 200; Res.success := true;
          Res.data :=
            Bugs (sort (getOr (Query.sortBy q) "createdAt")
                    (negb (getOr (Query.order q) "desc" =? "desc")) kept);
          Res.count := Some (List.length kept); Res.message := None;
          Res.error := None; Res.errors := None |}, s)
    /\ (forall d, In d kept <-> In d (bugs s) /\ matchesStatusPriority q d)
    /\ (truthyO (Query.status q) = false -> truthyO (Query.priority q) = false ->
        kept = bugs s).
Proof.
  intros N.
  set (filter := {| Query.status := if truthyO (Query.status q)
                                    then Query.status q else None;
                    Query.priority := if truthyO (Query.priority q)
                                      then Query.priority q else None;
                    Query.source := None; Query.assignedTo := None;
                    Query.sortBy := None; Query.order := None |}).
  exists (List.filter (matches filter) (bugs s)). split; [|split].
  - unfold getBugs, route, bind, find. fold filter.
    destruct (getOr (Query.sortBy q) "createdAt" =? "") eqn:E.
    + apply String.eqb_eq in E. destruct (Query.sortBy q) as [f|].
      * cbn [getOr] in E. subst f. now contradiction N.
      * discriminate E.
    + cbn [ret]. f_equal. f_equal. f_equal.
      apply Permutation_length, sort_perm.
  - intros d. rewrite filter_In. unfold matches, matchesStatusPriority, filter.
    cbn [Query.status Query.priority Query.source Query.assignedTo eqMember].
    rewrite !andb_true_r, andb_true_iff, !eqMember_constrains. reflexivity.
  - intros S P. unfold filter. rewrite S, P.
    clear. induction (bugs s) as [|d l IH]; [reflexivity|].
    cbn [List.filter matches Query.status Query.priority Query.source
           Query.assignedTo eqMember andb]. now rewrite IH.
Qed.

(** The members [source] and [assignedTo] of the query are not read. *)
Lemma getBugs_ignores_source_assignedTo src who q s :
  getBugs (with_source_assignedTo src who q) s = getBugs q s.
Proof. reflexivity. Qed.

(** ** Stored documents are valid *)

Lemma Forall_replace (P : Bug -> Prop) d l :
  Forall P l -> P d -> Forall P (replace d l).
Proof.
  intros F Pd. induction F as [|x l Px F IH]; simpl; [constructor|].
  destruct (_id x =? _id d)%N; constructor; auto.
Qed.

Lemma Forall_remove (P : Bug -> Prop) oid l :
  Forall P l -> Forall P (remove oid l).
Proof.
  intros F. induction F as [|x l Px F IH]; simpl; [constructor|].
  destruct (_id x =? oid)%N; [assumption|constructor; auto].
Qed.

Lemma Forall_lookup (P : Bug -> Prop) oid l d :
  Forall P l -> lookup oid l = Some d -> P d.
Proof.
  intros F L. apply lookup_In in L. rewrite Forall_forall in F. auto.
Qed.

Lemma validate_set existing body :
  validate existing = [] -> validateUpdate body = [] ->
  validate (set existing body) = [].
Proof.
  unfold validate, validateUpdate. intros V U.
  repeat (apply app_eq_nil in V; destruct V as [?V V]).
  repeat (apply app_eq_nil in U; destruct U as [?U U]).
  cbn [set title description priority status reportedBy source comments
         statusHistory].
  rewrite V6, V.
  destruct (Body.title body), (Body.description body), (Body.priority body),
    (Body.status body), (Body.reportedBy body), (Body.source body);
    cbn [getOr];
    rewrite ?U0, ?U1, ?U2, ?U3, ?U4, ?U, ?V0, ?V1, ?V2, ?V3, ?V4, ?V5;
    reflexivity.
Qed.

Lemma save_keeps_valid env isNew doc s r s' :
  allValid s -> save env isNew doc s = (r, s') -> allValid s'.
Proof.
  unfold allValid, save. intros F E.
  destruct (validate doc) eqn:V; [|injection E as _ <-; exact F].
  destruct isNew.
  - destruct (lookup _ (bugs s)); injection E as _ <-; [exact F|].
    cbn [bugs with_bugs]. apply Forall_app. split; [exact F|].
    constructor; [exact V|constructor].
  - injection E as _ <-. cbn [bugs with_bugs].
    apply Forall_replace; [exact F|exact V].
Qed.

Section Invariant.

Variable castObjectId : string -> option ObjectId.

Lemma postBug_keeps_valid env body s :
  allValid s -> allValid (snd (postBug env body s)).
Proof.
  intros F. unfold allValid.
  destruct (truthyO (Body.title body) && truthyO (Body.description body)
            && truthyO (Body.reportedBy body)) eqn:P.
  - pose proof (postBug_present env body s P) as Q. cbv zeta in Q.
    destruct (validate (postBugDoc env body)) eqn:V.
    + destruct (lookup (newObjectId env) (bugs s)).
      * rewrite Q. exact F.
      * destruct Q as [_ ->]. apply Forall_app. split; [exact F|].
        constructor; [exact V|constructor].
    + rewrite Q. exact F.
  - rewrite (postBug_missing env body s P). exact F.
Qed.

Lemma postFeedback_keeps_valid env body s :
  allValid s -> allValid (snd (postFeedback env body s)).
Proof.
  intros F. unfold allValid.
  destruct (truthyO (Body.title body) && truthyO (Body.description body)
            && truthyO (Body.customerName body)) eqn:P.
  - pose proof (postFeedback_present env body s P) as Q. cbv zeta in Q.
    destruct (validate (feedbackDoc env body)) eqn:V.
    + destruct (lookup (newObjectId env) (bugs s)).
      * rewrite Q. exact F.
      * destruct Q as [_ ->]. apply Forall_app. split; [exact F|].
        constructor; [exact V|constructor].
    + rewrite Q. exact F.
  - rewrite (postFeedback_missing env body s P). exact F.
Qed.

Lemma putBug_keeps_valid env id body s :
  allValid s -> allValid (snd (putBug castObjectId env id body s)).
Proof.
  intros F.
  destruct (castObjectId id) as [oid|] eqn:H;
    [|now rewrite (putBug_malformed castObjectId env id body s H)].
  destruct (lookup oid (bugs s)) as [existing|] eqn:L;
    [|now rewrite (putBug_absent castObjectId env id oid body s H L)].
  destruct (statusDiffers body existing) eqn:D.
  - rewrite (putBug_changed castObjectId env id oid body existing s H L D).
    destruct (validate (putChanged env existing body)) eqn:V; [|exact F].
    apply Forall_replace; [exact F|exact V].
  - rewrite (putBug_same castObjectId env id oid body existing s H L D).
    destruct (validateUpdate body) eqn:V; [|exact F].
    apply Forall_replace; [exact F|].
    unfold putSame. rewrite validate_set_updatedAt.
    apply validate_set; [|exact V].
    exact (Forall_lookup _ _ _ _ F L).
Qed.

Lemma deleteBug_keeps_valid id s :
  allValid s -> allValid (snd (deleteBug castObjectId id s)).
Proof.
  intros F. unfold allValid.
  destruct (deleteBug_bugs castObjectId id s) as [->|[oid ->]];
    [exact F|now apply Forall_remove].
Qed.

Lemma patchStatus_keeps_valid env id body s :
  allValid s -> allValid (snd (patchStatus castObjectId env id body s)).
Proof.
  intros F.
  destruct (truthyO (Body.status body)) eqn:T;
    [|now rewrite (patchStatus_missing castObjectId env id body s T)].
  destruct (castObjectId id) as [oid|] eqn:H;
    [|now rewrite (patchStatus_malformed castObjectId env id body s H T)].
  destruct (lookup oid (bugs s)) as [bug|] eqn:L;
    [|now rewrite (patchStatus_absent castObjectId env id oid body s H L T)].
  destruct (Body.status body) as [st|] eqn:B; [|discriminate T].
  cbn [truthyO] in T.
  destruct (includes statusValues st) eqn:I;
    [|now rewrite (patchStatus_invalid castObjectId env id oid body bug st s H L B T I)].
  pose proof (Forall_lookup _ _ _ _ F L) as V. cbv beta in V.
  pose proof (patchStatus_valid castObjectId env id oid body bug st s H L B I V) as E.
  cbv zeta in E. rewrite E.
  pose proof (afterMethod_valid env bug st V I) as V1.
  assert (F1 : allValid (with_bugs (replace (afterMethod env bug st) (bugs s)) s))
    by (apply Forall_replace; [exact F|exact V1]).
  destruct (validate_statusChange (routeEntry env bug st body)) eqn:V2; [|exact F1].
  apply Forall_replace; [exact F1|].
  unfold afterRoute.
  now rewrite validate_set_updatedAt, validate_push_statusHistory, V1, V2.
Qed.

Lemma postComment_keeps_valid env id body s :
  allValid s -> allValid (snd (postComment castObjectId env id body s)).
Proof.
  intros F. unfold postComment, route, bind, findById, addComment.
  destruct (truthyO (Body.author body)); [|exact F].
  destruct (truthyO (Body.message body)); [|exact F].
  js_step. destruct (castObjectId id) as [oid|]; [|exact F].
  cbv beta. destruct (lookup oid (bugs s)) as [bug|]; [|exact F].
  destruct (save env false _ s) as [[e|saved] s'] eqn:S;
    apply (save_keeps_valid _ _ _ _ _ _ F S).
Qed.

(** Every route keeps the invariant. *)
Lemma handle_keeps_valid env req s :
  allValid s -> allValid (snd (handle castObjectId env req s)).
Proof.
  intros F. destruct req; cbn [handle].
  - now apply postBug_keeps_valid.
  - now rewrite getBugs_state.
  - now rewrite getBug_state.
  - now apply putBug_keeps_valid.
  - now apply deleteBug_keeps_valid.
  - now apply patchStatus_keeps_valid.
  - now apply postComment_keeps_valid.
  - now apply postFeedback_keeps_valid.
Qed.

(** So does every session; in particular every state reached from the
    empty collection holds valid documents only. *)
Lemma serve_keeps_valid reqs s :
  allValid s -> allValid (snd (serve castObjectId reqs s)).
Proof.
  revert s. induction reqs as [|[env req] reqs IH]; intros s F; [exact F|].
  cbn [serve].
  pose proof (handle_keeps_valid env req s F) as F'.
  destruct (handle castObjectId env req s) as [r s']. cbn [snd] in F'.
  specialize (IH s' F').
  destruct (serve castObjectId reqs s') as [rs s'']. exact IH.
Qed.

Lemma reachable_valid reqs : allValid (snd (serve castObjectId reqs emptyState)).
Proof. apply serve_keeps_valid. constructor. Qed.

End Invariant.

(** ** The integration tests, replayed on the model *)

Section IntegrationTests.

Let env := noWebhook 9%N 9%N.

Example test_create_valid :
  let r := fst (postBug env sampleBug emptyState) in
  Res.statusCode r = 201 /\ Res.success r = true
  /\ exists d, Res.data r = OneBug d
       /\ title d = "Test Bug" /\ priority d = "Medium" /\ status d = "Open"
       /\ reportedBy d = "Test User".
Proof. repeat split. eexists. repeat split. Qed.

Example test_create_missing_fields :
  fst (postBug env titleOnly emptyState)
  = fail 400 "Title, description, and reportedBy are required fields".
Proof. reflexivity. Qed.

Example test_create_invalid_priority :
  let r := postBug env (sampleWith "Test Bug" "InvalidPriority") emptyState in
  Res.statusCode (fst r) = 400 /\ Res.success (fst r) = false /\ snd r = emptyState.
Proof. repeat split. Qed.

Example test_list_all :
  let r := fst (getBugs Query.empty threeBugs) in
  Res.statusCode r = 200 /\ Res.count r = Some 3 /\ List.length (found r) = 3.
Proof. repeat split. Qed.

Example test_list_by_priority :
  let r := fst (getBugs (priorityQuery "High") threeBugs) in
  Res.count r = Some 1 /\ List.map priority (found r) = ["High"].
Proof. repeat split. Qed.

Example test_list_sorted :
  List.map createdAt (found (fst (getBugs (sortQuery "createdAt" "desc") threeBugs)))
  = [3; 2; 1]%N
  /\ List.map title (found (fst (getBugs (sortQuery "title" "asc") threeBugs)))
     = ["Bug 1"; "Bug 2"; "Bug 3"].
Proof. split; reflexivity. Qed.

Example test_get_by_id :
  fst (getBug hex24 testBugId oneBugState) = ok 200 (OneBug storedSample) None
  /\ fst (getBug hex24 fakeId oneBugState) = fail 404 "Bug not found"
  /\ fst (getBug hex24 "invalid-id" oneBugState) = fail 400 "Invalid bug ID format".
Proof. repeat split. Qed.

Example test_update :
  let r := fst (putBug hex24 env testBugId updatedBug oneBugState) in
  Res.statusCode r = 200
  /\ Res.message r = Some "Bug updated successfully"
  /\ (exists d, Res.data r = OneBug d
        /\ title d = "Updated Test Bug" /\ priority d = "High"
        /\ status d = "In Progress")
  /\ fst (putBug hex24 env fakeId updatedBug oneBugState) = fail 404 "Bug not found"
  /\ fst (putBug hex24 env "invalid-id" updatedBug oneBugState)
     = fail 400 "Invalid bug ID format".
Proof. repeat split. eexists. repeat split. Qed.

Example test_delete :
  let r := deleteBug hex24 testBugId oneBugState in
  fst r = ok 200 (OneBug storedSample) (Some "Bug deleted successfully")
  /\ fst (getBug hex24 testBugId (snd r)) = fail 404 "Bug not found"
  /\ fst (deleteBug hex24 fakeId oneBugState) = fail 404 "Bug not found"
  /\ fst (deleteBug hex24 "invalid-id" oneBugState)
     = fail 400 "Invalid bug ID format".
Proof. repeat split. Qed.

Example test_patch_status :
  let r := fst (patchStatus hex24 env testBugId (statusBody "In Progress") oneBugState) in
  Res.statusCode r = 200
  /\ Res.message r = Some "Bug status updated successfully"
  /\ (exists d, Res.data r = OneBug d /\ status d = "In Progress")
  /\ fst (patchStatus hex24 env testBugId Body.empty oneBugState)
     = fail 400 "Status is required"
  /\ fst (patchStatus hex24 env fakeId (statusBody "Resolved") oneBugState)
     = fail 404 "Bug not found".
Proof. repeat split. eexists. repeat split. Qed.

(** The scenario of the specification: create, patch the status "by
    Jane", delete, fetch.  The history holds the entry of the method and
    the entry of the route. *)
Example scenario_patch_by_jane :
  let r := patchStatus hex24 env testBugId inProgressByJane oneBugState in
  (exists d, Res.data (fst r) = OneBug d
     /\ List.map h_by (statusHistory d) = ["system"; "Jane"]
     /\ List.map h_from (statusHistory d) = ["Open"; "Open"]
     /\ List.map h_to (statusHistory d) = ["In Progress"; "In Progress"])
  /\ fst (getBug hex24 testBugId (snd (deleteBug hex24 testBugId (snd r))))
     = fail 404 "Bug not found".
Proof. split; [eexists; repeat split|reflexivity]. Qed.

End IntegrationTests.

(** ** The properties on the test data *)

Example sample_is_stored : bugs oneBugState = [storedSample].
Proof. reflexivity. Qed.

Example sample_is_valid : validate storedSample = [].
Proof. reflexivity. Qed.

(** C1. The code does not keep the invariant: after
    [Bug.create(sampleBug)] and one [PATCH status] to "In Progress" (one
    status-changing mutation) the stored record has two [statusHistory]
    entries, the one pushed by [updateStatus] and the one pushed by the
    route. *)
Theorem C1_patch_appends_two_history_entries :
  exists bug,
    lookup 1%N (bugs (snd (serve hex24 patchSession emptyState))) = Some bug
    /\ statusChangingMutations hex24 1%N patchSession emptyState = 1
    /\ List.length (statusHistory bug) = 2
    /\ statusHistory bug
       = [ {| h_from := "Open"; h_to := "In Progress"; h_by := "system";
              h_at := 2%N; h_reason := None |};
           {| h_from := "Open"; h_to := "In Progress"; h_by := "system";
              h_at := 2%N; h_reason := None |} ].
Proof. eexists. repeat split; vm_compute; reflexivity. Qed.

(** The PUT route appends once on the same transition. *)
Example put_appends_one_history_entry :
  exists bug,
    lookup 1%N (bugs (snd (putBug hex24 (noWebhook 2%N 2%N) testBugId
                           (statusBody "In Progress") oneBugState))) = Some bug
    /\ List.length (statusHistory bug) = 1.
Proof. eexists. split; vm_compute; reflexivity. Qed.

(** C2. On a stored bug, [PATCH status] with a value outside the enum
    leaves the state as it was, but the error thrown by [updateStatus]
    carries no status code and reaches the client as a 500. *)
Theorem C2_patch_invalid_status_answers_500 :
  let r := patchStatus hex24 (noWebhook 2%N 2%N) testBugId (statusBody "Closed") oneBugState in
  Res.statusCode (fst r) = 500
  /\ Res.error (fst r) = Some "Invalid status value"
  /\ snd r = oneBugState.
Proof. repeat split. Qed.

(** The PUT route answers 400 to the same status. *)
Example put_invalid_status_answers_400 :
  let r := putBug hex24 (noWebhook 2%N 2%N) testBugId (statusBody "Closed") oneBugState in
  Res.statusCode (fst r) = 400 /\ snd r = oneBugState.
Proof. repeat split. Qed.

(** C3. The status and comment routes do not tell a malformed identifier
    from an absent one: both answer 404, where the GET, PUT and DELETE
    routes answer 400 to the malformed identifier. *)
Theorem C3_patch_and_comment_answer_404_to_malformed_id :
  Res.statusCode (fst (patchStatus hex24 (noWebhook 2%N 2%N) "invalid-id"
                         (statusBody "Resolved") oneBugState)) = 404
  /\ Res.statusCode (fst (patchStatus hex24 (noWebhook 2%N 2%N) fakeId
                            (statusBody "Resolved") oneBugState)) = 404
  /\ Res.statusCode (fst (postComment hex24 (noWebhook 2%N 2%N) "invalid-id"
                            commentBody oneBugState)) = 404
  /\ Res.statusCode (fst (postComment hex24 (noWebhook 2%N 2%N) fakeId
                            commentBody oneBugState)) = 404
  /\ Res.statusCode (fst (getBug hex24 "invalid-id" oneBugState)) = 400
  /\ Res.statusCode (fst (putBug hex24 (noWebhook 2%N 2%N) "invalid-id"
                            (statusBody "Resolved") oneBugState)) = 400
  /\ Res.statusCode (fst (deleteBug hex24 "invalid-id" oneBugState)) = 400.
Proof. repeat split. Qed.

(** C4. The filter of [GET /api/bugs] is not the conjunction over the
    four members the specification names: the members [source] and
    [assignedTo] of the query are never read, so they change no answer.
    On the collection that holds the internal, unassigned sample bug,
    [GET /api/bugs?source=customer] returns that bug, and so does the
    query the list view sends for its Source filter "customer" and its
    Assignee filter "nobody"; the [priority] member does filter. *)
Theorem C4_source_and_assignedTo_filters_are_ignored :
  (forall src who q s, getBugs (with_source_assignedTo src who q) s = getBugs q s)
  /\ found (fst (getBugs customerQuery oneBugState)) = [storedSample]
  /\ found (fst (getBugs (BugList.fetchParams "" "" "customer" "nobody" BugList.initial)
                   oneBugState)) = [storedSample]
  /\ source storedSample = "internal"
  /\ assignedTo storedSample = ""
  /\ ~ filterAsSpecified customerQuery oneBugState
  /\ found (fst (getBugs (priorityQuery "High") oneBugState)) = [].
Proof.
  split; [reflexivity|]. repeat (split; [reflexivity|]).
  split; [|reflexivity].
  intros H. destruct (H storedSample) as [H1 _].
  destruct H1 as [_ [_ [_ [S _]]]]; [left; reflexivity|].
  specialize (S "customer" eq_refl). cbn in S.
  assert (E : "internal" = "customer") by (apply S; discriminate).
  discriminate E.
Qed.



(** The sample bug without its description, on a collection of one. *)
Lemma C7_witness :
  let r := postBug (noWebhook 2%N 2%N) missingDescription oneBugState in
  Res.statusCode (fst r) = 400
  /\ snd r = oneBugState
  /\ Res.count (fst (getBugs Query.empty (snd r)))
     = Res.count (fst (getBugs Query.empty oneBugState)).
Proof.
  apply (C7_create_missing_required_field (noWebhook 2%N 2%N) missingDescription
           oneBugState Query.empty).
  right; left; reflexivity.
Defined.

(** A title of one space is present and within its limit, yet the
    create is refused and nothing is stored. *)
Lemma C6_counterexample : ~ createAsSpecified (noWebhook 1%N 1%N) blankTitle emptyState.
Proof.
  intros H. destruct H as [saved [I _]].
  - exists " ". split; [reflexivity|]. split; [discriminate|].
    apply Nat.leb_le. reflexivity.
  - eexists. split; [reflexivity|]. split; [discriminate|].
    apply Nat.leb_le. reflexivity.
  - eexists. split; [reflexivity|]. split; [discriminate|].
    apply Nat.leb_le. reflexivity.
  - exact I.
Qed.

(** The sample bug with a priority, a source and an assignee of the
    caller, created on the empty collection. *)
Lemma C6_witness :
  exists saved,
    fst (postBug (noWebhook 1%N 1%N) customerSample emptyState)
    = ok 201 (OneBug saved) (Some "Bug created successfully")
    /\ status saved = "Open" /\ priority saved = "High"
    /\ source saved = "customer" /\ assignedTo saved = "Sam".
Proof.
  destruct (C6_create_defaults (noWebhook 1%N 1%N) customerSample emptyState)
    as [_ [H _]].
  destruct H as [saved [R [_ [_ [S [P [_ [So [_ [A _]]]]]]]]]].
  - split; [|split; [|split]].
    + eexists. split; [reflexivity|]. split.
      * intros E. vm_compute in E. discriminate E.
      * apply Nat.leb_le. reflexivity.
    + eexists. split; [reflexivity|]. split.
      * intros E. vm_compute in E. discriminate E.
      * apply Nat.leb_le. reflexivity.
    + eexists. split; [reflexivity|]. split.
      * intros E. vm_compute in E. discriminate E.
      * apply Nat.leb_le. reflexivity.
    + split; [|split; [|reflexivity]].
      * right; right. exists "High". split; [reflexivity|].
        right; right; left; reflexivity.
      * right; right. exists "customer". split; [reflexivity|].
        right; left; reflexivity.
  - exists saved. split; [exact R|]. split; [exact S|].
    split; [apply (P "High" eq_refl); discriminate|].
    split; [apply (So "customer" eq_refl); discriminate|].
    apply (A " Sam " eq_refl).
Defined.

(** Both creates under a webhook whose delivery fails. *)
Lemma C8_witness :
  Res.statusCode (fst (postBug failingWebhook sampleBug emptyState)) = 201
  /\ Res.statusCode (fst (postFeedback failingWebhook sampleFeedback emptyState)) = 201.
Proof.
  pose proof (C8_webhook_outcome_never_affects_create (noWebhook 1%N 1%N)
                (Some "https://hooks.example/T0") (fun _ _ => Some "timeout")
                sampleBug emptyState) as H.
  pose proof (C8_webhook_outcome_never_affects_create (noWebhook 1%N 1%N)
                (Some "https://hooks.example/T0") (fun _ _ => Some "timeout")
                sampleFeedback emptyState) as F.
  cbv zeta in H, F. destruct H as [_ [_ [H _]]]. destruct F as [_ [_ [_ F]]].
  split.
  - destruct H as [saved [R _]]; [|unfold failingWebhook; rewrite R; reflexivity].
    split; [|split; [|split]].
    + eexists. split; [reflexivity|]. split.
      * intros E. vm_compute in E. discriminate E.
      * apply Nat.leb_le. reflexivity.
    + eexists. split; [reflexivity|]. split.
      * intros E. vm_compute in E. discriminate E.
      * apply Nat.leb_le. reflexivity.
    + eexists. split; [reflexivity|]. split.
      * intros E. vm_compute in E. discriminate E.
      * apply Nat.leb_le. reflexivity.
    + split; [|split; [|reflexivity]].
      * right; right. exists "Medium". split; [reflexivity|].
        right; left; reflexivity.
      * left; reflexivity.
  - destruct F as [saved [R _]]; [|unfold failingWebhook; rewrite R; reflexivity].
    split; [|split; [|split]].
    + eexists. split; [reflexivity|]. split.
      * intros E. vm_compute in E. discriminate E.
      * apply Nat.leb_le. reflexivity.
    + eexists. split; [reflexivity|]. split.
      * intros E. vm_compute in E. discriminate E.
      * apply Nat.leb_le. reflexivity.
    + eexists. split; [reflexivity|]. split.
      * intros E. vm_compute in E. discriminate E.
      * apply Nat.leb_le. reflexivity.
    + split; [left; reflexivity|reflexivity].
Defined.

(** The sample bug with [status: 'Resolved'] supplied. *)
Lemma C9_witness :
  postBug (noWebhook 1%N 1%N) resolvedSample emptyState
  = postBug (noWebhook 1%N 1%N) sampleBug emptyState
  /\ status storedSample = "Open".
Proof.
  destruct (C9_create_ignores_supplied_status hex24 (noWebhook 1%N 1%N) sampleBug
              (Some "Resolved") emptyState) as [E [H _]].
  split; [exact E|]. apply H. reflexivity.
Defined.

(** [PATCH status] to "Open" on the freshly created sample bug. *)
Lemma C10_witness :
  exists bug',
    lookup 1%N (bugs (snd (patchStatus hex24 (noWebhook 2%N 2%N) testBugId
                           (statusBody "Open") oneBugState))) = Some bug'
    /\ status bug' = "Open"
    /\ List.length (statusHistory bug') = 2.
Proof.
  destruct (C10_patch_same_status_still_appends hex24 (noWebhook 2%N 2%N) testBugId 1%N
              (statusBody "Open") storedSample oneBugState
              eq_refl eq_refl eq_refl eq_refl)
    as [bug' [added [L [S [Hh [_ [_ Two]]]]]]].
  exists bug'. split; [exact L|]. split; [exact S|].
  rewrite Hh, length_app. destruct (Two eq_refl) as [_ ->]. reflexivity.
Defined.

(** * Further properties *)

(** ** More on the collection *)

Lemma map_id_replace d l : List.map _id (replace d l) = List.map _id l.
Proof.
  induction l as [|x l IH]; simpl; [reflexivity|].
  destruct (_id x =? _id d)%N eqn:E; simpl.
  - apply N.eqb_eq in E. now rewrite E.
  - now rewrite IH.
Qed.

Lemma lookup_None_iff oid l : lookup oid l = None <-> ~ In oid (List.map _id l).
Proof.
  induction l as [|x l IH]; simpl; [tauto|].
  destruct (_id x =? oid)%N eqn:E.
  - apply N.eqb_eq in E. split; [discriminate|tauto].
  - apply N.eqb_neq in E. rewrite IH. tauto.
Qed.

Lemma In_ids_remove i oid l :
  In i (List.map _id (remove oid l)) -> In i (List.map _id l).
Proof.
  induction l as [|x l IH]; simpl; [tauto|].
  destruct (_id x =? oid)%N; simpl; tauto.
Qed.

Lemma NoDup_ids_remove oid l :
  NoDup (List.map _id l) -> NoDup (List.map _id (remove oid l)).
Proof.
  induction l as [|x l IH]; simpl; [auto|].
  intros N. inversion N as [|? ? Hx Hl]; subst.
  destruct (_id x =? oid)%N; [assumption|]. simpl. constructor; [|auto].
  intros I. apply Hx. now apply In_ids_remove in I.
Qed.

Lemma NoDup_ids_app_new d l :
  NoDup (List.map _id l) -> lookup (_id d) l = None ->
  NoDup (List.map _id (l ++ [d])).
Proof.
  intros N L. rewrite map_app. simpl.
  apply NoDup_app; [exact N|repeat constructor; simpl; tauto|].
  intros i Hi [<-|[]]. now apply lookup_None_iff in L.
Qed.

Lemma lookup_remove_same oid l :
  NoDup (List.map _id l) -> lookup oid (remove oid l) = None.
Proof.
  induction l as [|x l IH]; simpl; [reflexivity|].
  intros N. inversion N as [|? ? Hx Hl]; subst.
  destruct (_id x =? oid)%N eqn:E.
  - apply N.eqb_eq in E. subst oid. now apply lookup_None_iff.
  - simpl. rewrite E. auto.
Qed.

Lemma lookup_remove_other oid oid' l :
  oid' <> oid -> lookup oid' (remove oid l) = lookup oid' l.
Proof.
  intros D. induction l as [|x l IH]; simpl; [reflexivity|].
  destruct (_id x =? oid)%N eqn:E.
  - apply N.eqb_eq in E. subst oid.
    destruct (_id x =? oid')%N eqn:E'; [|reflexivity].
    apply N.eqb_eq in E'. congruence.
  - simpl. now rewrite IH.
Qed.

Lemma lookup_replace_other oid d l :
  _id d <> oid -> lookup oid (replace d l) = lookup oid l.
Proof.
  intros D. induction l as [|x l IH]; simpl; [reflexivity|].
  destruct (_id x =? _id d)%N eqn:E; simpl.
  - apply N.eqb_eq in E.
    destruct (_id d =? oid)%N eqn:E1; [apply N.eqb_eq in E1; congruence|].
    destruct (_id x =? oid)%N eqn:E2; [apply N.eqb_eq in E2; congruence|].
    reflexivity.
  - now rewrite IH.
Qed.

Lemma length_replace d l : List.length (replace d l) = List.length l.
Proof.
  induction l as [|y l IH]; simpl; [reflexivity|].
  destruct (_id y =? _id d)%N; simpl; congruence.
Qed.

Lemma length_remove oid l d :
  lookup oid l = Some d -> S (List.length (remove oid l)) = List.length l.
Proof.
  induction l as [|x l IH]; simpl; [discriminate|].
  destruct (_id x =? oid)%N; [reflexivity|].
  intros L. simpl. now rewrite IH.
Qed.

Lemma extends_refl {A} (l : list A) : extends l l.
Proof. exists []. now rewrite app_nil_r. Qed.

Lemma extends_app {A} (l added : list A) : extends l (l ++ added).
Proof. now exists added. Qed.

(** ** What each writing route does to the state *)

Section Effects.

Variable castObjectId : string -> option ObjectId.

(** [PUT /:id]: nothing on failure, one document written back on success. *)
Lemma putBug_cases env id body s :
  (snd (putBug castObjectId env id body s) = s
   /\ Res.success (fst (putBug castObjectId env id body s)) = false)
  \/ exists oid existing saved,
       castObjectId id = Some oid
       /\ lookup oid (bugs s) = Some existing
       /\ (statusDiffers body existing = true /\ saved = putChanged env existing body
           \/ statusDiffers body existing = false /\ saved = putSame env existing body)
       /\ putBug castObjectId env id body s
          = (ok 200 (OneBug saved) (Some "Bug updated successfully"),
             with_bugs (replace saved (bugs s)) s).
Proof.
  destruct (castObjectId id) as [oid|] eqn:H;
    [|left; now rewrite (putBug_malformed castObjectId env id body s H)].
  destruct (lookup oid (bugs s)) as [existing|] eqn:L;
    [|left; now rewrite (putBug_absent castObjectId env id oid body s H L)].
  destruct (statusDiffers body existing) eqn:D.
  - rewrite (putBug_changed castObjectId env id oid body existing s H L D).
    destruct (validate (putChanged env existing body)) eqn:V; [|now left].
    right. exists oid, existing, (putChanged env existing body). auto 10.
  - rewrite (putBug_same castObjectId env id oid body existing s H L D).
    destruct (validateUpdate body) eqn:V; [|now left].
    right. exists oid, existing, (putSame env existing body). auto 10.
Qed.

(** [PATCH /:id/status]: nothing when the request is refused before the
    first save, the document of [updateStatus] when only the first save
    goes through, the document of the route when both do. *)
Lemma patchStatus_cases env id body s :
  (snd (patchStatus castObjectId env id body s) = s
   /\ Res.success (fst (patchStatus castObjectId env id body s)) = false
   /\ Res.statusCode (fst (patchStatus castObjectId env id body s)) <> 200)
  \/ exists oid bug st,
       castObjectId id = Some oid
       /\ lookup oid (bugs s) = Some bug
       /\ Body.status body = Some st
       /\ includes statusValues st = true
       /\ validate (afterMethod env bug st) = []
       /\ let s1 := with_bugs (replace (afterMethod env bug st) (bugs s)) s in
          patchStatus castObjectId env id body s
          = match validate_statusChange (routeEntry env bug st body) with
            | [] =>
                (ok 200 (OneBug (afterRoute env bug st body))
                   (Some "Bug status updated successfully"),
                 with_bugs (replace (afterRoute env bug st body) (bugs s1)) s1)
            | msgs => (errorHandler (ValidationError msgs), s1)
            end.
Proof.
  destruct (truthyO (Body.status body)) eqn:T;
    [|left; rewrite (patchStatus_missing castObjectId env id body s T);
      repeat split; discriminate].
  destruct (castObjectId id) as [oid|] eqn:H;
    [|left; rewrite (patchStatus_malformed castObjectId env id body s H T);
      repeat split; discriminate].
  destruct (lookup oid (bugs s)) as [bug|] eqn:L;
    [|left; rewrite (patchStatus_absent castObjectId env id oid body s H L T);
      repeat split; discriminate].
  destruct (Body.status body) as [st|] eqn:B; [|discriminate T].
  cbn [truthyO] in T.
  destruct (includes statusValues st) eqn:I;
    [|left;
      rewrite (patchStatus_invalid castObjectId env id oid body bug st s H L B T I);
      repeat split; discriminate].
  destruct (validate (afterMethod env bug st)) eqn:V1.
  - right. exists oid, bug, st. repeat (split; [assumption || reflexivity|]).
    intros s1.
    unfold patchStatus, route, bind, findById, updateStatus.
    rewrite B. js_step. rewrite T, H. js_step. rewrite L. js_step.
    rewrite I. js_step.
    rewrite (save_loaded env _ s) by exact V1.
    fold (methodEntry env bug st). fold (afterMethod env bug st). fold s1.
    fold (routeEntry env bug st body).
    destruct (validate_statusChange (routeEntry env bug st body)) eqn:V2.
    + rewrite save_loaded; [reflexivity|].
      now rewrite validate_push_statusHistory, V1, V2.
    + rewrite save_invalid;
        rewrite validate_push_statusHistory, V1, V2; [reflexivity|discriminate].
  - left.
    unfold patchStatus, route, bind, findById, updateStatus.
    rewrite B. js_step. rewrite T, H. js_step. rewrite L. js_step.
    rewrite I. js_step.
    rewrite (save_invalid env false _ s);
      [repeat split; discriminate|].
    change (validate (afterMethod env bug st) <> []). now rewrite V1.
Qed.

(** [POST /:id/comments]: nothing on failure, the commented document
    written back on success. *)
Lemma postComment_cases env id body s :
  (snd (postComment castObjectId env id body s) = s
   /\ Res.success (fst (postComment castObjectId env id body s)) = false)
  \/ exists oid bug,
       castObjectId id = Some oid
       /\ lookup oid (bugs s) = Some bug
       /\ truthyO (Body.author body) = true
       /\ truthyO (Body.message body) = true
       /\ let c := newComment env (getOr (Body.author body) "")
                     (getOr (Body.message body) "") in
          let saved := set_updatedAt (now env)
                         (set_updatedAt (now env) (push_comments c bug)) in
          validate saved = []
          /\ postComment castObjectId env id body s
             = (ok 201 (OneComment (Some c)) (Some "Comment added"),
                with_bugs (replace saved (bugs s)) s).
Proof.
  unfold postComment, route, bind, findById, addComment.
  destruct (truthyO (Body.author body)) eqn:Ta; [|now left].
  destruct (truthyO (Body.message body)) eqn:Tm; [|now left].
  js_step. destruct (castObjectId id) as [oid|] eqn:H; [|now left].
  cbv beta. destruct (lookup oid (bugs s)) as [bug|] eqn:L; [|now left].
  match goal with |- context [save env false ?d s] =>
    destruct (validate d) eqn:V;
    [rewrite (save_loaded env d s V)
    |rewrite (save_invalid env false d s) by (rewrite V; discriminate); now left]
  end.
  right. exists oid, bug. repeat (split; [assumption || reflexivity|]).
  cbn [ret]. unfold ok. repeat f_equal.
  cbn [comments set_updatedAt push_comments]. rewrite map_app. cbn [List.map].
  apply last_last.
Qed.

End Effects.

(** ** Identifiers stay unique *)

Section MoreInvariants.

Variable castObjectId : string -> option ObjectId.

Lemma deleteBug_cases id s :
  (snd (deleteBug castObjectId id s) = s
   /\ Res.success (fst (deleteBug castObjectId id s)) = false)
  \/ exists oid d,
       castObjectId id = Some oid
       /\ lookup oid (bugs s) = Some d
       /\ deleteBug castObjectId id s
          = (ok 200 (OneBug d) (Some "Bug deleted successfully"),
             with_bugs (remove oid (bugs s)) s).
Proof.
  destruct (castObjectId id) as [oid|] eqn:H;
    [|left; now rewrite (deleteBug_malformed castObjectId id s H)].
  destruct (lookup oid (bugs s)) as [d|] eqn:L;
    [|left; now rewrite (deleteBug_absent castObjectId id oid s H L)].
  right. exists oid, d. repeat (split; [reflexivity|]).
  unfold deleteBug, route, bind, findByIdAndDelete.
  rewrite H. cbv beta. now rewrite L.
Qed.

(** The outcomes of the two creating routes, with the whole state. *)
Lemma postBug_cases env body s :
  (snd (postBug env body s) = s /\ Res.success (fst (postBug env body s)) = false
   /\ Res.statusCode (fst (postBug env body s)) = 400)
  \/ (requiredPresent body = true
      /\ validate (postBugDoc env body) = []
      /\ lookup (newObjectId env) (bugs s) = None
      /\ fst (postBug env body s)
         = ok 201 (OneBug (postBugDoc env body)) (Some "Bug created successfully")
      /\ bugs (snd (postBug env body s)) = (bugs s ++ [postBugDoc env body])%list).
Proof.
  destruct (requiredPresent body) eqn:P.
  - pose proof (postBug_present env body s P) as Q. cbv zeta in Q.
    destruct (validate (postBugDoc env body)) eqn:V.
    + destruct (lookup (newObjectId env) (bugs s)) eqn:L.
      * rewrite Q. left. repeat split.
      * right. destruct Q as [Q1 Q2]. auto.
    + rewrite Q. left. repeat split.
  - rewrite (postBug_missing env body s P). left. repeat split.
Qed.

Lemma postFeedback_cases env body s :
  (snd (postFeedback env body s) = s
   /\ Res.success (fst (postFeedback env body s)) = false
   /\ Res.statusCode (fst (postFeedback env body s)) = 400)
  \/ (validate (feedbackDoc env body) = []
      /\ lookup (newObjectId env) (bugs s) = None
      /\ fst (postFeedback env body s)
         = ok 201 (OneBug (feedbackDoc env body)) (Some "Feedback captured as bug")
      /\ bugs (snd (postFeedback env body s)) = (bugs s ++ [feedbackDoc env body])%list).
Proof.
  destruct (truthyO (Body.title body) && truthyO (Body.description body)
            && truthyO (Body.customerName body)) eqn:P.
  - pose proof (postFeedback_present env body s P) as Q. cbv zeta in Q.
    destruct (validate (feedbackDoc env body)) eqn:V.
    + destruct (lookup (newObjectId env) (bugs s)) eqn:L.
      * rewrite Q. left. repeat split.
      * right. destruct Q as [Q1 Q2]. auto.
    + rewrite Q. left. repeat split.
  - rewrite (postFeedback_missing env body s P). left. repeat split.
Qed.

Lemma uniqueIds_replace d s :
  uniqueIds s -> uniqueIds (with_bugs (replace d (bugs s)) s).
Proof. unfold uniqueIds. cbn [bugs with_bugs]. now rewrite map_id_replace. Qed.

Lemma handle_keeps_unique env req s :
  uniqueIds s -> uniqueIds (snd (handle castObjectId env req s)).
Proof.
  intros U. destruct req as [body|query|id|id body|id|id body|id body|body];
    cbn [handle].
  - destruct (postBug_cases env body s) as [[-> _]|[_ [_ [L [_ E]]]]]; [exact U|].
    unfold uniqueIds. rewrite E. now apply NoDup_ids_app_new.
  - now rewrite getBugs_state.
  - now rewrite getBug_state.
  - destruct (putBug_cases castObjectId env id body s)
      as [[-> _]|[oid [ex [saved [_ [_ [_ ->]]]]]]]; [exact U|].
    now apply uniqueIds_replace.
  - destruct (deleteBug_cases id s) as [[-> _]|[oid [d [_ [_ ->]]]]]; [exact U|].
    now apply NoDup_ids_remove.
  - destruct (patchStatus_cases castObjectId env id body s)
      as [[-> _]|[oid [bug [st [_ [_ [_ [_ [_ E]]]]]]]]]; [exact U|].
    cbv zeta in E. rewrite E.
    destruct (validate_statusChange _); cbn [snd].
    + now apply uniqueIds_replace, uniqueIds_replace.
    + now apply uniqueIds_replace.
  - destruct (postComment_cases castObjectId env id body s)
      as [[-> _]|[oid [bug [_ [_ [_ [_ E]]]]]]]; [exact U|].
    cbv zeta in E. destruct E as [_ ->]. now apply uniqueIds_replace.
  - destruct (postFeedback_cases env body s) as [[-> _]|[_ [L [_ E]]]]; [exact U|].
    unfold uniqueIds. rewrite E. now apply NoDup_ids_app_new.
Qed.

Lemma serve_keeps_unique reqs s :
  uniqueIds s -> uniqueIds (snd (serve castObjectId reqs s)).
Proof.
  revert s. induction reqs as [|[env req] reqs IH]; intros s U; [exact U|].
  cbn [serve].
  pose proof (handle_keeps_unique env req s U) as U'.
  destruct (handle castObjectId env req s) as [r s']. cbn [snd] in U'.
  specialize (IH s' U').
  destruct (serve castObjectId reqs s') as [rs s'']. exact IH.
Qed.

Lemma reached_unique reqs : uniqueIds (reached castObjectId reqs).
Proof. apply serve_keeps_unique. constructor. Qed.

End MoreInvariants.

(** ** Deleting, and how the routes compose *)

Section Composition.

Variable castObjectId : string -> option ObjectId.

Lemma deleteBug_removes id oid s :
  uniqueIds s -> castObjectId id = Some oid ->
  lookup oid (bugs (snd (deleteBug castObjectId id s))) = None.
Proof.
  intros U H. unfold deleteBug, route, bind, findByIdAndDelete.
  rewrite H. cbv beta. destruct (lookup oid (bugs s)) eqn:L; cbn [snd].
  - now apply lookup_remove_same.
  - exact L.
Qed.

(** X1. In every state reached from the empty collection, a
    [DELETE /:id] with a well-formed identifier followed by a
    [GET /:id] on the same identifier answers 404 "Bug not found",
    whether or not the delete found a record. *)
Theorem X1_delete_then_get_is_not_found reqs id oid :
  castObjectId id = Some oid ->
  fst (getBug castObjectId id
         (snd (deleteBug castObjectId id (reached castObjectId reqs))))
  = fail 404 "Bug not found".
Proof.
  intros H.
  pose proof (deleteBug_removes id oid _ (reached_unique castObjectId reqs) H) as L.
  now rewrite (getBug_absent castObjectId id oid _ H L).
Qed.

(** X2. A [DELETE /:id] of a stored bug answers 200 with the stored
    record, removes one document, and leaves every other identifier and
    the record of webhook posts as they were. *)
Theorem X2_delete_removes_one_record id oid d s :
  castObjectId id = Some oid ->
  lookup oid (bugs s) = Some d ->
  let r := deleteBug castObjectId id s in
  fst r = ok 200 (OneBug d) (Some "Bug deleted successfully")
  /\ S (List.length (bugs (snd r))) = List.length (bugs s)
  /\ (forall oid', oid' <> oid ->
        lookup oid' (bugs (snd r)) = lookup oid' (bugs s))
  /\ (forall x, In x (bugs (snd r)) -> In x (bugs s))
  /\ trace (snd r) = trace s.
Proof.
  intros H L r. subst r.
  destruct (deleteBug_cases castObjectId id s)
    as [[_ F]|[oid' [d' [H' [L' E]]]]].
  - unfold deleteBug, route, bind, findByIdAndDelete in F.
    rewrite H in F. cbv beta in F. rewrite L in F. discriminate F.
  - rewrite H in H'. injection H' as <-. rewrite L in L'. injection L' as <-.
    rewrite E. cbn [fst snd bugs with_bugs trace].
    split; [reflexivity|]. split; [now apply (length_remove oid _ d)|].
    split; [intros oid' D; now apply lookup_remove_other|].
    split; [intros x; apply In_remove|reflexivity].
Qed.


(** X4. The size of the collection changes only by a create answered
    201, which adds one document, and by a delete answered 200, which
    removes one; every other request and every other answer leaves it as
    it was. *)
Theorem X4_collection_size env req s :
  List.length (bugs (snd (handle castObjectId env req s)))
  = sizeAfter req (fst (handle castObjectId env req s)) (List.length (bugs s)).
Proof.
  destruct req as [body|query|id|id body|id|id body|id body|body];
    cbn [handle sizeAfter].
  - destruct (postBug_cases env body s) as [[E [_ C]]|[_ [_ [_ [R E]]]]].
    + now rewrite E, C.
    + rewrite E, R, length_app. cbn. lia.
  - now rewrite getBugs_state.
  - now rewrite getBug_state.
  - destruct (putBug_cases castObjectId env id body s)
      as [[E _]|[oid [ex [saved [_ [_ [_ E]]]]]]]; rewrite E; [reflexivity|].
    cbn [snd bugs with_bugs]. apply length_replace.
  - destruct (deleteBug_cases castObjectId id s) as [[E F]|[oid [d [_ [L E]]]]].
    + rewrite E.
      destruct (Res.statusCode (fst (deleteBug castObjectId id s)) =? 200)%nat eqn:C;
        [|reflexivity].
      exfalso. revert F C. unfold deleteBug, route, bind, findByIdAndDelete.
      destruct (castObjectId id) as [o|]; [|discriminate].
      cbv beta. destruct (lookup o (bugs s)); discriminate.
    + rewrite E. cbn [fst snd bugs with_bugs ok Res.statusCode Nat.eqb].
      rewrite <- (length_remove oid _ d L). reflexivity.
  - destruct (patchStatus_cases castObjectId env id body s)
      as [[E _]|[oid [bug [st [_ [_ [_ [_ [_ E]]]]]]]]]; [now rewrite E|].
    cbv zeta in E. rewrite E.
    destruct (validate_statusChange _); cbn [snd bugs with_bugs];
      now rewrite ?length_replace.
  - destruct (postComment_cases castObjectId env id body s)
      as [[E _]|[oid [bug [_ [_ [_ [_ E]]]]]]]; [now rewrite E|].
    cbv zeta in E. destruct E as [_ E]. rewrite E.
    cbn [snd bugs with_bugs]. apply length_replace.
  - destruct (postFeedback_cases env body s) as [[E [_ C]]|[_ [_ [R E]]]].
    + now rewrite E, C.
    + rewrite E, R, length_app. cbn. lia.
Qed.

End Composition.

(** ** Comments and status history are only added to *)

Section AppendOnly.

Variable castObjectId : string -> option ObjectId.

Lemma continues_self (s : State) d' :
  In d' (bugs s) ->
  exists d, In d (bugs s) /\ _id d = _id d'
            /\ extends (comments d) (comments d')
            /\ extends (statusHistory d) (statusHistory d').
Proof. intros I. exists d'. auto using extends_refl. Qed.

Lemma appendOnly_same s s' : bugs s' = bugs s -> appendOnly s s'.
Proof. intros E d' I. rewrite E in I. left. now apply continues_self. Qed.

Lemma appendOnly_new s s' doc :
  bugs s' = (bugs s ++ [doc])%list ->
  lookup (_id doc) (bugs s) = None ->
  comments doc = [] -> statusHistory doc = [] ->
  appendOnly s s'.
Proof.
  intros E L C H d' I. rewrite E in I. apply in_app_or in I.
  destruct I as [I|[<-|[]]]; [left; now apply continues_self|right].
  split; [now apply lookup_None_iff|now split].
Qed.

(** X5. Whatever the request and its outcome (for a [PUT /:id], with a
    body that carries no member beyond title, description, priority,
    status, reportedBy, assignedTo, source, customer and updatedBy), each
    stored document afterwards either has the [_id] of a document stored
    before, with that document's [comments] and [statusHistory] as
    prefixes of its own, or is a new document, under an [_id] that was
    not in use, with neither comments nor history: the two sequences are
    never shortened, reordered or rewritten. *)
Theorem X5_comments_and_history_are_append_only env req s :
  (forall id body, req = PUT_bug id body -> Body.others body = []) ->
  appendOnly s (snd (handle castObjectId env req s)).
Proof.
  intros _.
  destruct req as [body|query|id|id body|id|id body|id body|body];
    cbn [handle].
  - destruct (postBug_cases env body s) as [[E _]|[_ [_ [L [_ E]]]]].
    + apply appendOnly_same. now rewrite E.
    + now apply (appendOnly_new s _ (postBugDoc env body)).
  - apply appendOnly_same. now rewrite getBugs_state.
  - apply appendOnly_same. now rewrite getBug_state.
  - destruct (putBug_cases castObjectId env id body s)
      as [[E _]|[oid [ex [saved [_ [L [D E]]]]]]].
    + apply appendOnly_same. now rewrite E.
    + rewrite E. clear E. apply lookup_In in L.
      intros d' I. cbn [snd bugs with_bugs] in I.
      apply In_replace in I. destruct I as [->|I];
        [|left; now apply continues_self].
      left. exists ex.
      destruct D as [[_ ->]|[_ ->]];
        (repeat split; [exact L|apply extends_refl|]).
      * apply extends_app.
      * apply extends_refl.
  - destruct (deleteBug_cases castObjectId id s) as [[E _]|[oid [d [_ [_ E]]]]].
    + apply appendOnly_same. now rewrite E.
    + rewrite E. intros d' I. cbn [snd bugs with_bugs] in I.
      apply In_remove in I. left. now apply continues_self.
  - destruct (patchStatus_cases castObjectId env id body s)
      as [[E _]|[oid [bug [st [_ [L [_ [_ [_ E]]]]]]]]].
    + apply appendOnly_same. now rewrite E.
    + cbv zeta in E. rewrite E. clear E. apply lookup_In in L.
      assert (C1 : forall d', d' = afterMethod env bug st ->
                exists d, In d (bugs s) /\ _id d = _id d'
                  /\ extends (comments d) (comments d')
                  /\ extends (statusHistory d) (statusHistory d')).
      { intros d' ->. exists bug. repeat split; [exact L|apply extends_refl|].
        apply extends_app. }
      intros d' I.
      destruct (validate_statusChange _); cbn [snd bugs with_bugs] in I.
      * apply In_replace in I. destruct I as [->|I].
        -- left. exists bug. repeat split; [exact L|apply extends_refl|].
           exists [methodEntry env bug st; routeEntry env bug st body].
           cbn. now rewrite <- app_assoc.
        -- apply In_replace in I. destruct I as [I|I];
             left; [now apply C1|now apply continues_self].
      * apply In_replace in I. destruct I as [I|I];
          left; [now apply C1|now apply continues_self].
  - destruct (postComment_cases castObjectId env id body s)
      as [[E _]|[oid [bug [_ [L [_ [_ E]]]]]]].
    + apply appendOnly_same. now rewrite E.
    + cbv zeta in E. destruct E as [_ E]. rewrite E. clear E.
      apply lookup_In in L. intros d' I. cbn [snd bugs with_bugs] in I.
      apply In_replace in I. destruct I as [->|I];
        [|left; now apply continues_self].
      left. exists bug. repeat split; [exact L|apply extends_app|apply extends_refl].
  - destruct (postFeedback_cases env body s) as [[E _]|[_ [L [_ E]]]].
    + apply appendOnly_same. now rewrite E.
    + now apply (appendOnly_new s _ (feedbackDoc env body)).
Qed.

End AppendOnly.

(** ** Comments, status patches, updates, feedback *)

Lemma validate_push_comments c d :
  validate d = [] -> validate (push_comments c d) = validate_comment c.
Proof.
  unfold validate; simpl. intros H.
  repeat (apply app_eq_nil in H; destruct H as [?H H]).
  rewrite flat_map_app. simpl.
  rewrite H0, H1, H2, H3, H4, H5, H6, H. simpl. now rewrite !app_nil_r.
Qed.

Lemma validate_comment_ok a m t :
  validate_comment {| c_author := a; c_message := m; c_createdAt := t |} = []
  <-> a <> "" /\ m <> "" /\ (utf16Length m <= 2000)%nat.
Proof.
  unfold validate_comment. cbn [c_author c_message].
  rewrite <- !truthy_nonempty. split.
  - intros H. apply app_eq_nil in H. destruct H as [Ha Hm].
    destruct (truthy a); [|discriminate Ha].
    destruct (truthy m); [|discriminate Hm]. cbn [negb] in Hm.
    destruct (2000 <? utf16Length m)%nat eqn:E; [discriminate Hm|].
    apply Nat.ltb_ge in E. auto.
  - intros [-> [-> L]]. cbn [negb app].
    apply Nat.ltb_ge in L. now rewrite L.
Qed.

Lemma validate_reason_ok env from to by_ reason :
  to <> "" ->
  (validate_statusChange (newStatusChange env from to by_ reason) = []
   <-> forall r, reason = Some r -> (utf16Length (trim r) <= 500)%nat).
Proof.
  intros T. apply truthy_nonempty in T.
  unfold validate_statusChange, newStatusChange. cbn [h_to h_reason].
  rewrite T. cbn [negb app]. destruct reason as [r|]; cbn [option_map].
  - destruct (500 <? utf16Length (trim r))%nat eqn:E.
    + apply Nat.ltb_lt in E. split; [discriminate|].
      intros H. specialize (H r eq_refl). lia.
    + apply Nat.ltb_ge in E. split; [|reflexivity].
      now intros _ r' [= <-].
  - split; [|reflexivity]. intros _ r E. discriminate E.
Qed.

Section RouteProperties.

Variable castObjectId : string -> option ObjectId.

(** X6. [POST /:id/comments] on a stored (valid) bug, with [author] and
    [message] present: when both are non-blank after trimming and the
    trimmed message has at most 2000 UTF-16 code units, the answer is 201 with
    the new comment (author and message trimmed, stamped with the
    clock), which is appended as the last comment of the stored record,
    whose status and status history are untouched; otherwise (a
    white-space-only author or message passes the presence check) the
    answer is 400 and the collection is as it was. *)
Theorem X6_comment_is_appended_or_refused env id oid body bug a m s :
  castObjectId id = Some oid ->
  lookup oid (bugs s) = Some bug ->
  validate bug = [] ->
  Body.author body = Some a -> a <> "" ->
  Body.message body = Some m -> m <> "" ->
  let c := {| c_author := trim a; c_message := trim m; c_createdAt := now env |} in
  let r := postComment castObjectId env id body s in
  (trim a <> "" /\ trim m <> "" /\ (utf16Length (trim m) <= 2000)%nat ->
   fst r = ok 201 (OneComment (Some c)) (Some "Comment added")
   /\ exists saved,
        lookup oid (bugs (snd r)) = Some saved
        /\ comments saved = (comments bug ++ [c])%list
        /\ statusHistory saved = statusHistory bug
        /\ status saved = status bug
        /\ updatedAt saved = now env)
  /\ (~ (trim a <> "" /\ trim m <> "" /\ (utf16Length (trim m) <= 2000)%nat) ->
      Res.statusCode (fst r) = 400 /\ snd r = s).
Proof.
  intros H L V Ba Ta Bm Tm c r. subst r.
  apply truthy_nonempty in Ta, Tm.
  pose proof (validate_comment_ok (trim a) (trim m) (now env)) as VC.
  fold c in VC.
  unfold postComment, route, bind, findById, addComment.
  rewrite Ba, Bm. cbn [truthyO getOr]. rewrite Ta, Tm. js_step.
  rewrite H. cbv beta. rewrite L.
  change (newComment env a m) with c.
  assert (E : validate (set_updatedAt (now env) (push_comments c bug))
              = validate_comment c)
    by (rewrite validate_set_updatedAt; now apply validate_push_comments).
  split.
  - intros OK. apply VC in OK.
    rewrite save_loaded by (now rewrite E). cbn [fst snd ret bugs with_bugs].
    split.
    + unfold ok. repeat f_equal. cbn [comments set_updatedAt push_comments].
      rewrite map_app. cbn [List.map]. apply last_last.
    + exists (set_updatedAt (now env)
                (set_updatedAt (now env) (push_comments c bug))).
      split; [|repeat split].
      eapply lookup_replace; [exact L|exact (lookup_id _ _ _ L)].
  - intros KO. rewrite <- VC in KO.
    rewrite save_invalid by (now rewrite E). rewrite E. split; reflexivity.
Qed.

(** X7. [PATCH /:id/status] is not all-or-nothing.  On a stored (valid)
    bug, with a status of the enum and a [reason] longer than 500
    UTF-16 code units after trimming, the answer is 400, yet the first of the
    route's two saves has gone through: the stored record has the new
    status and one more history entry, the one of [updateStatus]. *)
Theorem X7_patch_with_long_reason_is_half_applied env id oid body bug st reason s :
  castObjectId id = Some oid ->
  lookup oid (bugs s) = Some bug ->
  validate bug = [] ->
  Body.status body = Some st ->
  includes statusValues st = true ->
  Body.reason body = Some reason ->
  (500 < utf16Length (trim reason))%nat ->
  let r := patchStatus castObjectId env id body s in
  Res.statusCode (fst r) = 400
  /\ Res.success (fst r) = false
  /\ exists saved,
       lookup oid (bugs (snd r)) = Some saved
       /\ status saved = st
       /\ statusHistory saved
          = (statusHistory bug
             ++ [ {| h_from := status bug; h_to := st; h_by := "system";
                     h_at := now env; h_reason := None |} ])%list.
Proof.
  intros H L V B I R Long r. subst r.
  pose proof (patchStatus_valid castObjectId env id oid body bug st s H L B I V) as E.
  cbv zeta in E. rewrite E. clear E.
  destruct (validate_statusChange (routeEntry env bug st body)) eqn:V2.
  - exfalso. unfold routeEntry in V2.
    assert (T : st <> "") by (apply truthy_nonempty, status_value_truthy, I).
    pose proof (proj1 (validate_reason_ok env (status bug) st
                         (orElse (Body.by_ body) "system") (Body.reason body) T)
                  V2 reason R) as Q.
    lia.
  - split; [reflexivity|]. split; [reflexivity|].
    exists (afterMethod env bug st). cbn [snd bugs with_bugs].
    split; [|split; reflexivity].
    eapply lookup_replace; [exact L|exact (lookup_id _ _ _ L)].
Qed.

(** X8. A [PATCH /:id/status] answered 200 writes the record back with
    the new status and the clock as [updatedAt]; its title, description,
    priority, reporter, assignee, source, customer, comments, creation
    time and [_id] are those of the stored record, and its status history
    continues the stored one. *)
Theorem X8_patch_touches_status_only env id oid body bug st s :
  castObjectId id = Some oid ->
  lookup oid (bugs s) = Some bug ->
  Body.status body = Some st ->
  Res.statusCode (fst (patchStatus castObjectId env id body s)) = 200 ->
  exists saved,
    Res.data (fst (patchStatus castObjectId env id body s)) = OneBug saved
    /\ lookup oid (bugs (snd (patchStatus castObjectId env id body s))) = Some saved
    /\ status saved = st
    /\ includes statusValues st = true
    /\ updatedAt saved = now env
    /\ sameButStatus bug saved
    /\ extends (statusHistory bug) (statusHistory saved).
Proof.
  intros H L B C.
  destruct (patchStatus_cases castObjectId env id body s)
    as [[_ [_ F]]|[oid' [bug' [st' [H' [L' [B' [I [_ E]]]]]]]]].
  - now contradiction F.
  - rewrite H in H'. injection H' as <-. rewrite L in L'. injection L' as <-.
    rewrite B in B'. injection B' as <-.
    cbv zeta in E. rewrite E in *. clear E.
    destruct (validate_statusChange (routeEntry env bug st body)); [|discriminate C].
    exists (afterRoute env bug st body). cbn [fst snd bugs with_bugs].
    split; [reflexivity|]. split.
    { eapply lookup_replace; [|exact (lookup_id _ _ _ L)].
      eapply lookup_replace; [exact L|exact (lookup_id _ _ _ L)]. }
    split; [reflexivity|]. split; [exact I|]. split; [reflexivity|].
    split; [repeat split|].
    exists [methodEntry env bug st; routeEntry env bug st body].
    cbn. now rewrite <- app_assoc.
Qed.

End RouteProperties.

(** ** Updates, feedback, notifications *)

Section MoreRouteProperties.

Variable castObjectId : string -> option ObjectId.

(** X9. A [PUT /:id] answered 200, whose body carries no member beyond
    title, description, priority, status, reportedBy, assignedTo, source,
    customer and updatedBy, merges the body into the stored record: each
    of title, description, reporter and assignee is the trimmed member of
    the body when the body carries it and the stored value otherwise;
    priority, status and source are the member of the body when carried
    and the stored value otherwise; [_id] and creation time are kept and
    [updatedAt] is the clock.  Members the body does not carry are never
    reset to a default. *)
Theorem X9_put_merges_the_body env id oid body existing s :
  Body.others body = [] ->
  castObjectId id = Some oid ->
  lookup oid (bugs s) = Some existing ->
  Res.statusCode (fst (putBug castObjectId env id body s)) = 200 ->
  exists saved,
    Res.data (fst (putBug castObjectId env id body s)) = OneBug saved
    /\ lookup oid (bugs (snd (putBug castObjectId env id body s))) = Some saved
    /\ _id saved = _id existing
    /\ createdAt saved = createdAt existing
    /\ updatedAt saved = now env
    /\ title saved = match Body.title body with
                     | Some v => trim v
                     | None => title existing
                     end
    /\ description saved = match Body.description body with
                           | Some v => trim v
                           | None => description existing
                           end
    /\ reportedBy saved = match Body.reportedBy body with
                          | Some v => trim v
                          | None => reportedBy existing
                          end
    /\ assignedTo saved = match Body.assignedTo body with
                          | Some v => trim v
                          | None => assignedTo existing
                          end
    /\ priority saved = getOr (Body.priority body) (priority existing)
    /\ status saved = getOr (Body.status body) (status existing)
    /\ source saved = getOr (Body.source body) (source existing)
    /\ validateUpdate body = [].
Proof.
  intros _ H L C.
  destruct (putBug_cases castObjectId env id body s)
    as [[_ F]|[oid' [ex [saved [H' [L' [D E]]]]]]].
  - exfalso. revert C F.
    destruct (statusDiffers body existing) eqn:D.
    + rewrite (putBug_changed castObjectId env id oid body existing s H L D).
      destruct (validate (putChanged env existing body)); discriminate.
    + rewrite (putBug_same castObjectId env id oid body existing s H L D).
      destruct (validateUpdate body); discriminate.
  - rewrite H in H'. injection H' as <-. rewrite L in L'. injection L' as <-.
    exists saved. rewrite E. cbn [fst snd bugs with_bugs ok Res.data].
    split; [reflexivity|].
    assert (Hid : _id saved = oid)
      by (destruct D as [[_ ->]|[_ ->]]; exact (lookup_id _ _ _ L)).
    split; [eapply lookup_replace; [exact L|exact Hid]|].
    assert (VU : validateUpdate body = []).
    { destruct D as [[D ->]|[D ->]].
      - rewrite (putBug_changed castObjectId env id oid body existing s H L D) in E.
        destruct (validate (putChanged env existing body)) eqn:V;
          [|discriminate E].
        clear E. unfold putChanged in V. rewrite validate_set_updatedAt in V.
        unfold validate in V.
        repeat (apply app_eq_nil in V; destruct V as [?V V]).
        cbn [set title description priority status reportedBy source] in *.
        unfold validateUpdate.
        destruct (Body.title body), (Body.description body), (Body.priority body),
          (Body.status body), (Body.reportedBy body), (Body.source body);
          cbn [getOr] in *;
          rewrite ?V0, ?V1, ?V2, ?V3, ?V4, ?V5; reflexivity.
      - rewrite (putBug_same castObjectId env id oid body existing s H L D) in E.
        destruct (validateUpdate body); [reflexivity|discriminate E]. }
    destruct D as [[_ ->]|[_ ->]]; repeat split; assumption.
Qed.

(** X10. A [POST /api/bugs/feedback] answered 201 stores a bug whose
    source is "customer", whose reporter is the trimmed customer name,
    whose customer sub-record holds the trimmed name, email and id of
    the body, whose status is "Open", whose assignee is empty and whose
    priority is the one of the body or "Medium"; the [source],
    [reportedBy], [assignedTo], [status] and [customer] members of the
    body are not read.  Without a title, a description or a customer
    name the answer is 400, the collection is as it was and nothing is
    posted to the webhook. *)
Theorem X10_feedback_is_a_customer_bug env body s :
  (Res.statusCode (fst (postFeedback env body s)) = 201 ->
   exists saved,
     Res.data (fst (postFeedback env body s)) = OneBug saved
     /\ lookup (newObjectId env) (bugs (snd (postFeedback env body s))) = Some saved
     /\ source saved = "customer"
     /\ status saved = "Open"
     /\ assignedTo saved = ""
     /\ priority saved = orElse (Body.priority body) "Medium"
     /\ reportedBy saved = trim (getOr (Body.customerName body) "")
     /\ customer saved
        = {| cust_name := option_map trim (Body.customerName body);
             cust_email := option_map trim (Body.customerEmail body);
             cust_id := option_map trim (Body.customerId body) |}
     /\ comments saved = [] /\ statusHistory saved = [])
  /\ (truthyO (Body.title body) = false \/ truthyO (Body.description body) = false
      \/ truthyO (Body.customerName body) = false ->
      postFeedback env body s
      = (fail 400 "title, description, and customerName are required", s)).
Proof.
  split.
  - intros C.
    destruct (postFeedback_cases env body s) as [[_ [_ F]]|[_ [L [R E]]]];
      [rewrite F in C; discriminate C|].
    exists (feedbackDoc env body). rewrite R, E.
    split; [reflexivity|]. split; [now apply lookup_app_new|].
    repeat split.
  - intros M. apply postFeedback_missing.
    destruct M as [M|[M|M]]; rewrite M; rewrite ?andb_false_r; reflexivity.
Qed.

Lemma postBug_trace env body s :
  requiredPresent body = true ->
  validate (postBugDoc env body) = [] ->
  lookup (newObjectId env) (bugs s) = None ->
  trace (snd (postBug env body s))
  = (trace s ++ notification env (newBugText (postBugDoc env body)))%list.
Proof.
  intros P V L. unfold requiredPresent in P. unfold postBug, route.
  destruct (truthyO (Body.title body)), (truthyO (Body.description body)),
    (truthyO (Body.reportedBy body)); try discriminate.
  cbn [negb orb]. unfold bind, save.
  match goal with |- context [new_Bug env ?o] =>
    replace (new_Bug env o) with (postBugDoc env body)
    by (unfold postBugDoc, new_Bug;
        cbn [Body.title Body.description Body.priority Body.status
               Body.reportedBy Body.assignedTo Body.source Body.customer getOr];
        destruct (strictEq (Body.source body) "customer"); reflexivity) end.
  rewrite V.
  change (_id (set_updatedAt (now env) (postBugDoc env body)))
    with (newObjectId env).
  rewrite L.
  change (set_updatedAt (now env) (postBugDoc env body)) with (postBugDoc env body).
  unfold notify, notification, ret, try_catch.
  destruct (SLACK_WEBHOOK_URL env) as [url|];
    [|cbn; now rewrite app_nil_r].
  destruct (truthy url); [|cbn; now rewrite app_nil_r].
  destruct (axios_post env url _); reflexivity.
Qed.

(** X11. What [POST /api/bugs] sends to the webhook.  A create that is
    not answered 201 posts nothing.  A create answered 201 posts nothing
    when no webhook URL is configured (absent or empty); otherwise it
    posts exactly once, to that URL, the text built from the saved
    record, whether the post then succeeds or fails. *)
Theorem X11_create_notifies_once_after_saving env body s :
  (Res.statusCode (fst (postBug env body s)) <> 201 ->
   trace (snd (postBug env body s)) = trace s)
  /\ (Res.statusCode (fst (postBug env body s)) = 201 ->
      exists saved,
        Res.data (fst (postBug env body s)) = OneBug saved
        /\ trace (snd (postBug env body s))
           = (trace s
              ++ match SLACK_WEBHOOK_URL env with
                 | Some url =>
                     if truthy url then [WebhookPost url (newBugText saved)] else []
                 | None => []
                 end)%list).
Proof.
  destruct (postBug_cases env body s) as [[E [_ C]]|[P [V [L [R _]]]]].
  - split; [intros _; now rewrite E|]. intros C'. rewrite C in C'. discriminate C'.
  - split; [intros C; rewrite R in C; now contradiction C|].
    intros _. exists (postBugDoc env body). rewrite R.
    split; [reflexivity|]. now apply postBug_trace.
Qed.

End MoreRouteProperties.

(** ** Listing: everything once, in order *)

Lemma key_leb_total a b : key_leb a b = false -> key_leb b a = true.
Proof.
  destruct a as [|x|x], b as [|y|y]; cbn; try reflexivity; try discriminate.
  - intros F. destruct (String.leb_total x y) as [T|T]; congruence.
  - intros F. apply N.leb_gt in F. apply N.leb_le. lia.
Qed.

Lemma inOrder_total field asc a b :
  inOrder field asc a b = false -> inOrder field asc b a = true.
Proof. unfold inOrder. destruct asc; apply key_leb_total. Qed.

Lemma insertSorted_sorted field asc x l :
  Sorted (fun a b => inOrder field asc a b = true) l ->
  Sorted (fun a b => inOrder field asc a b = true) (insertSorted field asc x l).
Proof.
  induction l as [|y l IH]; intros S; cbn [insertSorted].
  - repeat constructor.
  - destruct (inOrder field asc x y) eqn:O.
    + constructor; [exact S|now constructor].
    + apply Sorted_inv in S. destruct S as [S Hd].
      constructor; [now apply IH|].
      destruct l as [|z l]; cbn [insertSorted].
      * constructor. now apply inOrder_total.
      * destruct (inOrder field asc x z).
        -- constructor. now apply inOrder_total.
        -- constructor. now inversion Hd.
Qed.

Lemma sort_sorted field asc l :
  Sorted (fun a b => inOrder field asc a b = true) (sort field asc l).
Proof.
  induction l as [|x l IH]; cbn [sort]; [constructor|].
  now apply insertSorted_sorted.
Qed.

Lemma sortable_nonempty q : sortable q -> Query.sortBy q <> Some "".
Proof.
  intros [E|[f [E I]]]; rewrite E; [discriminate|].
  intros [= ->]. repeat (destruct I as [I|I]; [discriminate I|]). exact I.
Qed.

Lemma found_getBugs q s :
  Query.sortBy q <> Some "" ->
  found (fst (getBugs q s))
  = sort (getOr (Query.sortBy q) "createdAt")
      (negb (getOr (Query.order q) "desc" =? "desc"))
      (List.filter
         (matches
            {| Query.status :=
                 if truthyO (Query.status q) then Query.status q else None;
               Query.priority :=
                 if truthyO (Query.priority q) then Query.priority q else None;
               Query.source := None; Query.assignedTo := None;
               Query.sortBy := None; Query.order := None |})
         (bugs s)).
Proof.
  intros N. unfold getBugs, route, bind, find.
  destruct (getOr (Query.sortBy q) "createdAt" =? "") eqn:E; [|reflexivity].
  apply String.eqb_eq in E. destruct (Query.sortBy q) as [f|].
  - cbn [getOr] in E. subst f. now contradiction N.
  - discriminate E.
Qed.

Lemma getBugs_unfiltered q s :
  Query.sortBy q <> Some "" ->
  truthyO (Query.status q) = false ->
  truthyO (Query.priority q) = false ->
  Res.statusCode (fst (getBugs q s)) = 200
  /\ Permutation (found (fst (getBugs q s))) (bugs s)
  /\ Res.count (fst (getBugs q s)) = Some (List.length (bugs s)).
Proof.
  intros N Ts Tp. destruct (getBugs_listed q s N) as [kept [E [_ K]]].
  rewrite (K Ts Tp) in E. rewrite E. cbn [fst found Res.data Res.statusCode Res.count].
  split; [reflexivity|]. split; [apply sort_perm|reflexivity].
Qed.

(** X12. [GET /api/bugs] without a status and a priority filter (absent
    or empty members), ordered by the default or by a path of the
    schema, is answered 200 with every stored record exactly once: the
    list is a permutation of the collection and [count] is its size. *)
Theorem X12_list_without_filter_returns_everything q s :
  sortable q ->
  truthyO (Query.status q) = false ->
  truthyO (Query.priority q) = false ->
  Res.statusCode (fst (getBugs q s)) = 200
  /\ Permutation (found (fst (getBugs q s))) (bugs s)
  /\ Res.count (fst (getBugs q s)) = Some (List.length (bugs s)).
Proof.
  intros S. apply getBugs_unfiltered. now apply sortable_nonempty.
Qed.

(** X13. The order of [GET /api/bugs].  Without [sortBy] the list is
    ordered by creation time: newest first when [order] is absent or is
    exactly "desc", oldest first for every other value of [order]
    (among them "DESC" and the empty string). *)
Theorem X13_list_is_ordered_by_creation_time q s :
  Query.sortBy q = None ->
  (Query.order q = None \/ Query.order q = Some "desc" ->
   StronglySorted (fun a b => (createdAt b <= createdAt a)%N)
     (found (fst (getBugs q s))))
  /\ (forall o, Query.order q = Some o -> o <> "desc" ->
      StronglySorted (fun a b => (createdAt a <= createdAt b)%N)
        (found (fst (getBugs q s)))).
Proof.
  intros SB. rewrite found_getBugs by (rewrite SB; discriminate).
  rewrite SB. cbn [getOr]. split.
  - intros O.
    assert (E : negb (getOr (Query.order q) "desc" =? "desc") = false)
      by (destruct O as [->| ->]; reflexivity).
    rewrite E. apply Sorted_StronglySorted.
    + intros a b c; lia.
    + eapply Sorted_ind
        with (P := fun l => Sorted (fun a b => (createdAt b <= createdAt a)%N) l);
        [constructor| |apply (sort_sorted "createdAt" false)].
      intros a l _ IH Hd. constructor; [exact IH|].
      destruct Hd as [|b l Hd]; constructor.
      apply N.leb_le. exact Hd.
  - intros o O N.
    assert (E : negb (getOr (Query.order q) "desc" =? "desc") = true).
    { rewrite O. cbn [getOr]. apply negb_true_iff. now apply String.eqb_neq. }
    rewrite E. apply Sorted_StronglySorted.
    + intros a b c; lia.
    + eapply Sorted_ind
        with (P := fun l => Sorted (fun a b => (createdAt a <= createdAt b)%N) l);
        [constructor| |apply (sort_sorted "createdAt" true)].
      intros a l _ IH Hd. constructor; [exact IH|].
      destruct Hd as [|b l Hd]; constructor.
      apply N.leb_le. exact Hd.
Qed.

(** X14. The static [Bug.findByPriority(p)] returns, in the order of
    the collection and without touching the state, exactly the stored
    records whose priority is [p].  For a non-empty [p] the route
    [GET /api/bugs?priority=p] returns the same records (in its own
    order); for the empty [p] the route filters nothing and returns the
    whole collection. *)
Theorem X14_findByPriority_agrees_with_the_route p s :
  exists byPriority,
    findByPriority p s = (inr byPriority, s)
    /\ (forall d, In d byPriority <-> In d (bugs s) /\ priority d = p)
    /\ (p <> "" ->
        Permutation (found (fst (getBugs (priorityQuery p) s))) byPriority)
    /\ (p = "" ->
        Permutation (found (fst (getBugs (priorityQuery p) s))) (bugs s)).
Proof.
  eexists. split; [reflexivity|]. split; [|split].
  - intros d. rewrite filter_In. unfold matches. cbn.
    rewrite !andb_true_r, String.eqb_eq. intuition congruence.
  - intros T. apply truthy_nonempty in T.
    rewrite found_getBugs by discriminate.
    cbn [priorityQuery Query.status Query.priority truthyO].
    rewrite T. apply sort_perm.
  - intros ->. apply getBugs_unfiltered; [discriminate|reflexivity|reflexivity].
Qed.

(** ** Stored documents obey the schema *)

Lemma flat_map_nil {A B} (f : A -> list B) (l : list A) :
  flat_map f l = [] -> Forall (fun x => f x = []) l.
Proof.
  induction l as [|x l IH]; cbn [flat_map]; [constructor|].
  intros H. apply app_eq_nil in H. destruct H. constructor; auto.
Qed.

Lemma valid_wellFormed d : validate d = [] -> wellFormed d.
Proof.
  unfold validate, wellFormed. intros V.
  repeat (apply app_eq_nil in V; destruct V as [?V V]).
  split; [exact (proj2 (proj1 (required_enum_ok _ _ _ _) V3))|].
  split; [exact (proj2 (proj1 (required_enum_ok _ _ _ _) V2))|].
  split.
  { unfold validate_source in V5.
    destruct (includes sourceValues (source d)) eqn:I; [|discriminate V5].
    now apply includes_In. }
  split; [exact (proj1 (required_max_ok _ _ _ _) V0)|].
  split; [exact (proj1 (required_max_ok _ _ _ _) V1)|].
  split; [exact (proj1 (required_max_ok _ _ _ _) V4)|].
  split.
  - apply flat_map_nil in V6. eapply Forall_impl; [|exact V6].
    intros [a m t] H. now apply validate_comment_ok in H.
  - apply flat_map_nil in V. eapply Forall_impl; [|exact V].
    intros h H. unfold validate_statusChange in H.
    apply app_eq_nil in H. destruct H as [Ht Hr]. split.
    + apply truthy_nonempty. destruct (truthy (h_to h)); [reflexivity|discriminate Ht].
    + intros r E. rewrite E in Hr.
      destruct (500 <? utf16Length r)%nat eqn:L; [discriminate Hr|].
      now apply Nat.ltb_ge in L.
Qed.

(** ** Stored strings are trimmed *)

Lemma dropPrefix_Some w s r : dropPrefix w s = Some r <-> s = (w ++ r)%list.
Proof.
  revert s. induction w as [|a w IH]; intros s; cbn [dropPrefix app].
  - split; [now intros [= ->]|now intros ->].
  - destruct s as [|c s]; [split; discriminate|].
    destruct (Ascii.eqb a c) eqn:E.
    + apply Ascii.eqb_eq in E. subst c. rewrite IH.
      split; [now intros ->|now intros [= ->]].
    + apply Ascii.eqb_neq in E. split; [discriminate|]. intros [= <- _].
      now contradiction E.
Qed.

Lemma dropAny_Some ws s r :
  dropAny ws s = Some r -> exists w, In w ws /\ s = (w ++ r)%list.
Proof.
  induction ws as [|w ws IH]; cbn [dropAny]; [discriminate|].
  destruct (dropPrefix w s) as [r'|] eqn:E.
  - intros [= <-]. exists w. split; [now left|]. now apply dropPrefix_Some.
  - intros H. destruct (IH H) as [w' [I E']]. exists w'. split; [now right|exact E'].
Qed.

Lemma dropAny_None ws s :
  dropAny ws s = None <-> forall w r, In w ws -> s <> (w ++ r)%list.
Proof.
  induction ws as [|w ws IH]; cbn [dropAny].
  - split; [intros _ w r []|reflexivity].
  - destruct (dropPrefix w s) as [r'|] eqn:E.
    + split; [discriminate|]. intros H. exfalso.
      apply (H w r'); [now left|]. now apply dropPrefix_Some.
    + rewrite IH. split.
      * intros H w' r [<-|I]; [|now apply H].
        intros E'. apply dropPrefix_Some in E'. congruence.
      * intros H w' r I. apply H. now right.
Qed.

Lemma strip_suffix ws fuel s : exists p, s = (p ++ strip ws fuel s)%list.
Proof.
  revert s. induction fuel as [|fuel IH]; intros s; cbn [strip].
  - now exists [].
  - destruct (dropAny ws s) as [r|] eqn:E; [|now exists []].
    destruct (dropAny_Some ws s r E) as [w [_ ->]].
    destruct (IH r) as [p Ep]. exists (w ++ p)%list.
    rewrite <- app_assoc. now rewrite <- Ep.
Qed.

Lemma strip_done ws fuel s :
  Forall (fun w => w <> []) ws -> (List.length s <= fuel)%nat ->
  dropAny ws (strip ws fuel s) = None.
Proof.
  intros NE. revert s. induction fuel as [|fuel IH]; intros s L; cbn [strip].
  - destruct s; [|cbn in L; lia].
    apply dropAny_None. intros w r I E.
    rewrite Forall_forall in NE. specialize (NE w I).
    destruct w; [now contradiction NE|discriminate E].
  - destruct (dropAny ws s) as [r|] eqn:E; [|exact E].
    apply IH. destruct (dropAny_Some ws s r E) as [w [I ->]].
    rewrite Forall_forall in NE. specialize (NE w I).
    rewrite length_app in L. destruct w; [now contradiction NE|].
    cbn [List.length] in L. lia.
Qed.

Lemma strip_id ws fuel s : dropAny ws s = None -> strip ws fuel s = s.
Proof. intros E. destruct fuel; cbn [strip]; [reflexivity|now rewrite E]. Qed.

Lemma dropAny_None_prefix ws u x :
  dropAny ws (u ++ x)%list = None -> dropAny ws u = None.
Proof.
  rewrite !dropAny_None. intros H w r I E. apply (H w (r ++ x)%list I).
  rewrite E. now rewrite app_assoc.
Qed.

Lemma whiteSpace_nonempty : Forall (fun w : list ascii => w <> []) whiteSpace.
Proof. repeat constructor; discriminate. Qed.

Lemma whiteSpace_rev_nonempty :
  Forall (fun w : list ascii => w <> []) (List.map (@List.rev ascii) whiteSpace).
Proof. repeat constructor; discriminate. Qed.

(** What is left of a string starts with no white space... *)
Lemma trimStartBytes_done s : dropAny whiteSpace (trimStartBytes s) = None.
Proof. apply strip_done; [apply whiteSpace_nonempty|reflexivity]. Qed.

(** ... and ends with none. *)
Lemma trimEndBytes_done s :
  dropAny (List.map (@List.rev ascii) whiteSpace) (List.rev (trimEndBytes s)) = None.
Proof.
  unfold trimEndBytes. rewrite rev_involutive.
  apply strip_done; [apply whiteSpace_rev_nonempty|]. now rewrite length_rev.
Qed.

Lemma trimEndBytes_prefix s : exists x, s = (trimEndBytes s ++ x)%list.
Proof.
  unfold trimEndBytes.
  destruct (strip_suffix (List.map (@List.rev ascii) whiteSpace) (List.length s)
              (List.rev s)) as [p E].
  exists (List.rev p). rewrite <- rev_app_distr, <- E. now rewrite rev_involutive.
Qed.

Lemma trimBytes_idem s :
  let u := trimEndBytes (trimStartBytes s) in
  trimEndBytes (trimStartBytes u) = u.
Proof.
  intros u.
  assert (S : trimStartBytes u = u).
  { apply strip_id.
    destruct (trimEndBytes_prefix (trimStartBytes s)) as [x E]. fold u in E.
    apply (dropAny_None_prefix _ u x). rewrite <- E. apply trimStartBytes_done. }
  rewrite S. unfold trimEndBytes at 1.
  rewrite strip_id by apply trimEndBytes_done.
  apply rev_involutive.
Qed.

Lemma trim_idem s : trim (trim s) = trim s.
Proof.
  unfold trim. rewrite list_ascii_of_string_of_list_ascii.
  now rewrite trimBytes_idem.
Qed.

Lemma string_of_list_ascii_app a b :
  string_of_list_ascii (a ++ b) = string_of_list_ascii a ++ string_of_list_ascii b.
Proof. induction a as [|c a IH]; cbn; [reflexivity|now rewrite IH]. Qed.

Lemma list_ascii_of_string_app a b :
  list_ascii_of_string (a ++ b)
  = (list_ascii_of_string a ++ list_ascii_of_string b)%list.
Proof. induction a as [|c a IH]; cbn; [reflexivity|now rewrite IH]. Qed.

(** A string that [trim] leaves as it is neither starts nor ends with a
    white-space character. *)
Lemma trimmed_ends s : trimmed s -> noSpaceAtEnds s.
Proof.
  unfold trimmed, trim. intros T w I.
  set (u := trimEndBytes (trimStartBytes (list_ascii_of_string s))) in T.
  assert (Eu : list_ascii_of_string s = u)
    by (rewrite <- T; apply list_ascii_of_string_of_list_ascii).
  split; intros t E.
  - assert (N : dropAny whiteSpace u = None).
    { destruct (trimEndBytes_prefix (trimStartBytes (list_ascii_of_string s)))
        as [x Ex]. fold u in Ex.
      apply (dropAny_None_prefix _ u x). rewrite <- Ex. apply trimStartBytes_done. }
    rewrite dropAny_None in N. apply (N w (list_ascii_of_string t) I).
    rewrite <- Eu, E, list_ascii_of_string_app.
    now rewrite list_ascii_of_string_of_list_ascii.
  - pose proof (trimEndBytes_done (trimStartBytes (list_ascii_of_string s))) as N.
    fold u in N. rewrite dropAny_None in N.
    apply (N (List.rev w) (List.rev (list_ascii_of_string t)));
      [now apply in_map|].
    rewrite <- rev_app_distr, <- Eu, E, list_ascii_of_string_app.
    now rewrite list_ascii_of_string_of_list_ascii.
Qed.

Lemma trimmed_trim s : trimmed (trim s).
Proof. apply trim_idem. Qed.

Lemma trimmedO_map o : trimmedO (option_map trim o).
Proof. intros v E. destruct o; [injection E as <-; apply trim_idem|discriminate E]. Qed.

Lemma trimmedO_None : trimmedO None.
Proof. intros v E. discriminate E. Qed.

Lemma trimmed_castCustomer c :
  trimmedO (cust_name (castCustomer c)) /\ trimmedO (cust_email (castCustomer c))
  /\ trimmedO (cust_id (castCustomer c)).
Proof. repeat split; apply trimmedO_map. Qed.

Lemma trimmed_newStatusChange env from to by_ reason :
  trimmed (h_by (newStatusChange env from to by_ reason))
  /\ trimmedO (h_reason (newStatusChange env from to by_ reason)).
Proof. split; [apply trim_idem|apply trimmedO_map]. Qed.

Lemma trimmedDoc_postBugDoc env body : trimmedDoc (postBugDoc env body).
Proof.
  unfold trimmedDoc. cbn [postBugDoc title description reportedBy assignedTo
                            customer comments statusHistory].
  repeat (split; [apply trim_idem|]).
  split; [|split; constructor].
  destruct (strictEq (Body.source body) "customer");
    [apply trimmed_castCustomer|repeat split; apply trimmedO_None].
Qed.

Lemma trimmedDoc_feedbackDoc env body : trimmedDoc (feedbackDoc env body).
Proof.
  unfold trimmedDoc. cbn [feedbackDoc title description reportedBy assignedTo
                            customer comments statusHistory].
  repeat (split; [apply trim_idem|]).
  split; [reflexivity|]. split; [apply trimmed_castCustomer|split; constructor].
Qed.

Lemma trimmedDoc_set d body : trimmedDoc d -> trimmedDoc (set d body).
Proof.
  unfold trimmedDoc. intros [T [D [R [A [C [Cs H]]]]]].
  cbn [set title description reportedBy assignedTo customer comments statusHistory].
  split; [destruct (Body.title body); [apply trim_idem|exact T]|].
  split; [destruct (Body.description body); [apply trim_idem|exact D]|].
  split; [destruct (Body.reportedBy body); [apply trim_idem|exact R]|].
  split; [destruct (Body.assignedTo body); [apply trim_idem|exact A]|].
  split; [destruct (Body.customer body); [apply trimmed_castCustomer|exact C]|].
  split; assumption.
Qed.

Lemma trimmedDoc_push_statusHistory env from to by_ reason d :
  trimmedDoc d ->
  trimmedDoc (push_statusHistory (newStatusChange env from to by_ reason) d).
Proof.
  unfold trimmedDoc. intros [T [D [R [A [C [Cs H]]]]]].
  cbn [push_statusHistory title description reportedBy assignedTo customer
         comments statusHistory].
  repeat (split; [assumption|]).
  apply Forall_app. split; [exact H|].
  constructor; [apply trimmed_newStatusChange|constructor].
Qed.

Lemma trimmedDoc_push_comments env a m d :
  trimmedDoc d -> trimmedDoc (push_comments (newComment env a m) d).
Proof.
  unfold trimmedDoc. intros [T [D [R [A [C [Cs H]]]]]].
  cbn [push_comments title description reportedBy assignedTo customer
         comments statusHistory].
  repeat (split; [assumption|]). split; [|exact H].
  apply Forall_app. split; [exact Cs|].
  constructor; [split; apply trim_idem|constructor].
Qed.

Lemma trimmedDoc_set_updatedAt t d : trimmedDoc d -> trimmedDoc (set_updatedAt t d).
Proof. exact (fun H => H). Qed.

Lemma trimmedDoc_set_status st d : trimmedDoc d -> trimmedDoc (set_status st d).
Proof. exact (fun H => H). Qed.

Section SchemaInvariants.

Variable castObjectId : string -> option ObjectId.

Lemma handle_keeps_trimmed env req s :
  Forall trimmedDoc (bugs s) ->
  Forall trimmedDoc (bugs (snd (handle castObjectId env req s))).
Proof.
  intros F.
  destruct req as [body|query|id|id body|id|id body|id body|body];
    cbn [handle].
  - destruct (postBug_cases env body s) as [[-> _]|[_ [_ [_ [_ ->]]]]]; [exact F|].
    apply Forall_app. split; [exact F|].
    constructor; [apply trimmedDoc_postBugDoc|constructor].
  - now rewrite getBugs_state.
  - now rewrite getBug_state.
  - destruct (putBug_cases castObjectId env id body s)
      as [[-> _]|[oid [ex [saved [_ [L [D ->]]]]]]]; [exact F|].
    pose proof (Forall_lookup _ _ _ _ F L) as Tex. cbv beta in Tex.
    apply Forall_replace; [exact F|].
    destruct D as [[_ ->]|[_ ->]].
    + apply trimmedDoc_set_updatedAt, trimmedDoc_set.
      now apply trimmedDoc_push_statusHistory.
    + now apply trimmedDoc_set_updatedAt, trimmedDoc_set.
  - destruct (deleteBug_cases castObjectId id s) as [[-> _]|[oid [d [_ [_ ->]]]]];
      [exact F|now apply Forall_remove].
  - destruct (patchStatus_cases castObjectId env id body s)
      as [[-> _]|[oid [bug [st [_ [L [_ [_ [_ E]]]]]]]]]; [exact F|].
    cbv zeta in E. rewrite E. clear E.
    pose proof (Forall_lookup _ _ _ _ F L) as Tb. cbv beta in Tb.
    assert (T1 : trimmedDoc (afterMethod env bug st))
      by (apply trimmedDoc_set_updatedAt, trimmedDoc_push_statusHistory,
            trimmedDoc_set_updatedAt, trimmedDoc_set_status, Tb).
    assert (F1 : Forall trimmedDoc (replace (afterMethod env bug st) (bugs s)))
      by (now apply Forall_replace).
    destruct (validate_statusChange _); cbn [snd bugs with_bugs]; [|exact F1].
    apply Forall_replace; [exact F1|].
    now apply trimmedDoc_set_updatedAt, trimmedDoc_push_statusHistory.
  - destruct (postComment_cases castObjectId env id body s)
      as [[-> _]|[oid [bug [_ [L [_ [_ E]]]]]]]; [exact F|].
    cbv zeta in E. destruct E as [_ ->].
    pose proof (Forall_lookup _ _ _ _ F L) as Tb. cbv beta in Tb.
    apply Forall_replace; [exact F|].
    now apply trimmedDoc_set_updatedAt, trimmedDoc_set_updatedAt,
      trimmedDoc_push_comments.
  - destruct (postFeedback_cases env body s) as [[-> _]|[_ [_ [_ ->]]]]; [exact F|].
    apply Forall_app. split; [exact F|].
    constructor; [apply trimmedDoc_feedbackDoc|constructor].
Qed.

Lemma serve_keeps_trimmed reqs s :
  Forall trimmedDoc (bugs s) ->
  Forall trimmedDoc (bugs (snd (serve castObjectId reqs s))).
Proof.
  revert s. induction reqs as [|[env req] reqs IH]; intros s F; [exact F|].
  cbn [serve].
  pose proof (handle_keeps_trimmed env req s F) as F'.
  destruct (handle castObjectId env req s) as [r s']. cbn [snd] in F'.
  specialize (IH s' F').
  destruct (serve castObjectId reqs s') as [rs s'']. exact IH.
Qed.

(** X15. After a session whose PUT bodies carry no member beyond
    title, description, priority, status, reportedBy, assignedTo, source,
    customer and updatedBy, every document of the collection obeys the
    schema: its status, priority and source are values of their enums,
    its title, description and reporter are non-empty and within 100,
    1000 and 50 UTF-16 code units, every comment has a non-empty author
    and a non-empty message of at most 2000 code units, and every history
    entry has a non-empty [to] and a reason of at most 500 code units. *)
Theorem X15_stored_documents_obey_the_schema reqs d :
  plainBodies reqs ->
  In d (bugs (reached castObjectId reqs)) -> wellFormed d.
Proof.
  intros _ I. apply valid_wellFormed.
  pose proof (reachable_valid castObjectId reqs) as F.
  unfold allValid in F. rewrite Forall_forall in F. now apply F.
Qed.

(** X16. Whatever the session, no stored title, description, reporter,
    assignee, customer name, email or id, comment author or message,
    history [by] or reason has white space at either end: each equals
    its own [trim]. *)
Theorem X16_stored_strings_are_trimmed reqs d :
  In d (bugs (reached castObjectId reqs)) -> trimmedDoc d.
Proof.
  intros I.
  assert (F : Forall trimmedDoc (bugs (reached castObjectId reqs)))
    by (apply serve_keeps_trimmed; constructor).
  rewrite Forall_forall in F. now apply F.
Qed.

End SchemaInvariants.

(** ** The error handler *)

Lemma orElse_nonempty o d : d <> "" -> orElse o d <> "".
Proof.
  intros D. unfold orElse. destruct o as [v|]; [|exact D].
  destruct (truthy v) eqn:T; [now apply truthy_nonempty|exact D].
Qed.

Lemma duplicate_code_match {A} (code : option N) (x y : A) :
  match code with
  | Some 11000%N => x
  | _ => y
  end = if match code with Some n => (n =? 11000)%N | None => false end
        then x else y.
Proof.
  destruct code as [n|]; [|reflexivity].
  destruct (n =? 11000)%N eqn:E.
  - apply N.eqb_eq in E. now subst n.
  - apply N.eqb_neq in E. destruct n as [|p]; [reflexivity|].
    repeat (destruct p as [p|p|]; try reflexivity).
    now contradiction E.
Qed.

(** The status code [errorHandler] answers with, by precedence of its
    tests: the later test wins. *)
Lemma errorHandler_statusCode err :
  Res.statusCode (errorHandler err)
  = if Err.name err =? "TokenExpiredError" then 401
    else if Err.name err =? "JsonWebTokenError" then 401
    else if Err.name err =? "ValidationError" then 400
    else if match Err.code err with Some n => (n =? 11000)%N | None => false end
         then 400
    else if Err.name err =? "CastError" then 404
    else match Err.statusCode err with
         | Some 0 | None => 500
         | Some c => c
         end.
Proof.
  unfold errorHandler. cbn [Res.statusCode].
  rewrite duplicate_code_match.
  destruct (Err.name err =? "TokenExpiredError"); [reflexivity|].
  destruct (Err.name err =? "JsonWebTokenError"); [reflexivity|].
  destruct (Err.name err =? "ValidationError"); [reflexivity|].
  destruct (match Err.code err with Some n => (n =? 11000)%N | None => false end);
    [reflexivity|].
  destruct (Err.name err =? "CastError"); reflexivity.
Qed.

(** X17. Whatever error reaches it, [errorHandler] answers with
    [success: false], without data, and with a non-empty [error] text
    ("Server Error" when the error has no message).  An error that
    carries no status code of its own is answered 400, 401, 404 or 500,
    and 500 exactly when its name is none of CastError, ValidationError,
    JsonWebTokenError and TokenExpiredError and its code is not 11000. *)
Theorem X17_errorHandler_answers err :
  Res.success (errorHandler err) = false
  /\ Res.data (errorHandler err) = NoData
  /\ Res.message (errorHandler err) = None
  /\ (exists text, Res.error (errorHandler err) = Some text /\ text <> "")
  /\ (Err.statusCode err = None ->
      In (Res.statusCode (errorHandler err)) [400; 401; 404; 500]
      /\ (Res.statusCode (errorHandler err) = 500
          <-> ~ In (Err.name err) knownErrorNames /\ Err.code err <> Some 11000%N)).
Proof.
  split; [reflexivity|]. split; [reflexivity|]. split; [reflexivity|]. split.
  - unfold errorHandler. cbn [Res.error]. eexists. split; [reflexivity|].
    match goal with |- (if truthy ?m then _ else _) <> _ =>
      destruct (truthy m) eqn:T; [now apply truthy_nonempty|discriminate] end.
  - intros N. rewrite errorHandler_statusCode, N.
    unfold knownErrorNames. cbn [In].
    assert (S : forall a b : string, a = b <-> b = a) by (split; congruence).
    rewrite (S "CastError"), (S "ValidationError"), (S "JsonWebTokenError"),
      (S "TokenExpiredError"), <- !String.eqb_eq.
    destruct (Err.name err =? "TokenExpiredError");
      [split; [auto 6|split; [discriminate|intros [K _]; exfalso; apply K; auto 6]]|].
    destruct (Err.name err =? "JsonWebTokenError");
      [split; [auto 6|split; [discriminate|intros [K _]; exfalso; apply K; auto 6]]|].
    destruct (Err.name err =? "ValidationError");
      [split; [auto 6|split; [discriminate|intros [K _]; exfalso; apply K; auto 6]]|].
    destruct (Err.code err) as [n|].
    + destruct (n =? 11000)%N eqn:E.
      * apply N.eqb_eq in E. subst n.
        split; [auto 6|split; [discriminate|intros [_ K]; now contradiction K]].
      * apply N.eqb_neq in E.
        destruct (Err.name err =? "CastError");
          [split; [auto 6|split; [discriminate|intros [K _]; exfalso; apply K; auto 6]]|].
        split; [auto 6|]. split; [|reflexivity]. intros _. split; [|congruence].
        intros [K|[K|[K|[K|[]]]]]; discriminate K.
    + destruct (Err.name err =? "CastError");
        [split; [auto 6|split; [discriminate|intros [K _]; exfalso; apply K; auto 6]]|].
      split; [auto 6|]. split; [|reflexivity]. intros _. split; [|discriminate].
      intros [K|[K|[K|[K|[]]]]]; discriminate K.
Qed.

(** X18. An [ApiError] with a non-empty message and a non-zero status
    code passes through [errorHandler] as it is: the response carries
    that code and that message.  So the 404 middleware answers a request
    that no route has taken with 404 and "Route not found: <url>". *)
Theorem X18_ApiError_passes_through msg code url :
  (msg <> "" -> code <> 0 ->
   errorHandler (ApiError msg code)
   = {| Res.statusCode := code; Res.success := false; Res.data := NoData;
        Res.count := None; Res.message := None; Res.error := Some msg;
        Res.errors := None |})
  /\ notFound url
     = {| Res.statusCode := 404; Res.success := false; Res.data := NoData;
          Res.count := None; Res.message := None;
          Res.error := Some ("Route not found: " ++ url); Res.errors := None |}.
Proof.
  split.
  - intros M C. apply truthy_nonempty in M.
    unfold errorHandler. cbn. rewrite M. destruct code; [congruence|reflexivity].
  - reflexivity.
Qed.

(** X19. For the HTTP status codes 100 to 599 the [status] member of an
    [ApiError] is "fail" exactly for the client errors 400 to 499, and
    "error" otherwise. *)
Theorem X19_ApiError_status_is_fail_for_4xx code :
  100 <= code <= 599 ->
  (ApiError_status code = "fail" <-> 400 <= code <= 499)
  /\ (ApiError_status code = "error" <-> ~ 400 <= code <= 499).
Proof.
  intros R.
  assert (A : forallb (fun c => String.eqb (ApiError_status c)
                                  (if ((400 <=? c) && (c <=? 499))%nat
                                   then "fail" else "error"))
                (seq 100 500) = true) by (vm_compute; reflexivity).
  rewrite forallb_forall in A.
  specialize (A code). rewrite in_seq in A.
  apply String.eqb_eq in A; [|lia]. rewrite A.
  destruct ((400 <=? code) && (code <=? 499))%nat eqn:B.
  - apply andb_true_iff in B. destruct B as [B1 B2].
    apply Nat.leb_le in B1, B2. split; split; try tauto; try discriminate; lia.
  - apply andb_false_iff in B.
    assert (~ 400 <= code <= 499)
      by (destruct B as [B|B]; apply Nat.leb_gt in B; lia).
    split; split; try tauto; discriminate.
Qed.

(** ** The client's error texts *)

(** X20. [handleAPIError] never returns an empty text: a missing or
    empty server message is replaced by the fixed text of its case.  For
    the statuses 401, 403, 404 and 500 the text does not depend on the
    body of the response at all. *)
Theorem X20_handleAPIError_text_is_never_empty error :
  Client.handleAPIError error <> ""
  /\ (forall status m1 m2 req msg,
        In status [401; 403; 404; 500] ->
        Client.handleAPIError
          {| Client.response := Some (status, m1); Client.request := req;
             Client.message := msg |}
        = Client.handleAPIError
            {| Client.response := Some (status, m2); Client.request := req;
               Client.message := msg |}).
Proof.
  split.
  - unfold Client.handleAPIError.
    destruct (Client.response error) as [[status m]|].
    + repeat match goal with
             | |- (if ?b then _ else _) <> _ => destruct b
             end;
        try discriminate; apply orElse_nonempty; discriminate.
    + destruct (Client.request error); [discriminate|].
      apply orElse_nonempty; discriminate.
  - intros status m1 m2 req msg I. cbn in I.
    destruct I as [<-|[<-|[<-|[<-|[]]]]]; reflexivity.
Qed.

(** X21. What the client shows for a failed [bugAPI] call, whose wrapper
    rethrows before [handleAPIError] sees the error: the [message] member
    of the server's body when it is present and non-empty, the fallback
    of the call otherwise.  A response of [errorHandler] carries its text
    in [error], not in [message], so for it the client shows the
    fallback. *)
Theorem X21_client_shows_message_or_fallback fallback error err :
  fallback <> "" ->
  Client.handleAPIError (rethrow fallback error)
  = orElse (match Client.response error with
            | Some (_, data_message) => data_message
            | None => None
            end) fallback
  /\ Client.handleAPIError (rethrow fallback (Client.rejected (errorHandler err)))
     = fallback.
Proof.
  intros F.
  assert (E : forall o, orElse (Some (orElse o fallback)) "An unexpected error occurred"
                        = orElse o fallback).
  { intros o. unfold orElse at 1.
    pose proof (orElse_nonempty o fallback F) as N.
    apply truthy_nonempty in N. now rewrite N. }
  split.
  - unfold Client.handleAPIError, rethrow.
    cbn [Client.response Client.request Client.message]. apply E.
  - unfold Client.handleAPIError, rethrow.
    cbn [Client.response Client.request Client.message Client.rejected Res.message].
    rewrite E. reflexivity.
Qed.
(** ** The form and the server agree *)

Lemma check_passed (v : string) (n : nat) (m1 m2 : string) :
  (if negb (truthy v) then Some m1
   else if (n <? utf16Length v)%nat then Some m2 else None) = None ->
  v <> "" /\ (utf16Length v <= n)%nat.
Proof.
  rewrite <- truthy_nonempty. destruct (truthy v); cbn [negb]; [|discriminate].
  destruct (n <? utf16Length v)%nat eqn:E; [discriminate|].
  apply Nat.ltb_ge in E. auto.
Qed.

Lemma isValid_checks form :
  BugForm.isValid form = true ->
  BugForm.e_title (BugForm.validateForm form) = None
  /\ BugForm.e_description (BugForm.validateForm form) = None
  /\ BugForm.e_priority (BugForm.validateForm form) = None
  /\ BugForm.e_reportedBy (BugForm.validateForm form) = None
  /\ BugForm.e_customerName (BugForm.validateForm form) = None
  /\ BugForm.e_customerEmail (BugForm.validateForm form) = None.
Proof.
  unfold BugForm.isValid.
  destruct (BugForm.validateForm form) as [[?|] [?|] [?|] [?|] [?|] [?|]];
    try discriminate.
  repeat split.
Qed.

(** X22. A form that [validateForm] accepts is accepted by the server:
    with a source of the form's select and a fresh identifier, the
    [POST /api/bugs] of its payload is answered 201, and the stored bug
    has the trimmed title, description, reporter and assignee of the
    form, its priority and source, and status "Open". *)
Theorem X22_valid_form_is_accepted_by_the_server form env s :
  BugForm.isValid form = true ->
  In (BugForm.source form) sourceValues ->
  lookup (newObjectId env) (bugs s) = None ->
  exists saved,
    fst (postBug env (BugForm.payload form) s)
    = ok 201 (OneBug saved) (Some "Bug created successfully")
    /\ lookup (newObjectId env)
         (bugs (snd (postBug env (BugForm.payload form) s))) = Some saved
    /\ title saved = trim (BugForm.title form)
    /\ description saved = trim (BugForm.description form)
    /\ reportedBy saved = trim (BugForm.reportedBy form)
    /\ assignedTo saved = trim (BugForm.assignedTo form)
    /\ priority saved = BugForm.priority form
    /\ source saved = BugForm.source form
    /\ status saved = "Open".
Proof.
  intros V Src L.
  destruct (isValid_checks form V) as [Et [Ed [Ep [Er _]]]].
  unfold BugForm.validateForm in Et, Ed, Ep, Er.
  cbn [BugForm.e_title BugForm.e_description BugForm.e_priority
         BugForm.e_reportedBy] in Et, Ed, Ep, Er.
  apply check_passed in Et, Ed, Er.
  assert (Ip : In (BugForm.priority form) priorityValues).
  { apply includes_In. change ["Low"; "Medium"; "High"] with priorityValues in Ep.
    destruct (includes priorityValues (BugForm.priority form));
      [reflexivity|discriminate Ep]. }
  assert (Np : BugForm.priority form <> "").
  { intros E. rewrite E in Ip. cbn in Ip.
    destruct Ip as [F|[F|[F|[]]]]; discriminate F. }
  assert (Ns : BugForm.source form <> "").
  { intros E. rewrite E in Src. cbn in Src.
    destruct Src as [F|[F|[]]]; discriminate F. }
  assert (K : creatable env (BugForm.payload form) s).
  { unfold creatable, BugForm.payload.
    cbn [Body.title Body.description Body.reportedBy Body.priority Body.source].
    split; [now exists (BugForm.title form)|].
    split; [now exists (BugForm.description form)|].
    split; [now exists (BugForm.reportedBy form)|].
    split; [right; right; now exists (BugForm.priority form)|].
    split; [right; right; now exists (BugForm.source form)|exact L]. }
  destruct (postBug_creatable env (BugForm.payload form) s K) as [Q1 Q2].
  set (doc := postBugDoc env (BugForm.payload form)) in *.
  exists doc. split; [exact Q1|]. split.
  { rewrite Q2. now apply lookup_app_new. }
  split; [reflexivity|]. split; [reflexivity|]. split; [reflexivity|].
  split.
  { unfold doc, postBugDoc, BugForm.payload, BugForm.orUndefined.
    cbn [assignedTo Body.assignedTo].
    destruct (truthy (BugForm.assignedTo form)) eqn:Ta; cbn [orElse].
    - now rewrite Ta.
    - apply negb_false_iff, String.eqb_eq in Ta. now rewrite Ta. }
  split.
  { unfold doc, postBugDoc, BugForm.payload. cbn [priority Body.priority].
    now apply orElse_supplied. }
  split; [|reflexivity].
  unfold doc, postBugDoc, BugForm.payload. cbn [source Body.source].
  now apply orElse_supplied.
Qed.

(** ** The e-mail check of the form *)

Lemma isSome_dropPrefix_sep w x sep y :
  ~ In sep w ->
  match dropPrefix w (x ++ sep :: y)%list with Some _ => true | None => false end
  = match dropPrefix w x with Some _ => true | None => false end.
Proof.
  revert x. induction w as [|a w IH]; intros x N; [reflexivity|].
  destruct x as [|c x]; cbn [dropPrefix app].
  - destruct (Ascii.eqb a sep) eqn:E; [|reflexivity].
    apply Ascii.eqb_eq in E. exfalso. apply N. now left.
  - destruct (Ascii.eqb a c); [|reflexivity]. apply IH.
    intros I. apply N. now right.
Qed.

Lemma isSome_dropAny_sep ws x sep y :
  Forall (fun w => ~ In sep w) ws ->
  match dropAny ws (x ++ sep :: y)%list with Some _ => true | None => false end
  = match dropAny ws x with Some _ => true | None => false end.
Proof.
  induction 1 as [|w ws N _ IH]; [reflexivity|]. cbn [dropAny].
  pose proof (isSome_dropPrefix_sep w x sep y N) as E.
  destruct (dropPrefix w (x ++ sep :: y)%list), (dropPrefix w x);
    try discriminate E; [reflexivity|exact IH].
Qed.

(** No white-space character has the byte of "." or of "@" in its
    encoding. *)
Lemma whiteSpace_no_dot : Forall (fun w => ~ In "."%char w) whiteSpace.
Proof.
  repeat constructor; intros I; cbn in I;
    repeat (destruct I as [I|I]; [discriminate I|]); exact I.
Qed.

Lemma startsWithSpace_dot x y :
  startsWithSpace (x ++ String "." y) = startsWithSpace x.
Proof.
  unfold startsWithSpace. rewrite list_ascii_of_string_app.
  cbn [list_ascii_of_string].
  apply isSome_dropAny_sep, whiteSpace_no_dot.
Qed.

Lemma hasSpace_dot x y : hasSpace (x ++ String "." y) = hasSpace x || hasSpace y.
Proof.
  induction x as [|c x IH].
  - change ("" ++ String "." y) with (String "." y). cbn [hasSpace].
    pose proof (startsWithSpace_dot "" y) as E. cbn [append] in E.
    rewrite E. reflexivity.
  - change (String c x ++ String "." y) with (String c (x ++ String "." y)).
    cbn [hasSpace]. rewrite IH.
    change (String c (x ++ String "." y)) with (String c x ++ String "." y).
    rewrite startsWithSpace_dot. now rewrite orb_assoc.
Qed.

Lemma hasAt_app x y : BugForm.hasAt (x ++ y) = BugForm.hasAt x || BugForm.hasAt y.
Proof.
  induction x as [|c x IH]; [reflexivity|]. cbn [append BugForm.hasAt].
  now rewrite IH, orb_assoc.
Qed.

Lemma allPlain_dot b c :
  BugForm.allPlain (b ++ "." ++ c) = BugForm.allPlain b && BugForm.allPlain c.
Proof.
  unfold BugForm.allPlain. change ("." ++ c) with (String "." c).
  rewrite hasSpace_dot, hasAt_app. cbn [BugForm.hasAt].
  change (Ascii.eqb "." "@") with false. cbn [orb].
  destruct (hasSpace b), (hasSpace c), (BugForm.hasAt b), (BugForm.hasAt c);
    reflexivity.
Qed.

Lemma splitAtSign_sound s a d :
  BugForm.splitAtSign s = Some (a, d) -> s = a ++ "@" ++ d.
Proof.
  revert a. induction s as [|c s IH]; intros a E; cbn in E; [discriminate|].
  destruct (Ascii.eqb c "@") eqn:C.
  - apply Ascii.eqb_eq in C. subst c. now injection E as <- <-.
  - destruct (BugForm.splitAtSign s) as [[a' d']|]; [|discriminate].
    injection E as <- <-. cbn. f_equal. now apply IH.
Qed.

Lemma splitAtSign_complete a d :
  BugForm.hasAt a = false -> BugForm.splitAtSign (a ++ "@" ++ d) = Some (a, d).
Proof.
  induction a as [|c a IH]; intros P; [reflexivity|].
  cbn [BugForm.hasAt] in P. apply orb_false_iff in P. destruct P as [Pc Pa].
  specialize (IH Pa).
  cbn [append BugForm.splitAtSign] in *. now rewrite Pc, IH.
Qed.

Lemma dotThenMore_sound s :
  BugForm.dotThenMore s = true -> exists b c, s = b ++ "." ++ c /\ c <> "".
Proof.
  induction s as [|x s IH]; cbn; [discriminate|].
  intros H. apply orb_true_iff in H. destruct H as [H|H].
  - apply andb_true_iff in H. destruct H as [Hx Hs].
    apply Ascii.eqb_eq in Hx. subst x.
    exists "", s. split; [reflexivity|].
    apply negb_true_iff, String.eqb_neq in Hs. exact Hs.
  - destruct (IH H) as [b [c [-> N]]]. now exists (String x b), c.
Qed.

Lemma dotThenMore_complete b c :
  c <> "" -> BugForm.dotThenMore (b ++ "." ++ c) = true.
Proof.
  intros N. induction b as [|x b IH]; cbn [append BugForm.dotThenMore] in *.
  - apply String.eqb_neq in N. now rewrite N.
  - rewrite IH. apply orb_true_r.
Qed.

(** X23. The e-mail check of the form accepts exactly the texts
    [a@b.c] in which [a], [b] and [c] are non-empty and hold neither a
    white-space character nor "@". *)
Theorem X23_email_check_accepts_a_at_b_dot_c s :
  BugForm.emailMatches s = true
  <-> exists a b c,
        s = a ++ "@" ++ b ++ "." ++ c
        /\ a <> "" /\ b <> "" /\ c <> ""
        /\ BugForm.allPlain a = true /\ BugForm.allPlain b = true
        /\ BugForm.allPlain c = true.
Proof.
  unfold BugForm.emailMatches. split.
  - destruct (BugForm.splitAtSign s) as [[a d]|] eqn:E; [|discriminate].
    intros H. repeat (apply andb_true_iff in H; destruct H as [H ?]).
    apply negb_true_iff, String.eqb_neq in H.
    apply splitAtSign_sound in E. subst s.
    destruct d as [|x d]; [discriminate|]. cbn [BugForm.dotInside] in *.
    destruct (dotThenMore_sound d H0) as [b [c [-> N]]].
    exists a, (String x b), c.
    change (String x (b ++ "." ++ c)) with (String x b ++ "." ++ c) in *.
    rewrite allPlain_dot in H1. apply andb_true_iff in H1.
    destruct H1 as [Pb Pc].
    repeat split; try assumption. discriminate.
  - intros [a [b [c [-> [Na [Nb [Nc [Pa [Pb Pc]]]]]]]]].
    assert (Aa : BugForm.hasAt a = false).
    { unfold BugForm.allPlain in Pa. apply andb_true_iff in Pa.
      destruct Pa as [_ Pa]. now apply negb_true_iff in Pa. }
    rewrite (splitAtSign_complete a _ Aa).
    apply String.eqb_neq in Na. rewrite Na, Pa. cbn [negb andb].
    rewrite allPlain_dot, Pb, Pc. cbn [andb].
    destruct b as [|x b]; [congruence|]. cbn [append BugForm.dotInside].
    pose proof (dotThenMore_complete b c Nc) as D. cbn [append] in D.
    exact D.
Qed.

(** ** Sorting and filtering from the list view *)

Lemma String_leb_trans a b c :
  String.leb a b = true -> String.leb b c = true -> String.leb a c = true.
Proof.
  assert (G : forall a b c, String.compare a b <> Gt -> String.compare b c <> Gt ->
                            String.compare a c <> Gt).
  { clear. induction a as [|x a IH]; intros [|y b] [|z c]; cbn [String.compare];
      try congruence.
    unfold Ascii.compare.
    destruct (N.compare_spec (N_of_ascii x) (N_of_ascii y)) as [E1|L1|G1],
             (N.compare_spec (N_of_ascii y) (N_of_ascii z)) as [E2|L2|G2],
             (N.compare_spec (N_of_ascii x) (N_of_ascii z)) as [E3|L3|G3];
      try congruence; try lia.
    apply IH. }
  unfold String.leb. intros H1 H2. specialize (G a b c).
  destruct (String.compare a b); try discriminate H1;
    destruct (String.compare b c); try discriminate H2;
    destruct (String.compare a c); try reflexivity;
    exfalso; apply G; congruence.
Qed.

Lemma columnLe_trans field a b c :
  BugList.columnLe field a b -> BugList.columnLe field b c ->
  BugList.columnLe field a c.
Proof.
  unfold BugList.columnLe.
  intros [[F H]|[[F H]|[[F H]|[F H]]]] [[F' H']|[[F' H']|[[F' H']|[F' H']]]];
    try (rewrite F in F'; discriminate F').
  - left. split; [exact F|]. now apply (String_leb_trans _ (title b)).
  - right; left. split; [exact F|]. now apply (String_leb_trans _ (priority b)).
  - right; right; left. split; [exact F|].
    now apply (String_leb_trans _ (status b)).
  - right; right; right. split; [exact F|]. lia.
Qed.

Lemma inOrder_columnLe field (asc : bool) a b :
  In field BugList.columns ->
  inOrder field asc a b = true ->
  if asc then BugList.columnLe field a b else BugList.columnLe field b a.
Proof.
  unfold BugList.columns, BugList.columnLe, inOrder.
  intros [<-|[<-|[<-|[<-|[]]]]] H.
  - change (sortKey "title" a) with (KString (title a)) in H.
    change (sortKey "title" b) with (KString (title b)) in H.
    destruct asc; left; (split; [reflexivity|exact H]).
  - change (sortKey "priority" a) with (KString (priority a)) in H.
    change (sortKey "priority" b) with (KString (priority b)) in H.
    destruct asc; right; left; (split; [reflexivity|exact H]).
  - change (sortKey "status" a) with (KString (status a)) in H.
    change (sortKey "status" b) with (KString (status b)) in H.
    destruct asc; right; right; left; (split; [reflexivity|exact H]).
  - change (sortKey "createdAt" a) with (KDate (createdAt a)) in H.
    change (sortKey "createdAt" b) with (KDate (createdAt b)) in H.
    cbn [key_leb] in H.
    destruct asc; right; right; right; (split; [reflexivity|now apply N.leb_le]).
Qed.

Lemma Sorted_weaken {A} (R1 R2 : A -> A -> Prop) l :
  (forall a b, R1 a b -> R2 a b) -> Sorted R1 l -> Sorted R2 l.
Proof.
  intros W. induction 1 as [|a l _ IH Hd]; constructor; [exact IH|].
  destruct Hd; constructor. now apply W.
Qed.

Lemma sort_by_column field (asc : bool) l :
  In field BugList.columns ->
  StronglySorted
    (fun a b : Bug => if asc then BugList.columnLe field a b
                      else BugList.columnLe field b a) (sort field asc l).
Proof.
  intros I. apply Sorted_StronglySorted.
  - intros a b c. destruct asc; intros H1 H2.
    + now apply (columnLe_trans field a b c).
    + now apply (columnLe_trans field c b a).
  - apply (Sorted_weaken (fun a b => inOrder field asc a b = true)).
    + intros a b. now apply inOrder_columnLe.
    + apply sort_sorted.
Qed.

Lemma handleSort_keeps field st :
  In field BugList.columns ->
  In (BugList.sortBy st) BugList.columns
  /\ (BugList.sortOrder st = "asc" \/ BugList.sortOrder st = "desc") ->
  In (BugList.sortBy (BugList.handleSort field st)) BugList.columns
  /\ (BugList.sortOrder (BugList.handleSort field st) = "asc"
      \/ BugList.sortOrder (BugList.handleSort field st) = "desc").
Proof.
  intros F [C O]. unfold BugList.handleSort.
  destruct (BugList.sortBy st =? field); cbn [BugList.sortBy BugList.sortOrder].
  - split; [exact C|]. destruct O as [-> | ->]; cbn; auto.
  - split; [exact F|now right].
Qed.

Lemma afterClicks_keeps fields :
  Forall (fun f => In f BugList.columns) fields ->
  In (BugList.sortBy (BugList.afterClicks fields)) BugList.columns
  /\ (BugList.sortOrder (BugList.afterClicks fields) = "asc"
      \/ BugList.sortOrder (BugList.afterClicks fields) = "desc").
Proof.
  unfold BugList.afterClicks. intros F.
  assert (G : forall st,
             In (BugList.sortBy st) BugList.columns
             /\ (BugList.sortOrder st = "asc" \/ BugList.sortOrder st = "desc") ->
             let st' := List.fold_left (fun st field => BugList.handleSort field st)
                          fields st in
             In (BugList.sortBy st') BugList.columns
             /\ (BugList.sortOrder st' = "asc" \/ BugList.sortOrder st' = "desc")).
  { induction F as [|f fields Ff _ IH]; intros st H; [exact H|].
    cbn [List.fold_left]. apply IH. now apply handleSort_keeps. }
  apply G. split; [|now right].
  right; right; right; left; reflexivity.
Qed.

Lemma column_nonempty field : In field BugList.columns -> field <> "".
Proof.
  intros I E. subst field.
  repeat (destruct I as [I|I]; [discriminate I|]). exact I.
Qed.

(** What the server answers to the query of the list view. *)
Lemma getBugs_fetchParams selStatus selPriority src who st s :
  In (BugList.sortBy st) BugList.columns ->
  getBugs (BugList.fetchParams selStatus selPriority src who st) s
  = (let l := sort (BugList.sortBy st) (negb (BugList.sortOrder st =? "desc"))
                (List.filter (BugList.selected selStatus selPriority) (bugs s)) in
     {| Res.statusCode := 200; Res.success := true; Res.data := Bugs l;
        Res.count := Some (List.length l); Res.message := None;
        Res.error := None; Res.errors := None |}, s).
Proof.
  intros C. apply column_nonempty, String.eqb_neq in C.
  unfold getBugs, route, bind, find.
  cbn [BugList.fetchParams Query.sortBy Query.order Query.status Query.priority
         getOr truthyO].
  rewrite C. cbv zeta. cbn [ret].
  assert (E : forall l,
             List.filter
               (matches
                  {| Query.status := if truthy selStatus then Some selStatus else None;
                     Query.priority :=
                       if truthy selPriority then Some selPriority else None;
                     Query.source := None; Query.assignedTo := None;
                     Query.sortBy := None; Query.order := None |}) l
             = List.filter (BugList.selected selStatus selPriority) l).
  { intros l. apply filter_ext. intros d.
    unfold matches, BugList.selected, truthy.
    cbn [Query.status Query.priority Query.source Query.assignedTo].
    rewrite !andb_true_r. f_equal.
    - destruct (selStatus =? "") eqn:T; cbn [negb eqMember orb];
        [reflexivity|apply String.eqb_sym].
    - destruct (selPriority =? "") eqn:T; cbn [negb eqMember orb];
        [reflexivity|apply String.eqb_sym]. }
  rewrite E. reflexivity.
Qed.

(** X24. Whatever headers of the columns title, priority, status and
    createdAt are clicked, the list view asks the server for one of
    these columns and for the order "asc" or "desc"; the server answers
    200 with the list in the ascending order of that column for "asc"
    and in its descending order for "desc" (strings by their bytes,
    dates by their time).  A click on the current column flips the
    direction and a second click restores it; a click on another column
    selects that column, descending. *)
Theorem X24_list_view_and_server_agree_on_the_order fields field selStatus selPriority src who s :
  Forall (fun f => In f BugList.columns) fields ->
  let st := BugList.afterClicks fields in
  let r := fst (getBugs (BugList.fetchParams selStatus selPriority src who st) s) in
  (BugList.sortOrder st = "asc" \/ BugList.sortOrder st = "desc")
  /\ In (BugList.sortBy st) BugList.columns
  /\ Res.statusCode r = 200
  /\ (BugList.sortOrder st = "asc" ->
      StronglySorted (fun a b => BugList.columnLe (BugList.sortBy st) a b) (found r))
  /\ (BugList.sortOrder st = "desc" ->
      StronglySorted (fun a b => BugList.columnLe (BugList.sortBy st) b a) (found r))
  /\ (BugList.sortBy st = field ->
      BugList.sortBy (BugList.handleSort field st) = field
      /\ BugList.sortOrder (BugList.handleSort field st) <> BugList.sortOrder st
      /\ BugList.handleSort field (BugList.handleSort field st) = st)
  /\ (BugList.sortBy st <> field ->
      BugList.handleSort field st
      = {| BugList.sortBy := field; BugList.sortOrder := "desc" |}).
Proof.
  intros F st r. destruct (afterClicks_keeps fields F) as [C O].
  fold st in C, O. subst r.
  rewrite (getBugs_fetchParams selStatus selPriority src who st s C).
  cbv zeta. cbn [fst found Res.data Res.statusCode].
  clearbody st. destruct st as [sb so]. cbn [BugList.sortBy BugList.sortOrder] in *.
  split; [exact O|]. split; [exact C|]. split; [reflexivity|].
  split; [|split; [|split]].
  - intros ->. apply (sort_by_column sb true _ C).
  - intros ->. apply (sort_by_column sb false _ C).
  - intros ->. unfold BugList.handleSort.
    cbn [BugList.sortBy BugList.sortOrder]. rewrite String.eqb_refl.
    cbn [BugList.sortBy BugList.sortOrder]. rewrite String.eqb_refl.
    destruct O as [-> | ->]; cbn;
      (split; [reflexivity|split; [discriminate|reflexivity]]).
  - intros N. unfold BugList.handleSort. cbn [BugList.sortBy].
    apply String.eqb_neq in N. now rewrite N.
Qed.

(** X25. What the Status and Priority filters of the list view do, with
    the Source and Assignee filters left at "All" and any sorting the
    view can reach: the server answers 200 with exactly the stored
    records whose status equals the selected status and whose priority
    equals the selected priority, each once, the selection "" (All)
    admitting every record; [count] is their number. *)
Theorem X25_list_view_filters fields selStatus selPriority s :
  Forall (fun f => In f BugList.columns) fields ->
  let r := fst (getBugs (BugList.fetchParams selStatus selPriority "" ""
                           (BugList.afterClicks fields)) s) in
  Res.statusCode r = 200
  /\ Permutation (found r)
       (List.filter (BugList.selected selStatus selPriority) (bugs s))
  /\ Res.count r = Some (List.length (found r))
  /\ (forall d,
        In d (found r)
        <-> In d (bugs s)
            /\ (selStatus = "" \/ status d = selStatus)
            /\ (selPriority = "" \/ priority d = selPriority)).
Proof.
  intros F r. destruct (afterClicks_keeps fields F) as [C _]. subst r.
  rewrite (getBugs_fetchParams selStatus selPriority "" "" _ s C).
  cbv zeta. cbn [fst found Res.data Res.statusCode Res.count].
  split; [reflexivity|]. split; [apply sort_perm|]. split; [reflexivity|].
  intros d. rewrite sort_In, filter_In. unfold BugList.selected.
  rewrite andb_true_iff, !orb_true_iff, !String.eqb_eq. reflexivity.
Qed.

(** ** Round trips *)



Section RoundTrips.

Variable castObjectId : string -> option ObjectId.


(** X27. A record that [POST /api/bugs] has created can be read back:
    after a create answered 201, [GET /:id] with the identifier of the
    new record answers 200 with the very record of the create response,
    and the unfiltered list contains it. *)
Theorem X27_created_record_can_be_read_back env body id s :
  castObjectId id = Some (newObjectId env) ->
  Res.statusCode (fst (postBug env body s)) = 201 ->
  exists saved,
    Res.data (fst (postBug env body s)) = OneBug saved
    /\ fst (getBug castObjectId id (snd (postBug env body s)))
       = ok 200 (OneBug saved) None
    /\ In saved (found (fst (getBugs Query.empty (snd (postBug env body s))))).
Proof.
  intros H C.
  destruct (postBug_cases env body s) as [[_ [_ F]]|[_ [_ [L [R E]]]]];
    [rewrite F in C; discriminate C|].
  exists (postBugDoc env body). rewrite R. split; [reflexivity|].
  assert (L1 : lookup (newObjectId env) (bugs (snd (postBug env body s)))
               = Some (postBugDoc env body))
    by (rewrite E; now apply lookup_app_new).
  split.
  - unfold getBug, route, bind, findById. rewrite H. cbv beta. now rewrite L1.
  - destruct (getBugs_unfiltered Query.empty (snd (postBug env body s)))
      as [_ [P _]]; [discriminate|reflexivity|reflexivity|].
    eapply Permutation_in; [apply Permutation_sym, P|].
    rewrite E. apply in_or_app. right. now left.
Qed.

End RoundTrips.

(** ** Texts outside ASCII, on the test data *)

Example trim_strips_unicode_white_space :
  trim (nbsp ++ " " ++ lineSeparator ++ "Jane Doe" ++ nbsp ++ nl) = "Jane Doe"
  /\ trim (nbsp ++ lineSeparator) = ""
  /\ trim ("a" ++ nbsp ++ "b") = "a" ++ nbsp ++ "b".
Proof. repeat split. Qed.

Example length_counts_code_units :
  utf16Length "abc" = 3
  /\ utf16Length "é" = 1 /\ String.length "é" = 2
  /\ utf16Length "🐛" = 2 /\ String.length "🐛" = 4
  /\ utf16Length (repeatText 60 "é") = 60.
Proof. repeat split. Qed.

(** A title of 60 characters that take 120 bytes is within the limit of
    100. *)
Example create_with_accented_title :
  Res.statusCode
    (fst (postBug (noWebhook 1%N 1%N) (sampleWith (repeatText 60 "é") "Low") emptyState))
  = 201.
Proof. reflexivity. Qed.

(** An author that is a no-break space passes the presence check of the
    route and fails [required] once trimmed. *)
Example comment_by_no_break_space :
  let r := postComment hex24 (noWebhook 2%N 2%N) testBugId (commentOf nbsp "Seen")
             oneBugState in
  Res.statusCode (fst r) = 400
  /\ Res.error (fst r) = Some "Path `author` is required."
  /\ snd r = oneBugState.
Proof. repeat split. Qed.

(** A reason of 300 characters that take 600 bytes is within the limit
    of 500: the patch goes through, with its two entries. *)
Example patch_with_accented_reason :
  let r := patchStatus hex24 (noWebhook 2%N 2%N) testBugId
             (statusWithReason "Resolved" (repeatText 300 "é")) oneBugState in
  Res.statusCode (fst r) = 200
  /\ exists bug, Res.data (fst r) = OneBug bug /\ List.length (statusHistory bug) = 2.
Proof. split; [reflexivity|]. eexists. split; reflexivity. Qed.

Example email_with_no_break_space :
  BugForm.emailMatches ("a" ++ nbsp ++ "b@c.d") = false
  /\ BugForm.emailMatches "a b@c.d" = false
  /\ BugForm.emailMatches "ab@c.d" = true
  /\ BugForm.emailMatches "é@c.d" = true.
Proof. repeat split. Qed.

(** [GET /api/bugs?sortBy=]: the empty field name is refused. *)
Example list_with_empty_sortBy :
  let r := getBugs (sortQuery "" "asc") oneBugState in
  Res.statusCode (fst r) = 500
  /\ Res.error (fst r)
     = Some ("Invalid field " ++ dquote ++ dquote ++ " passed to sort()")
  /\ snd r = oneBugState.
Proof. repeat split. Qed.

(** ** The further properties on the test data *)

Lemma X1_witness :
  fst (getBug hex24 testBugId
         (snd (deleteBug hex24 testBugId (reached hex24 patchSession))))
  = fail 404 "Bug not found".
Proof. apply (X1_delete_then_get_is_not_found hex24 patchSession testBugId 1%N). reflexivity. Defined.

Lemma X2_witness :
  fst (deleteBug hex24 testBugId oneBugState)
  = ok 200 (OneBug storedSample) (Some "Bug deleted successfully")
  /\ S (List.length (bugs (snd (deleteBug hex24 testBugId oneBugState)))) = 1.
Proof.
  destruct (X2_delete_removes_one_record hex24 testBugId 1%N storedSample oneBugState
              eq_refl eq_refl) as [R [N _]].
  split; [exact R|exact N].
Defined.


Lemma X5_witness :
  appendOnly oneBugState
    (snd (handle hex24 (noWebhook 2%N 2%N) (PUT_bug testBugId updatedBug)
            oneBugState)).
Proof.
  apply X5_comments_and_history_are_append_only.
  intros id body E. injection E as _ <-. reflexivity.
Defined.

Lemma X6_witness :
  fst (postComment hex24 (noWebhook 2%N 2%N) testBugId commentBody oneBugState)
  = ok 201
      (OneComment (Some {| c_author := "Jane";
                           c_message := "Seen on staging as well";
                           c_createdAt := 2%N |}))
      (Some "Comment added").
Proof.
  destruct (X6_comment_is_appended_or_refused hex24 (noWebhook 2%N 2%N) testBugId 1%N
              commentBody storedSample "Jane" "Seen on staging as well" oneBugState
              eq_refl eq_refl eq_refl eq_refl ltac:(discriminate)
              eq_refl ltac:(discriminate)) as [OK _].
  apply OK. split; [discriminate|]. split; [discriminate|].
  apply Nat.leb_le. reflexivity.
Defined.

Lemma X7_witness :
  Res.statusCode (fst (patchStatus hex24 (noWebhook 2%N 2%N) testBugId longReasonBody
                         oneBugState)) = 400
  /\ exists saved,
       lookup 1%N (bugs (snd (patchStatus hex24 (noWebhook 2%N 2%N) testBugId
                              longReasonBody oneBugState))) = Some saved
       /\ status saved = "Resolved".
Proof.
  destruct (X7_patch_with_long_reason_is_half_applied hex24 (noWebhook 2%N 2%N)
              testBugId 1%N longReasonBody storedSample "Resolved"
              (replicate 501 "x") oneBugState
              eq_refl eq_refl eq_refl eq_refl eq_refl eq_refl)
    as [C [_ [saved [L [S _]]]]].
  - apply Nat.ltb_lt. vm_compute. reflexivity.
  - split; [exact C|]. exists saved. split; [exact L|exact S].
Defined.

Lemma X8_witness :
  exists saved,
    lookup 1%N (bugs (snd (patchStatus hex24 (noWebhook 2%N 2%N) testBugId
                           (statusBody "Resolved") oneBugState))) = Some saved
    /\ status saved = "Resolved" /\ title saved = title storedSample.
Proof.
  destruct (X8_patch_touches_status_only hex24 (noWebhook 2%N 2%N) testBugId 1%N
              (statusBody "Resolved") storedSample "Resolved" oneBugState
              eq_refl eq_refl eq_refl eq_refl)
    as [saved [_ [L [S [_ [_ [Same _]]]]]]].
  exists saved. split; [exact L|]. split; [exact S|]. apply Same.
Defined.

Lemma X9_witness :
  exists saved,
    lookup 1%N (bugs (snd (putBug hex24 (noWebhook 2%N 2%N) testBugId updatedBug
                           oneBugState))) = Some saved
    /\ title saved = "Updated Test Bug"
    /\ reportedBy saved = "Test User".
Proof.
  destruct (X9_put_merges_the_body hex24 (noWebhook 2%N 2%N) testBugId 1%N updatedBug
              storedSample oneBugState eq_refl eq_refl eq_refl eq_refl)
    as [saved [_ [L [_ [_ [_ [T [_ [R _]]]]]]]]].
  exists saved. split; [exact L|]. split; [exact T|exact R].
Defined.

Lemma X10_witness :
  exists saved,
    Res.data (fst (postFeedback (noWebhook 2%N 2%N) sampleFeedback oneBugState))
    = OneBug saved
    /\ source saved = "customer" /\ reportedBy saved = "Acme Ltd".
Proof.
  destruct (X10_feedback_is_a_customer_bug (noWebhook 2%N 2%N) sampleFeedback oneBugState)
    as [H _].
  destruct (H eq_refl) as [saved [D [_ [S [_ [_ [_ [R _]]]]]]]].
  exists saved. split; [exact D|]. split; [exact S|exact R].
Defined.

Lemma X11_witness :
  trace (snd (postBug failingWebhook sampleBug emptyState))
  = [WebhookPost "https://hooks.example/T0" (newBugText storedSample)]
  /\ trace (snd (postBug failingWebhook titleOnly emptyState)) = [].
Proof.
  destruct (X11_create_notifies_once_after_saving failingWebhook sampleBug emptyState)
    as [_ H].
  destruct (H eq_refl) as [saved [D T]]. rewrite T.
  injection D as <-.
  destruct (X11_create_notifies_once_after_saving failingWebhook titleOnly emptyState)
    as [K _].
  split; [reflexivity|]. apply K. discriminate.
Defined.

Lemma X12_witness :
  Res.count (fst (getBugs (sortQuery "title" "asc") threeBugs)) = Some 3.
Proof.
  destruct (X12_list_without_filter_returns_everything (sortQuery "title" "asc")
              threeBugs) as [_ [_ C]]; [|reflexivity|reflexivity|exact C].
  right. exists "title". split; [reflexivity|now left].
Defined.

Lemma X13_witness :
  StronglySorted (fun a b => (createdAt b <= createdAt a)%N)
    (found (fst (getBugs Query.empty threeBugs))).
Proof.
  destruct (X13_list_is_ordered_by_creation_time Query.empty threeBugs eq_refl)
    as [D _].
  apply D. now left.
Defined.

Lemma X14_witness :
  exists byPriority,
    findByPriority "High" threeBugs = (inr byPriority, threeBugs)
    /\ Permutation (found (fst (getBugs (priorityQuery "High") threeBugs))) byPriority.
Proof.
  destruct (X14_findByPriority_agrees_with_the_route "High" threeBugs)
    as [l [E [_ [P _]]]].
  exists l. split; [exact E|]. apply P. discriminate.
Defined.

Lemma X15_witness : wellFormed storedSample.
Proof.
  apply (X15_stored_documents_obey_the_schema hex24
           [(noWebhook 1%N 1%N, POST_bugs sampleBug)] storedSample).
  - repeat constructor.
  - left. reflexivity.
Defined.

Lemma X16_witness : trimmedDoc storedSample.
Proof.
  apply (X16_stored_strings_are_trimmed hex24
           [(noWebhook 1%N 1%N, POST_bugs sampleBug)] storedSample).
  left. reflexivity.
Defined.

Lemma X17_witness :
  Res.statusCode (errorHandler (Error "Invalid status value")) = 500.
Proof.
  destruct (X17_errorHandler_answers (Error "Invalid status value"))
    as [_ [_ [_ [_ H]]]].
  destruct (H eq_refl) as [_ [_ K]]. apply K. split.
  - intros [E|[E|[E|[E|[]]]]]; discriminate E.
  - discriminate.
Defined.

Lemma X18_witness :
  Res.statusCode (errorHandler (ApiError "Payment required" 402)) = 402.
Proof.
  destruct (X18_ApiError_passes_through "Payment required" 402 "/api/nothing")
    as [H _].
  rewrite H; [reflexivity|discriminate|discriminate].
Defined.

Lemma X19_witness : ApiError_status 404 = "fail" /\ ApiError_status 500 = "error".
Proof.
  split.
  - apply (X19_ApiError_status_is_fail_for_4xx 404); lia.
  - apply (X19_ApiError_status_is_fail_for_4xx 500); lia.
Defined.

Lemma X20_witness :
  Client.handleAPIError
    {| Client.response := Some (404, Some "Bug not found"); Client.request := true;
       Client.message := None |}
  = Client.handleAPIError
      {| Client.response := Some (404, None); Client.request := true;
         Client.message := None |}.
Proof.
  destruct (X20_handleAPIError_text_is_never_empty
              {| Client.response := None; Client.request := false;
                 Client.message := None |}) as [_ H].
  apply H. cbn. auto.
Defined.

Lemma X21_witness :
  Client.handleAPIError
    (rethrow "Failed to create bug"
       (Client.rejected (fst (postBug (noWebhook 2%N 2%N) titleOnly emptyState))))
  = "Title, description, and reportedBy are required fields".
Proof.
  destruct (X21_client_shows_message_or_fallback "Failed to create bug"
              (Client.rejected (fst (postBug (noWebhook 2%N 2%N) titleOnly emptyState)))
              (Error "")) as [H _]; [discriminate|].
  rewrite H. reflexivity.
Defined.

Lemma X22_witness :
  exists saved,
    fst (postBug (noWebhook 1%N 1%N) (BugForm.payload sampleForm) emptyState)
    = ok 201 (OneBug saved) (Some "Bug created successfully")
    /\ title saved = "Login broken".
Proof.
  destruct (X22_valid_form_is_accepted_by_the_server sampleForm (noWebhook 1%N 1%N)
              emptyState eq_refl) as [saved [R [_ [T _]]]].
  - cbn. auto.
  - reflexivity.
  - exists saved. split; [exact R|exact T].
Defined.

Lemma X23_witness : BugForm.emailMatches "ops@acme.test" = true.
Proof.
  apply X23_email_check_accepts_a_at_b_dot_c.
  exists "ops", "acme", "test". repeat split; discriminate.
Defined.

Lemma X24_witness :
  StronglySorted (fun a b => BugList.columnLe "title" b a)
    (found (fst (getBugs (BugList.fetchParams "" "" "" ""
                            (BugList.afterClicks ["status"; "title"])) threeBugs)))
  /\ BugList.handleSort "title"
       (BugList.handleSort "title" (BugList.afterClicks ["status"; "title"]))
     = BugList.afterClicks ["status"; "title"].
Proof.
  assert (F : Forall (fun f => In f BugList.columns) ["status"; "title"]).
  { constructor; [right; right; left; reflexivity|].
    constructor; [left; reflexivity|constructor]. }
  destruct (X24_list_view_and_server_agree_on_the_order ["status"; "title"] "title"
              "" "" "" "" threeBugs F) as [_ [_ [_ [_ [D [K _]]]]]].
  split; [apply D; reflexivity|].
  destruct (K eq_refl) as [_ [_ E]]. exact E.
Defined.

Lemma X25_witness :
  Permutation
    (found (fst (getBugs (BugList.fetchParams "" "High" "" "" BugList.initial)
                   threeBugs)))
    (List.filter (BugList.selected "" "High") (bugs threeBugs)).
Proof.
  destruct (X25_list_view_filters [] "" "High" threeBugs) as [_ [P _]];
    [constructor|exact P].
Defined.


Lemma X27_witness :
  fst (getBug hex24 testBugId (snd (postBug (noWebhook 1%N 1%N) sampleBug emptyState)))
  = ok 200 (OneBug storedSample) None.
Proof.
  destruct (X27_created_record_can_be_read_back hex24 (noWebhook 1%N 1%N) sampleBug
              testBugId emptyState eq_refl eq_refl) as [saved [D [G _]]].
  injection D as <-. exact G.
Defined.
